(** * Offline School OS: authentication layer and attendance upsert engine

    A shallow embedding of

    - [middleware/auth.js]: [authenticateToken], [requireAdmin],
      [requireTeacher], [optionalAuth], [generateToken], [verifyToken];
    - [controllers/authController.js]: [login], [logout], [getProfile],
      [updateProfile], [changePassword], [register];
    - [controllers/attendanceController.js]: [recordAttendance],
      [bulkRecordAttendance], [updateAttendance], [deleteAttendance],
      [markAllPresent];
    - [controllers/settingsController.js]: [getAllSettings], [getSetting],
      [updateSetting], [bulkUpdateSettings];
    - the part of the schema of [db/database.js] these handlers touch.

    Conventions of the model.

    - A JavaScript value held in a request body or a table cell is a JSON
      scalar ([jsval]); numbers are integers (ids, seconds).  Text is held
      as the bytes of its UTF-8 encoding; [js_length] counts its UTF-16
      code units, as [String.prototype.length] does.  A JavaScript object
      is a finite map from property names to values; reading an absent
      property gives [undefined].
    - The SQLite store is a record of tables, each a list of rows in rowid
      order.  Every SQL statement of the handlers is one function on that
      record; a statement the engine rejects returns the error it raises and
      leaves the store as it was.  A statement that reads
      [CURRENT_TIMESTAMP] takes the time as an argument, and so does the
      handler that runs it; a handler is served within one second, so its
      statements read the same time.
    - Column affinity is modelled for integers: text such as ['5'] bound to
      an INTEGER or DATE column is the integer 5, and a number bound to a
      TEXT column is its decimal text.  Real numbers are outside the model:
      text that is a real literal (['1.0'], ['1e0']) or has blanks around
      the digits counts as text, and so does a number too large for 64
      bits; a number outside [int32], which the driver binds as a double,
      counts as the integer it is.
    - A query that can be answered from more than one index returns its
      rows in the order SQLite visits the indexes: for [username = ? OR
      email = ?] on [users], the row found by username comes first.
    - [async]/[await] is sequential here: a handler runs to completion on the
      store it is given and returns the response together with the new store.
    - [jsonwebtoken] is modelled symbolically: a token is either text that is
      not a JWT or a payload with an HS256 tag naming the key and the payload
      that were signed. *)

From Stdlib Require Import ZArith Lia Ascii String.
From stdpp Require Import base option list gmap strings pretty sorting.

Local Open Scope string_scope.
Local Open Scope Z_scope.

(** ** JavaScript values *)

Inductive jsval :=
| JUndefined
| JNull
| JBool (b : bool)
| JNum (n : Z)
| JStr (s : string).

#[global] Instance jsval_eq_dec : EqDecision jsval.
Proof. solve_decision. Defined.

(** [ToBoolean]: what [if (v)] and [!v] look at. *)
Definition truthy (v : jsval) : bool :=
  match v with
  | JUndefined | JNull => false
  | JBool b => b
  | JNum n => negb (n =? 0)
  | JStr s => negb (String.eqb s "")
  end.

(** [s.length] for the string whose UTF-8 bytes are [s]: the number of its
    UTF-16 code units.  A code point below U+10000 (a sequence that starts
    with a byte below 0x80 or from 0xC0 to 0xEF) is one unit, a code point
    above (first byte from 0xF0) is two, a continuation byte adds nothing. *)
Definition utf16_units (c : ascii) : nat :=
  let n := nat_of_ascii c in
  if (n <? 128)%nat then 1%nat
  else if (n <? 192)%nat then 0%nat
  else if (n <? 240)%nat then 1%nat
  else 2%nat.

Fixpoint js_length (s : string) : nat :=
  match s with
  | EmptyString => 0%nat
  | String c rest => (utf16_units c + js_length rest)%nat
  end.

(** [a || b] *)
Definition js_or (a b : jsval) : jsval := if truthy a then a else b.

(** [o.k] on an object. *)
Definition get (o : gmap string jsval) (k : string) : jsval :=
  default JUndefined (o !! k).

(** A thrown [Error]: its [name] and its [message]. *)
Record js_error := { name : string; message : string }.

Inductive completion (A : Type) :=
| Return (a : A)
| Throw (e : js_error).
Arguments Return {A} a.
Arguments Throw {A} e.

Definition cbind {A B} (c : completion A) (k : A -> completion B) : completion B :=
  match c with
  | Return a => k a
  | Throw e => Throw e
  end.

Notation "'let!' x ':=' c 'in' k" := (cbind c (fun x => k))
  (at level 10, x pattern, c at level 200, k at level 200).

(** ** The store *)

Inductive sqlval :=
| SNull
| SInt (n : Z)
| SText (s : string).

#[global] Instance sqlval_eq_dec : EqDecision sqlval.
Proof. solve_decision. Defined.

(** The numbers node-sqlite3 binds as integers; a number outside this range
    is bound as a double, which the model, having integers only, does not
    tell apart. *)
Definition int32 (n : Z) : Prop := -2147483648 <= n <= 2147483647.

(** How node-sqlite3 binds a parameter. *)
Definition bind (v : jsval) : sqlval :=
  match v with
  | JUndefined | JNull => SNull
  | JBool b => SInt (if b then 1 else 0)
  | JNum n => SInt n
  | JStr s => SText s
  end.

(** How a cell comes back in a row object. *)
Definition unbind (c : sqlval) : jsval :=
  match c with
  | SNull => JNull
  | SInt n => JNum n
  | SText s => JStr s
  end.

(** SQL [a = b] in a [WHERE] clause: never true on [NULL]. *)
Definition sql_eq (a b : sqlval) : bool :=
  match a, b with
  | SInt x, SInt y => x =? y
  | SText x, SText y => String.eqb x y
  | _, _ => false
  end.

Definition is_null (c : sqlval) : bool :=
  match c with SNull => true | _ => false end.

Definition digit_value (c : ascii) : option Z :=
  let n := Z.of_nat (nat_of_ascii c) in
  if (48 <=? n) && (n <=? 57) then Some (n - 48) else None.

Fixpoint digits_value (s : string) (acc : Z) : option Z :=
  match s with
  | EmptyString => Some acc
  | String c rest => v ← digit_value c; digits_value rest (10 * acc + v)
  end.

(** Text that is a well-formed integer literal: an optional sign and digits. *)
Definition integer_literal (s : string) : option Z :=
  match s with
  | EmptyString => None
  | String c rest =>
    if Ascii.eqb c "-" then
      (if String.eqb rest "" then None else Z.opp <$> digits_value rest 0)
    else if Ascii.eqb c "+" then
      (if String.eqb rest "" then None else digits_value rest 0)
    else digits_value s 0
  end.

(** The affinity of an INTEGER or DATE column, applied to a value stored in it
    or compared with it. *)
Definition numeric_affinity (v : sqlval) : sqlval :=
  match v with
  | SText s =>
    match integer_literal s with
    | Some n => SInt n
    | None => SText s
    end
  | _ => v
  end.

(** The affinity of a TEXT column. *)
Definition text_affinity (v : sqlval) : sqlval :=
  match v with
  | SInt n => SText (pretty n)
  | _ => v
  end.

Record user_row := {
  u_id : Z;
  u_username : string;
  u_email : string;
  u_password_hash : string;
  u_role : string;
  u_full_name : string;
  u_created_at : string;
  u_updated_at : string
}.

(** The columns of [students] the handlers read: the rowid, the student's
    code ([student_id TEXT UNIQUE NOT NULL]), the names, the class and the
    status. *)
Record student_row := {
  st_id : Z;
  st_student_id : string;
  st_first_name : string;
  st_last_name : string;
  st_class_id : sqlval;
  st_status : sqlval
}.

Record attendance_row := {
  at_id : Z;
  at_student_id : sqlval;
  at_date : sqlval;
  at_status : sqlval;
  at_notes : sqlval;
  at_recorded_by : sqlval;
  at_created_at : string;
  at_updated_at : string
}.

Record db := {
  users : list user_row;
  students : list student_row;
  attendance : list attendance_row;
  attendance_seq : Z   (* sqlite_sequence entry of the AUTOINCREMENT key *)
}.

(** What [executeQuery] resolves with, or the error it rejects with. *)
Inductive exec :=
| Done (d : db) (id changes : Z)
| Rejected (e : js_error).

Definition sqlite_constraint (what : string) : js_error :=
  {| name := "Error"; message := "SQLITE_CONSTRAINT: " +:+ what |}.

(** [WHERE student_id = ? AND date = ?] *)
Definition same_day (student_id date : sqlval) (r : attendance_row) : bool :=
  sql_eq (at_student_id r) (numeric_affinity student_id)
  && sql_eq (at_date r) (numeric_affinity date).

(** [selectOneQuery('SELECT id FROM attendance WHERE student_id = ? AND date = ?')]:
    the [id] of the first row found, [null] when there is none. *)
Definition select_attendance_id (d : db) (student_id date : sqlval) : option Z :=
  at_id <$> List.find (same_day student_id date) (attendance d).

Definition set_status_notes (timestamp : string) (status notes : sqlval)
           (r : attendance_row) : attendance_row :=
  {| at_id := at_id r; at_student_id := at_student_id r; at_date := at_date r;
     at_status := status; at_notes := notes; at_recorded_by := at_recorded_by r;
     at_created_at := at_created_at r; at_updated_at := timestamp |}.

(** [UPDATE attendance SET status = ?, notes = ?, updated_at = CURRENT_TIMESTAMP
     WHERE student_id = ? AND date = ?], run when [CURRENT_TIMESTAMP] is
    [timestamp].  [lastID] only means something after an INSERT; no caller
    reads it after this statement. *)
Definition update_attendance (timestamp : string) (d : db)
           (status notes student_id date : sqlval) : exec :=
  let hit := same_day student_id date in
  if existsb hit (attendance d) && is_null status then
    Rejected (sqlite_constraint "NOT NULL constraint failed: attendance.status")
  else
    Done {| users := users d; students := students d;
            attendance :=
              map (fun r => if hit r
                            then set_status_notes timestamp (text_affinity status)
                                                  (text_affinity notes) r
                            else r)
                  (attendance d);
            attendance_seq := attendance_seq d |}
         (attendance_seq d)
         (Z.of_nat (length (List.filter hit (attendance d)))).

(** The rowid an AUTOINCREMENT insert takes: one more than the largest rowid
    the table holds or ever held. *)
Definition next_rowid (d : db) : Z :=
  foldr Z.max (attendance_seq d) (map at_id (attendance d)) + 1.

(** [FOREIGN KEY (student_id) REFERENCES students (id)], with
    [PRAGMA foreign_keys = ON]. *)
Definition student_exists (d : db) (student_id : sqlval) : bool :=
  existsb (fun s => sql_eq (SInt (st_id s)) (numeric_affinity student_id)) (students d).

(** [INSERT INTO attendance (student_id, date, status, notes) VALUES (?, ?, ?, ?)];
    [created_at] and [updated_at] take their default, [CURRENT_TIMESTAMP]. *)
Definition insert_attendance (timestamp : string) (d : db)
           (student_id date status notes : sqlval) : exec :=
  if is_null student_id then
    Rejected (sqlite_constraint "NOT NULL constraint failed: attendance.student_id")
  else if is_null date then
    Rejected (sqlite_constraint "NOT NULL constraint failed: attendance.date")
  else if is_null status then
    Rejected (sqlite_constraint "NOT NULL constraint failed: attendance.status")
  else if existsb (same_day student_id date) (attendance d) then
    Rejected (sqlite_constraint
                "UNIQUE constraint failed: attendance.student_id, attendance.date")
  else if negb (student_exists d student_id) then
    Rejected (sqlite_constraint "FOREIGN KEY constraint failed")
  else
    let id := next_rowid d in
    Done {| users := users d; students := students d;
            attendance := attendance d ++
              [ {| at_id := id;
                   at_student_id := numeric_affinity student_id;
                   at_date := numeric_affinity date;
                   at_status := text_affinity status;
                   at_notes := text_affinity notes;
                   at_recorded_by := SNull;
                   at_created_at := timestamp;
                   at_updated_at := timestamp |} ];
            attendance_seq := id |}
         id 1.

(** [selectQuery('SELECT id FROM students WHERE class_id = ? AND status = "active"')] *)
Definition select_active_students (d : db) (class_id : sqlval) : list Z :=
  map st_id
      (List.filter (fun s => sql_eq (st_class_id s) (numeric_affinity class_id)
                             && sql_eq (st_status s) (SText "active"))
                   (students d)).

(** ** controllers/attendanceController.js *)

(** An element of a JSON array body: [null], or an object. *)
Inductive item :=
| INull
| IObj (o : gmap string jsval).

(** [req.body] after [bodyParser.json]: an object or an array. *)
Inductive body :=
| BodyObject (o : gmap string jsval)
| BodyArray (l : list item).

Inductive action := Created | Updated.

(** One entry of [results] in [recordAttendance]. *)
Inductive result :=
| RSuccess (act : action) (id : Z) (student_id date status notes : jsval)
| RFailure (error : string) (data : item).

Definition success (r : result) : bool :=
  match r with RSuccess _ _ _ _ _ _ => true | RFailure _ _ => false end.

Record summary := { total : nat; successful : nat; failed : nat }.

(** What the handler sends: [res.status(code).json({success: false, error,
    message})], or [res.json({success: true, message, results, summary})]. *)
Inductive response (R : Type) :=
| Failed (code : Z) (error : string) (msg : option string)
| Batch (msg : string) (results : list R) (s : summary).
Arguments Failed {R} code error msg.
Arguments Batch {R} msg results s.

Definition http_status {R} (r : response R) : Z :=
  match r with
  | Failed code _ _ => code
  | Batch _ _ _ => 200
  end.

Definition results_of {R} (r : response R) : list R :=
  match r with
  | Failed _ _ _ => []
  | Batch _ rs _ => rs
  end.

Definition type_error_destructure : js_error :=
  {| name := "TypeError";
     message := "Cannot destructure property 'student_id' of 'record' as it is null." |}.

(** The body of the [for (const record of records)] loop: the entry pushed on
    [results] and the store afterwards, or the exception that leaves the loop. *)
Definition record_one (timestamp : string) (d : db) (record : item)
  : completion (result * db) :=
  match record with
  | INull => Throw type_error_destructure
  | IObj o =>
    let student_id := get o "student_id" in
    let date := get o "date" in
    let status := get o "status" in
    let notes := get o "notes" in
    if negb (truthy student_id) || negb (truthy date) || negb (truthy status) then
      Return (RFailure "Missing required fields: student_id, date, status" record, d)
    else
      match select_attendance_id d (bind student_id) (bind date) with
      | Some existing_id =>
        match update_attendance timestamp d (bind status) (bind (js_or notes JNull))
                                (bind student_id) (bind date) with
        | Done d' _ _ =>
          Return (RSuccess Updated existing_id student_id date status notes, d')
        | Rejected recordError => Return (RFailure (message recordError) record, d)
        end
      | None =>
        match insert_attendance timestamp d (bind student_id) (bind date) (bind status)
                                (bind (js_or notes JNull)) with
        | Done d' id _ =>
          Return (RSuccess Created id student_id date status notes, d')
        | Rejected recordError => Return (RFailure (message recordError) record, d)
        end
      end
  end.

(** The loop.  An exception leaves it with the writes made so far in place. *)
Fixpoint record_loop (timestamp : string) (d : db) (records : list item)
         (results : list result) : completion (list result) * db :=
  match records with
  | [] => (Return results, d)
  | record :: rest =>
    match record_one timestamp d record with
    | Return (r, d') => record_loop timestamp d' rest (results ++ [r])
    | Throw e => (Throw e, d)
    end
  end.

(** [exports.recordAttendance], served when [CURRENT_TIMESTAMP] is [timestamp]. *)
Definition recordAttendance (timestamp : string) (d : db) (attendanceData : body)
  : response result * db :=
  let records :=
    match attendanceData with
    | BodyArray l => l
    | BodyObject o => [IObj o]
    end in
  match record_loop timestamp d records [] with
  | (Return results, d') =>
    let successCount := length (List.filter success results) in
    let errorCount := length (List.filter (fun r => negb (success r)) results) in
    (Batch ("Attendance recorded: " +:+ pretty successCount +:+ " successful, "
              +:+ pretty errorCount +:+ " failed")
           results
           {| total := length results; successful := successCount; failed := errorCount |},
     d')
  | (Throw error, d') =>
    (Failed 500 "Failed to record attendance" (Some (message error)), d')
  end.

Definition bulkRecordAttendance (timestamp : string) (d : db) (attendanceData : body)
  : response result * db :=
  recordAttendance timestamp d attendanceData.

(** One entry of [results] in [markAllPresent]. *)
Inductive mark_result :=
| MSuccess (act : action) (student_id : Z) (id : option Z)
| MFailure (error : string) (student_id : Z).

Definition mark_success (r : mark_result) : bool :=
  match r with MSuccess _ _ _ => true | MFailure _ _ => false end.

(** The body of the [for (const student of students)] loop. *)
Definition mark_one (timestamp : string) (d : db) (date notes : jsval) (student_id : Z)
  : mark_result * db :=
  match select_attendance_id d (SInt student_id) (bind date) with
  | Some _ =>
    match update_attendance timestamp d (SText "present") (bind (js_or notes JNull))
                            (SInt student_id) (bind date) with
    | Done d' _ _ => (MSuccess Updated student_id None, d')
    | Rejected recordError => (MFailure (message recordError) student_id, d)
    end
  | None =>
    match insert_attendance timestamp d (SInt student_id) (bind date) (SText "present")
                            (bind (js_or notes JNull)) with
    | Done d' id _ => (MSuccess Created student_id (Some id), d')
    | Rejected recordError => (MFailure (message recordError) student_id, d)
    end
  end.

Fixpoint mark_loop (timestamp : string) (d : db) (date notes : jsval) (students : list Z)
         (results : list mark_result) : list mark_result * db :=
  match students with
  | [] => (results, d)
  | student :: rest =>
    let '(r, d') := mark_one timestamp d date notes student in
    mark_loop timestamp d' date notes rest (results ++ [r])
  end.

Definition markAllPresent (timestamp : string) (d : db) (req_body : gmap string jsval)
  : response mark_result * db :=
  let class_id := get req_body "class_id" in
  let date := get req_body "date" in
  let notes := get req_body "notes" in
  if negb (truthy class_id) || negb (truthy date) then
    (Failed 400 "class_id and date are required" None, d)
  else
    let students := select_active_students d (bind class_id) in
    if (length students =? 0)%nat then
      (Failed 404 "No active students found in this class" None, d)
    else
      let '(results, d') := mark_loop timestamp d date notes students [] in
      let successCount := length (List.filter mark_success results) in
      let errorCount := length (List.filter (fun r => negb (mark_success r)) results) in
      (Batch ("Marked all present: " +:+ pretty successCount +:+ " successful, "
                +:+ pretty errorCount +:+ " failed")
             results
             {| total := length results; successful := successCount; failed := errorCount |},
       d').

(** ** jsonwebtoken *)

(** An HS256 tag, symbolically: the key and the claims it was computed over. *)
Inductive signature :=
| HS256 (key : string) (signed : gmap string jsval).

#[global] Instance signature_eq_dec : EqDecision signature.
Proof. solve_decision. Defined.

(** The text after [Bearer ]: not a JWT at all, or claims with a tag. *)
Inductive token :=
| NotJwt (text : string)
| Jwt (payload : gmap string jsval) (sig : signature).

Definition token_truthy (t : token) : bool :=
  match t with
  | NotJwt text => negb (String.eqb text "")
  | Jwt _ _ => true
  end.

Definition unit_millis (u : string) : option Z :=
  if String.eqb u "s" then Some 1000
  else if String.eqb u "m" then Some 60000
  else if String.eqb u "h" then Some 3600000
  else if String.eqb u "d" then Some 86400000
  else None.

(** The [ms] package on the spans written in this code base (['24h'],
    ['1h']): digits, then one of the units s, m, h, d. *)
Fixpoint ms_from (s : string) (digits : option Z) : option Z :=
  match s with
  | EmptyString => None
  | String c rest =>
    match digit_value c with
    | Some v => ms_from rest (Some (10 * default 0 digits + v))
    | None => n ← digits; u ← unit_millis s; Some (n * u)
    end
  end.

Definition ms (span : string) : option Z := ms_from span None.

(** [jwt.sign(payload, secret, { expiresIn })] at clock [now] (seconds):
    serialising drops [undefined] properties; [iat] and [exp] are added. *)
Definition jwt_sign (payload : gmap string jsval) (secret expiresIn : string) (now : Z)
  : completion token :=
  match ms expiresIn with
  | None =>
    Throw {| name := "Error";
             message := "expiresIn should be a number of seconds or string representing a timespan" |}
  | Some millis =>
    let claims :=
      <["exp" := JNum (now + millis / 1000)]>
        (<["iat" := JNum now]> (filter (fun kv => kv.2 <> JUndefined) payload)) in
    Return (Jwt claims (HS256 secret claims))
  end.

Definition JsonWebTokenError (m : string) : js_error :=
  {| name := "JsonWebTokenError"; message := m |}.
Definition TokenExpiredError : js_error :=
  {| name := "TokenExpiredError"; message := "jwt expired" |}.
Definition NotBeforeError : js_error :=
  {| name := "NotBeforeError"; message := "jwt not active" |}.

(** The number of dots in a text: [text.split('.').length - 1]. *)
Fixpoint dots (text : string) : nat :=
  match text with
  | EmptyString => 0%nat
  | String c rest => ((if Ascii.eqb c "." then 1 else 0) + dots rest)%nat
  end.

(** [jwt.verify(token, secret)] at clock [now]: structure, then tag, then
    [nbf], then [exp].  Text that is no JWT is "malformed" unless it has
    three parts, which then do not decode. *)
Definition jwt_verify (t : token) (secret : string) (now : Z)
  : completion (gmap string jsval) :=
  match t with
  | NotJwt text =>
    if String.eqb text "" then Throw (JsonWebTokenError "jwt must be provided")
    else if (dots text =? 2)%nat then Throw (JsonWebTokenError "invalid token")
    else Throw (JsonWebTokenError "jwt malformed")
  | Jwt payload sig =>
    if decide (sig = HS256 secret payload) then
      let! _ :=
        match payload !! "nbf" with
        | None => Return tt
        | Some (JNum nbf) => if now <? nbf then Throw NotBeforeError else Return tt
        | Some _ => Throw (JsonWebTokenError "invalid nbf value")
        end in
      match payload !! "exp" with
      | None => Return payload
      | Some (JNum exp) => if exp <=? now then Throw TokenExpiredError else Return payload
      | Some _ => Throw (JsonWebTokenError "invalid exp value")
      end
    else Throw (JsonWebTokenError "invalid signature")
  end.

(** ** middleware/auth.js and controllers/authController.js *)

(** The [Authorization] header: text that starts with [Bearer ] and the token
    after it, or any other text. *)
Inductive auth_header :=
| Bearer (t : token)
| NotBearer (text : string).

Record session := { userId : jsval; username : jsval; role : jsval }.

Record request := {
  authorization : option auth_header;
  req_session : option session;
  req_user : option (gmap string jsval);
  req_userId : jsval
}.

(** What a middleware does: answers, or calls [next()]. *)
Inductive outcome :=
| Respond (code : Z) (error : string) (msg : option string)
| Next (req : request).

Definition outcome_code (o : outcome) : option Z :=
  match o with
  | Respond code _ _ => Some code
  | Next _ => None
  end.

(** [SELECT * FROM users]: a row as the object the driver returns. *)
Definition user_object (u : user_row) : gmap string jsval :=
  list_to_map
    [ ("id", JNum (u_id u)); ("username", JStr (u_username u));
      ("email", JStr (u_email u)); ("password_hash", JStr (u_password_hash u));
      ("role", JStr (u_role u)); ("full_name", JStr (u_full_name u));
      ("created_at", JStr (u_created_at u)); ("updated_at", JStr (u_updated_at u)) ].

(** [SELECT id, username, email, role, full_name, created_at FROM users] *)
Definition user_columns (u : user_row) : gmap string jsval :=
  list_to_map
    [ ("id", JNum (u_id u)); ("username", JStr (u_username u));
      ("email", JStr (u_email u)); ("role", JStr (u_role u));
      ("full_name", JStr (u_full_name u)); ("created_at", JStr (u_created_at u)) ].

(** [selectOneQuery('SELECT id, username, email, role, full_name, created_at
     FROM users WHERE id = ?')] *)
Definition select_user_by_id (d : db) (id : sqlval) : option (gmap string jsval) :=
  user_columns <$>
    List.find (fun u => sql_eq (SInt (u_id u)) (numeric_affinity id)) (users d).

(** [WHERE username = ? OR email = ?] on [users], first row: SQLite answers
    the OR from the two UNIQUE indexes, the one on [username] first, so a
    row whose username matches comes before a row whose email matches. *)
Definition find_by_login (username email : sqlval) (l : list user_row) : option user_row :=
  match List.find (fun u => sql_eq (SText (u_username u)) (text_affinity username)) l with
  | Some u => Some u
  | None => List.find (fun u => sql_eq (SText (u_email u)) (text_affinity email)) l
  end.

(** [selectOneQuery('SELECT * FROM users WHERE username = ? OR email = ?')] *)
Definition select_user_by_login (d : db) (username email : sqlval)
  : option (gmap string jsval) :=
  user_object <$> find_by_login username email (users d).

(** [const { password_hash, ...userProfile } = user] *)
Definition without_password_hash (user : gmap string jsval) : gmap string jsval :=
  delete "password_hash" user.

(** What the auth controller sends. *)
Inductive auth_reply :=
| AuthError (code : Z) (error : string) (msg : option string)
| LoginOk (msg : string) (user : gmap string jsval) (tok : token)
| ProfileOk (data : gmap string jsval).

Section Auth.

(** [process.env.JWT_SECRET], and [bcrypt.compare] on two strings. *)
Variable env_JWT_SECRET : option string.
Variable bcrypt_compare : string -> string -> bool.

Definition JWT_SECRET : string :=
  match env_JWT_SECRET with
  | Some s => if String.eqb s "" then "school-os-jwt-secret-change-in-production" else s
  | None => "school-os-jwt-secret-change-in-production"
  end.

Definition generateToken (user : gmap string jsval) (now : Z) : completion token :=
  let payload : gmap string jsval :=
    {[ "userId" := get user "id";
       "username" := get user "username";
       "role" := get user "role" ]} in
  jwt_sign payload JWT_SECRET "24h" now.

Definition verifyToken (t : token) (now : Z) : completion (gmap string jsval) :=
  jwt_verify t JWT_SECRET now.

(** The first half of [authenticateToken]: the bearer token of the header, or
    a token made from the cookie session when there is none. *)
Definition request_token (req : request) (now : Z) : completion (option token) :=
  let token :=
    match authorization req with
    | Some (Bearer t) => Some t
    | _ => None
    end in
  let no_token := match token with Some t => negb (token_truthy t) | None => true end in
  match req_session req with
  | Some s =>
    if no_token && truthy (userId s) then
      let! t := jwt_sign {[ "userId" := userId s; "username" := username s ]}
                         JWT_SECRET "1h" now in
      Return (Some t)
    else Return token
  | None => Return token
  end.

Definition authenticateToken (d : db) (req : request) (now : Z) : outcome :=
  let attempt : completion outcome :=
    let! token := request_token req now in
    match token with
    | Some t =>
      if token_truthy t then
        let! decoded := jwt_verify t JWT_SECRET now in
        match select_user_by_id d (bind (get decoded "userId")) with
        | None => Return (Respond 401 "Invalid token. User not found." None)
        | Some user =>
          Return (Next {| authorization := authorization req;
                          req_session := req_session req;
                          req_user := Some user;
                          req_userId := get user "id" |})
        end
      else Return (Respond 401 "Access denied. No token provided." None)
    | None => Return (Respond 401 "Access denied. No token provided." None)
    end in
  match attempt with
  | Return o => o
  | Throw error =>
    if String.eqb (name error) "JsonWebTokenError" then
      Respond 401 "Invalid token." None
    else if String.eqb (name error) "TokenExpiredError" then
      Respond 401 "Token expired. Please login again." None
    else Respond 500 "Authentication failed." (Some (message error))
  end.

Definition requireAdmin (req : request) : outcome :=
  match req_user req with
  | None => Respond 401 "Authentication required." None
  | Some user =>
    if decide (get user "role" <> JStr "admin") then
      Respond 403 "Admin access required." None
    else Next req
  end.

Definition requireTeacher (req : request) : outcome :=
  match req_user req with
  | None => Respond 401 "Authentication required." None
  | Some user =>
    if negb (bool_decide (get user "role" ∈ [JStr "teacher"; JStr "admin"])) then
      Respond 403 "Teacher access required." None
    else Next req
  end.

(** [exports.login]: the reply and [req.session] afterwards. *)
Definition login (d : db) (req_body : gmap string jsval) (sess : option session) (now : Z)
  : auth_reply * option session :=
  let username := get req_body "username" in
  let password := get req_body "password" in
  if negb (truthy username) || negb (truthy password) then
    (AuthError 400 "Username and password are required" None, sess)
  else
    match select_user_by_login d (bind username) (bind username) with
    | None => (AuthError 401 "Invalid username or password" None, sess)
    | Some user =>
      let attempt : completion (auth_reply * option session) :=
        let! isValidPassword :=
          match password, get user "password_hash" with
          | JStr data, JStr hash => Return (bcrypt_compare data hash)
          | _, _ => Throw {| name := "Error"; message := "data and hash must be strings" |}
          end in
        if negb isValidPassword then
          Return (AuthError 401 "Invalid username or password" None, sess)
        else
          let! token := generateToken user now in
          match sess with
          | None =>
            Throw {| name := "TypeError";
                     message := "Cannot set properties of undefined (setting 'userId')" |}
          | Some _ =>
            let sess' := {| userId := get user "id"; username := get user "username";
                            role := get user "role" |} in
            Return (LoginOk "Login successful" (without_password_hash user) token,
                    Some sess')
          end in
      match attempt with
      | Return r => r
      | Throw error => (AuthError 500 "Login failed" (Some (message error)), sess)
      end
    end.

(** [exports.getProfile], run after [authenticateToken]. *)
Definition getProfile (req : request) : auth_reply :=
  match req_user req with
  | Some user => ProfileOk (without_password_hash user)
  | None =>
    AuthError 500 "Failed to retrieve profile"
              (Some "Cannot destructure property 'password_hash' of 'req.user' as it is undefined.")
  end.

End Auth.

(** ** What the theorems speak about *)

(** The attendance records of one student on one day. *)
Definition records_for (d : db) (student_id date : sqlval) : list attendance_row :=
  List.filter (same_day student_id date) (attendance d).

(** At most one attendance record per (student, date) pair. *)
Definition at_most_one (d : db) : Prop :=
  forall student_id date, (length (records_for d student_id date) <= 1)%nat.

(** The store [d'] is [d] after the cells [st] and [nt] were written as status
    and notes for the parameters [(s, dt)]: every record of the pair carries
    them, there is one exactly when there was none before, and the records of
    every other pair are as they were. *)
Record written (d d' : db) (s dt st nt : sqlval) : Prop := {
  written_users : users d' = users d;
  written_students : students d' = students d;
  written_frame :
    forall s' dt',
      (numeric_affinity s', numeric_affinity dt')
      <> (numeric_affinity s, numeric_affinity dt) ->
      records_for d' s' dt' = records_for d s' dt';
  written_count : length (records_for d' s dt) = Nat.max 1 (length (records_for d s dt));
  written_cells : Forall (fun r => at_status r = st /\ at_notes r = nt) (records_for d' s dt)
}.

(** The requests that write attendance, each with the time it is served
    at, and the store after a run of them. *)
Inductive call :=
| PostAttendance (timestamp : string) (b : body)
| PostBulk (timestamp : string) (b : body)
| PostMarkAllPresent (timestamp : string) (o : gmap string jsval).

Definition serve (d : db) (c : call) : db :=
  match c with
  | PostAttendance timestamp b => (recordAttendance timestamp d b).2
  | PostBulk timestamp b => (bulkRecordAttendance timestamp d b).2
  | PostMarkAllPresent timestamp o => (markAllPresent timestamp d o).2
  end.

Definition serve_all (d : db) (cs : list call) : db := foldl serve d cs.

(** A required field of an item is missing (or falsy). *)
Definition missing_required (o : gmap string jsval) : bool :=
  negb (truthy (get o "student_id")) || negb (truthy (get o "date"))
  || negb (truthy (get o "status")).

Definition unique_violation : string :=
  message (sqlite_constraint
             "UNIQUE constraint failed: attendance.student_id, attendance.date").

(** Every way the loop body can end. *)
Inductive record_one_ends (d : db) (it : item) : completion (result * db) -> Prop :=
| ends_throw e : it = INull -> record_one_ends d it (Throw e)
| ends_failure error :
    error <> unique_violation ->
    record_one_ends d it (Return (RFailure error it, d))
| ends_success act id o d' :
    it = IObj o ->
    written d d' (bind (get o "student_id")) (bind (get o "date"))
            (text_affinity (bind (get o "status")))
            (text_affinity (bind (js_or (get o "notes") JNull))) ->
    record_one_ends d it
      (Return (RSuccess act id (get o "student_id") (get o "date")
                        (get o "status") (get o "notes"), d')).

Definition summary_of {R} (r : response R) : option summary :=
  match r with
  | Failed _ _ _ => None
  | Batch _ _ s => Some s
  end.

Definition day_key (r : attendance_row) : sqlval * sqlval :=
  (at_student_id r, at_date r).

(** The pair [(s, dt)] has a record, and every record of it says [st], [nt]. *)
Definition recorded (d : db) (s dt st nt : sqlval) : Prop :=
  records_for d s dt <> []
  /\ Forall (fun r => at_status r = st /\ at_notes r = nt) (records_for d s dt).

Definition with_updated_at (timestamp : string) (r : attendance_row) : attendance_row :=
  {| at_id := at_id r; at_student_id := at_student_id r; at_date := at_date r;
     at_status := at_status r; at_notes := at_notes r;
     at_recorded_by := at_recorded_by r;
     at_created_at := at_created_at r; at_updated_at := timestamp |}.

(** From [d] to [d'] nothing changed but update times: every record is as
    it was, or as it was with [timestamp] as its update time. *)
Definition restamped (timestamp : string) (d d' : db) : Prop :=
  users d' = users d /\ students d' = students d
  /\ attendance_seq d' = attendance_seq d
  /\ Forall2 (fun r r' => r' = r \/ r' = with_updated_at timestamp r)
             (attendance d) (attendance d').

Definition mark_student (r : mark_result) : Z :=
  match r with MSuccess _ s _ => s | MFailure _ s => s end.

(** ** Sample data

    The seeded administrator, one class with two active students and one
    withdrawn, and one attendance record with a note. *)

Definition admin_row : user_row :=
  {| u_id := 1; u_username := "admin"; u_email := "admin@school-os.local";
     u_password_hash := "$2b$12$C6UzMDM.H6dfI/f/IKcEeO"; u_role := "admin";
     u_full_name := "System Administrator";
     u_created_at := "2025-06-14 08:00:00"; u_updated_at := "2025-06-14 08:00:00" |}.

Definition teacher_row : user_row :=
  {| u_id := 2; u_username := "ngozi"; u_email := "ngozi@school-os.local";
     u_password_hash := "$2b$12$Q9vXw1m0pE7hYb2nT5uZke"; u_role := "teacher";
     u_full_name := "Ngozi Okonkwo";
     u_created_at := "2025-06-14 08:10:00"; u_updated_at := "2025-06-14 08:10:00" |}.

Definition sample_db : db :=
  {| users := [admin_row; teacher_row];
     students :=
       [ {| st_id := 1; st_student_id := "JSS1A001"; st_first_name := "Ada";
            st_last_name := "Eze"; st_class_id := SInt 1; st_status := SText "active" |};
         {| st_id := 2; st_student_id := "JSS1A002"; st_first_name := "Bayo";
            st_last_name := "Ojo"; st_class_id := SInt 1; st_status := SText "active" |};
         {| st_id := 3; st_student_id := "JSS1A003"; st_first_name := "Chidi";
            st_last_name := "Obi"; st_class_id := SInt 1;
            st_status := SText "inactive" |};
         {| st_id := 6; st_student_id := "JSS2A001"; st_first_name := "Dupe";
            st_last_name := "Ade"; st_class_id := SInt 2; st_status := SText "active" |} ];
     attendance :=
       [ {| at_id := 1; at_student_id := SInt 1; at_date := SText "2025-06-16";
            at_status := SText "absent"; at_notes := SText "sick";
            at_recorded_by := SNull;
            at_created_at := "2025-06-16 07:40:00";
            at_updated_at := "2025-06-16 07:40:00" |} ];
     attendance_seq := 1 |}.

(** A morning on which the register is taken. *)
Definition sample_time : string := "2025-06-16 07:45:00".

(** A request that carries the bearer token [t] and no cookie session. *)
Definition bearer (t : token) : request :=
  {| authorization := Some (Bearer t); req_session := None;
     req_user := None; req_userId := JUndefined |}.

(** A request with no [Authorization] header from a browser that logged in as
    the administrator. *)
Definition cookie_request : request :=
  {| authorization := None;
     req_session := Some {| userId := JNum 1; username := JStr "admin";
                            role := JStr "admin" |};
     req_user := None; req_userId := JUndefined |}.

(** The token the administrator got at login, at clock 1750000000. *)
Definition admin_token : token :=
  match generateToken None (user_object admin_row) 1750000000 with
  | Return t => t
  | Throw _ => NotJwt ""
  end.

(** A [bcrypt.compare] that accepts the seeded password against the seeded hash. *)
Definition sample_compare (data hash : string) : bool :=
  String.eqb data "admin" && String.eqb hash (u_password_hash admin_row).

Definition attendance_item (student_id : Z) (date status : string) : gmap string jsval :=
  {[ "student_id" := JNum student_id; "date" := JStr date; "status" := JStr status ]}.

(** ** Attendance records by id: [updateAttendance], [deleteAttendance] *)

(** [WHERE id = ?] on [attendance]. *)
Definition has_id (id : sqlval) (r : attendance_row) : bool :=
  sql_eq (SInt (at_id r)) (numeric_affinity id).

(** [UPDATE attendance SET status = ?, notes = ?, updated_at = CURRENT_TIMESTAMP
     WHERE id = ?] *)
Definition update_attendance_by_id (timestamp : string) (d : db)
           (status notes id : sqlval) : exec :=
  if existsb (has_id id) (attendance d) && is_null status then
    Rejected (sqlite_constraint "NOT NULL constraint failed: attendance.status")
  else
    Done {| users := users d; students := students d;
            attendance :=
              map (fun r => if has_id id r
                            then set_status_notes timestamp (text_affinity status)
                                                  (text_affinity notes) r
                            else r)
                  (attendance d);
            attendance_seq := attendance_seq d |}
         (attendance_seq d)
         (Z.of_nat (length (List.filter (has_id id) (attendance d)))).

(** [DELETE FROM attendance WHERE id = ?]; the AUTOINCREMENT sequence stays. *)
Definition delete_attendance_by_id (d : db) (id : sqlval) : exec :=
  Done {| users := users d; students := students d;
          attendance := List.filter (fun r => negb (has_id id r)) (attendance d);
          attendance_seq := attendance_seq d |}
       (attendance_seq d)
       (Z.of_nat (length (List.filter (has_id id) (attendance d)))).

(** [ON a.student_id = s.id] *)
Definition joins (r : attendance_row) (s : student_row) : bool :=
  sql_eq (at_student_id r) (SInt (st_id s)).

(** A row of [SELECT a.*, s.first_name, s.last_name, s.student_id] as the
    object the driver builds: one property per column name, so the student's
    code, which comes last under the name [student_id], takes the place of
    the attendance column of that name. *)
Definition attendance_with_student (r : attendance_row) (s : student_row)
  : gmap string jsval :=
  <["student_id" := JStr (st_student_id s)]>
    (<["last_name" := JStr (st_last_name s)]>
       (<["first_name" := JStr (st_first_name s)]>
          (list_to_map
             [ ("id", JNum (at_id r)); ("student_id", unbind (at_student_id r));
               ("date", unbind (at_date r)); ("status", unbind (at_status r));
               ("notes", unbind (at_notes r));
               ("recorded_by", unbind (at_recorded_by r));
               ("created_at", JStr (at_created_at r));
               ("updated_at", JStr (at_updated_at r)) ]))).

(** [selectOneQuery('SELECT a.*, s.first_name, s.last_name, s.student_id FROM
     attendance a JOIN students s ON a.student_id = s.id WHERE a.id = ?')]:
    the first attendance row with the id that has a student, joined with
    that student. *)
Definition select_attendance_with_student (d : db) (id : sqlval)
  : option (gmap string jsval) :=
  r ← List.find (fun r => has_id id r && existsb (joins r) (students d)) (attendance d);
  s ← List.find (joins r) (students d);
  Some (attendance_with_student r s).

Definition validStatuses : list string := ["present"; "absent"; "late"; "excused"].

(** [validStatuses.includes(status)] *)
Definition is_valid_status (status : jsval) : bool :=
  match status with
  | JStr s => bool_decide (s ∈ validStatuses)
  | _ => false
  end.

(** What [updateAttendance] and [deleteAttendance] send. *)
Inductive record_reply :=
| RecordError (code : Z) (error : string) (msg : option string)
| RecordUpdated (data : option (gmap string jsval)) (msg : string)
| RecordDeleted (msg : string).


(** [exports.updateAttendance]; [attendanceId] is [req.params.id]. *)
Definition updateAttendance (timestamp : string) (d : db) (attendanceId : string)
           (req_body : gmap string jsval) : record_reply * db :=
  let status := get req_body "status" in
  let notes := get req_body "notes" in
  if negb (truthy status) then
    (RecordError 400 "Status is required" None, d)
  else if negb (is_valid_status status) then
    (RecordError 400 ("Invalid status. Must be one of: " +:+ String.concat ", " validStatuses)
                 None, d)
  else
    match update_attendance_by_id timestamp d (bind status) (bind (js_or notes JNull))
                                  (SText attendanceId) with
    | Rejected error =>
      (RecordError 500 "Failed to update attendance record" (Some (message error)), d)
    | Done d' _ changes =>
      if changes =? 0 then
        (RecordError 404 "Attendance record not found" None, d')
      else
        (RecordUpdated (select_attendance_with_student d' (SText attendanceId))
                       "Attendance record updated successfully", d')
    end.

(** [exports.deleteAttendance] *)
Definition deleteAttendance (d : db) (attendanceId : string) : record_reply * db :=
  match delete_attendance_by_id d (SText attendanceId) with
  | Rejected error =>
    (RecordError 500 "Failed to delete attendance record" (Some (message error)), d)
  | Done d' _ changes =>
    if changes =? 0 then
      (RecordError 404 "Attendance record not found" None, d')
    else (RecordDeleted "Attendance record deleted successfully", d')
  end.

(** The requests of [routes/attendance.js] that write, and a run of them. *)
Inductive write_call :=
| Upsert (c : call)
| PutAttendance (timestamp : string) (attendanceId : string) (o : gmap string jsval)
| DeleteAttendance (attendanceId : string).

Definition serve_write (d : db) (c : write_call) : db :=
  match c with
  | Upsert c => serve d c
  | PutAttendance timestamp attendanceId o => (updateAttendance timestamp d attendanceId o).2
  | DeleteAttendance attendanceId => (deleteAttendance d attendanceId).2
  end.

Definition serve_writes (d : db) (cs : list write_call) : db := foldl serve_write d cs.

Definition attendance_ids (d : db) : list Z := map at_id (attendance d).

(** Row ids are distinct and none is above the AUTOINCREMENT sequence. *)
Definition ids_in_sequence (d : db) : Prop :=
  NoDup (attendance_ids d)
  /\ Forall (fun id => id <= attendance_seq d) (attendance_ids d).

(** Which (student, day) each row id stands for. *)
Definition attendance_index (d : db) : list (Z * (sqlval * sqlval)) :=
  map (fun r => (at_id r, day_key r)) (attendance d).

(** From [d] to [d']: the sequence did not go back, every (id, student, day)
    of [d'] was in [d] or has an id above the sequence of [d], and ids stay
    in sequence. *)
Definition ids_grow (d d' : db) : Prop :=
  attendance_seq d <= attendance_seq d'
  /\ (forall p, In p (attendance_index d') ->
                In p (attendance_index d) \/ attendance_seq d < p.1)
  /\ (ids_in_sequence d -> ids_in_sequence d').

(** ** The rest of middleware/auth.js and controllers/authController.js *)

(** [SELECT id, username, email, role, full_name FROM users] *)
Definition user_columns_short (u : user_row) : gmap string jsval :=
  list_to_map
    [ ("id", JNum (u_id u)); ("username", JStr (u_username u));
      ("email", JStr (u_email u)); ("role", JStr (u_role u));
      ("full_name", JStr (u_full_name u)) ].

(** [SELECT id, username, email, role, full_name, created_at, updated_at FROM users] *)
Definition user_columns_dated (u : user_row) : gmap string jsval :=
  list_to_map
    [ ("id", JNum (u_id u)); ("username", JStr (u_username u));
      ("email", JStr (u_email u)); ("role", JStr (u_role u));
      ("full_name", JStr (u_full_name u)); ("created_at", JStr (u_created_at u));
      ("updated_at", JStr (u_updated_at u)) ].

(** [WHERE id = ?] on [users]. *)
Definition user_has_id (id : sqlval) (u : user_row) : bool :=
  sql_eq (SInt (u_id u)) (numeric_affinity id).

(** The text a TEXT column holds for a bound value that is not NULL. *)
Definition text_cell (v : sqlval) : string :=
  match text_affinity v with
  | SText s => s
  | _ => ""
  end.

(** [selectOneQuery('SELECT id FROM users WHERE username = ? OR email = ?')] *)
Definition select_user_id_named (d : db) (username email : sqlval) : option Z :=
  u_id <$> find_by_login username email (users d).

(** [selectOneQuery('SELECT id FROM users WHERE email = ? AND id != ?')] *)
Definition select_other_user_with_email (d : db) (email id : sqlval) : option Z :=
  u_id <$>
    List.find (fun u => sql_eq (SText (u_email u)) (text_affinity email)
                        && match numeric_affinity id with
                           | SInt n => negb (u_id u =? n)
                           | SText _ => true
                           | SNull => false
                           end)
              (users d).

(** [selectOneQuery('SELECT password_hash FROM users WHERE id = ?')] *)
Definition select_password_hash (d : db) (id : sqlval) : option string :=
  u_password_hash <$> List.find (user_has_id id) (users d).

Definition with_users (d : db) (us : list user_row) : db :=
  {| users := us; students := students d; attendance := attendance d;
     attendance_seq := attendance_seq d |}.

(** The rowid the next [INSERT INTO users] takes; [users_seq] is the
    sqlite_sequence entry of the table. *)
Definition next_user_id (d : db) (users_seq : Z) : Z :=
  foldr Z.max users_seq (map u_id (users d)) + 1.

(** [INSERT INTO users (username, email, password_hash, full_name, role)
     VALUES (?, ?, ?, ?, ?)] at [CURRENT_TIMESTAMP = timestamp]. *)
Definition insert_user (d : db) (users_seq : Z)
           (username email password_hash full_name role : sqlval) (timestamp : string)
  : exec :=
  if is_null username then
    Rejected (sqlite_constraint "NOT NULL constraint failed: users.username")
  else if is_null email then
    Rejected (sqlite_constraint "NOT NULL constraint failed: users.email")
  else if is_null password_hash then
    Rejected (sqlite_constraint "NOT NULL constraint failed: users.password_hash")
  else if is_null role then
    Rejected (sqlite_constraint "NOT NULL constraint failed: users.role")
  else if is_null full_name then
    Rejected (sqlite_constraint "NOT NULL constraint failed: users.full_name")
  else if existsb (fun u => String.eqb (u_username u) (text_cell username)) (users d) then
    Rejected (sqlite_constraint "UNIQUE constraint failed: users.username")
  else if existsb (fun u => String.eqb (u_email u) (text_cell email)) (users d) then
    Rejected (sqlite_constraint "UNIQUE constraint failed: users.email")
  else
    let id := next_user_id d users_seq in
    Done (with_users d
            (users d ++
               [ {| u_id := id; u_username := text_cell username;
                    u_email := text_cell email;
                    u_password_hash := text_cell password_hash;
                    u_role := text_cell role; u_full_name := text_cell full_name;
                    u_created_at := timestamp; u_updated_at := timestamp |} ]))
         id 1.

Definition set_password_hash (hash timestamp : string) (u : user_row) : user_row :=
  {| u_id := u_id u; u_username := u_username u; u_email := u_email u;
     u_password_hash := hash; u_role := u_role u; u_full_name := u_full_name u;
     u_created_at := u_created_at u; u_updated_at := timestamp |}.

(** [UPDATE users SET password_hash = ?, updated_at = CURRENT_TIMESTAMP WHERE id = ?] *)
Definition update_password_hash (d : db) (hash : string) (id : sqlval) (timestamp : string)
  : db :=
  with_users d (map (fun u => if user_has_id id u
                              then set_password_hash hash timestamp u else u)
                    (users d)).

Definition set_profile (full_name email : option string) (timestamp : string)
           (u : user_row) : user_row :=
  {| u_id := u_id u; u_username := u_username u;
     u_email := default (u_email u) email;
     u_password_hash := u_password_hash u; u_role := u_role u;
     u_full_name := default (u_full_name u) full_name;
     u_created_at := u_created_at u; u_updated_at := timestamp |}.

(** The statement [updateProfile] builds: [UPDATE users SET full_name = ?,
    email = ?, updated_at = CURRENT_TIMESTAMP WHERE id = ?] with the
    assignments that are present. *)
Definition update_profile_columns (d : db) (full_name email : option string)
           (id : sqlval) (timestamp : string) : exec :=
  let hit := user_has_id id in
  let clash :=
    match email with
    | Some e =>
      existsb hit (users d)
      && (existsb (fun u => negb (hit u) && String.eqb (u_email u) e) (users d)
          || (1 <? length (List.filter hit (users d)))%nat)
    | None => false
    end in
  if clash then Rejected (sqlite_constraint "UNIQUE constraint failed: users.email")
  else
    Done (with_users d (map (fun u => if hit u
                                      then set_profile full_name email timestamp u
                                      else u)
                            (users d)))
         0 (Z.of_nat (length (List.filter hit (users d)))).

(** What [register], [changePassword] and [updateProfile] send. *)
Inductive account_reply :=
| AccountError (code : Z) (error : string) (msg : option string)
| AccountOk (code : Z) (msg : string) (data : option (gmap string jsval)).

Definition account_status (r : account_reply) : Z :=
  match r with
  | AccountError code _ _ => code
  | AccountOk code _ _ => code
  end.

Definition dquote : string := String "034"%char EmptyString.

(** [password.length < 6] for a truthy [password]: only text has a length. *)
Definition shorter_than_6 (password : jsval) : bool :=
  match password with
  | JStr s => (js_length s <? 6)%nat
  | _ => false
  end.

Definition type_error_reading (what : string) : js_error :=
  {| name := "TypeError";
     message := "Cannot read properties of undefined (reading '" +:+ what +:+ "')" |}.

(** The same for a property read off [null], which is what [selectOneQuery]
    resolves with when no row is found. *)
Definition type_error_reading_null (what : string) : js_error :=
  {| name := "TypeError";
     message := "Cannot read properties of null (reading '" +:+ what +:+ "')" |}.

Section AuthMore.

(** [process.env.JWT_SECRET]; [bcrypt.compare]; [bcrypt.hash] with the salt
    it draws. *)
Variable env_JWT_SECRET : option string.
Variable bcrypt_compare : string -> string -> bool.
Variable bcrypt_hash : string -> string -> string.

Definition optionalAuth (d : db) (req : request) (now : Z) : outcome :=
  let attempt : completion request :=
    match authorization req with
    | Some (Bearer t) =>
      let! decoded := jwt_verify t (JWT_SECRET env_JWT_SECRET) now in
      match user_columns_short <$>
            List.find (user_has_id (bind (get decoded "userId"))) (users d) with
      | Some user =>
        Return {| authorization := authorization req; req_session := req_session req;
                  req_user := Some user; req_userId := get user "id" |}
      | None => Return req
      end
    | _ => Return req
    end in
  match attempt with
  | Return req' => Next req'
  | Throw _ => Next req
  end.

(** [bcrypt.hash(data, SALT_ROUNDS)] and [bcrypt.compare(data, hash)] on a
    JavaScript value: anything but text is refused. *)
Definition hash_password (data : jsval) (salt : string) : completion string :=
  match data with
  | JStr s => Return (bcrypt_hash s salt)
  | JUndefined | JNull =>
    Throw {| name := "Error"; message := "data and salt arguments required" |}
  | _ =>
    Throw {| name := "Error";
             message := "data must be a string or Buffer and salt must either be "
                          +:+ "a salt string or a number of rounds" |}
  end.

Definition compare_password (data : jsval) (hash : string) : completion bool :=
  match data with
  | JStr s => Return (bcrypt_compare s hash)
  | JUndefined | JNull =>
    Throw {| name := "Error"; message := "data and hash arguments required" |}
  | _ => Throw {| name := "Error"; message := "data and hash must be strings" |}
  end.

(** [exports.register]: the reply, the store and the sequence of [users]. *)
Definition register (d : db) (users_seq : Z) (req : request)
           (req_body : gmap string jsval) (salt timestamp : string)
  : account_reply * (db * Z) :=
  let attempt : completion (account_reply * (db * Z)) :=
    match req_user req with
    | None => Throw (type_error_reading "role")
    | Some user =>
      if decide (get user "role" <> JStr "admin") then
        Return (AccountError 403 "Admin access required to create new users" None,
                (d, users_seq))
      else
        let username := get req_body "username" in
        let email := get req_body "email" in
        let password := get req_body "password" in
        let full_name := get req_body "full_name" in
        let role := if decide (get req_body "role" = JUndefined)
                    then JStr "teacher" else get req_body "role" in
        if negb (truthy username) || negb (truthy email) || negb (truthy password)
           || negb (truthy full_name) then
          Return (AccountError 400 "Username, email, password, and full name are required"
                               None, (d, users_seq))
        else if shorter_than_6 password then
          Return (AccountError 400 "Password must be at least 6 characters long" None,
                  (d, users_seq))
        else if negb (bool_decide (role ∈ [JStr "admin"; JStr "teacher"])) then
          Return (AccountError 400
                    ("Role must be either " +:+ dquote +:+ "admin" +:+ dquote +:+ " or "
                       +:+ dquote +:+ "teacher" +:+ dquote)
                    None, (d, users_seq))
        else
          match select_user_id_named d (bind username) (bind email) with
          | Some _ =>
            Return (AccountError 409 "Username or email already exists" None,
                    (d, users_seq))
          | None =>
            let! passwordHash := hash_password password salt in
            match insert_user d users_seq (bind username) (bind email)
                              (SText passwordHash) (bind full_name) (bind role)
                              timestamp with
            | Rejected error => Throw error
            | Done d' id _ =>
              Return (AccountOk 201 "User created successfully"
                                (select_user_by_id d' (SInt id)), (d', id))
            end
          end
    end in
  match attempt with
  | Return r => r
  | Throw error =>
    (AccountError 500 "Failed to create user" (Some (message error)), (d, users_seq))
  end.

(** [exports.changePassword] *)
Definition changePassword (d : db) (req : request) (req_body : gmap string jsval)
           (salt timestamp : string) : account_reply * db :=
  let attempt : completion (account_reply * db) :=
    match req_user req with
    | None => Throw (type_error_reading "id")
    | Some me =>
      let userId := get me "id" in
      let currentPassword := get req_body "currentPassword" in
      let newPassword := get req_body "newPassword" in
      if negb (truthy currentPassword) || negb (truthy newPassword) then
        Return (AccountError 400 "Current password and new password are required" None, d)
      else if shorter_than_6 newPassword then
        Return (AccountError 400 "New password must be at least 6 characters long" None, d)
      else
        match select_password_hash d (bind userId) with
        | None => Throw (type_error_reading_null "password_hash")
        | Some password_hash =>
          let! isValidPassword := compare_password currentPassword password_hash in
          if negb isValidPassword then
            Return (AccountError 401 "Current password is incorrect" None, d)
          else
            let! newPasswordHash := hash_password newPassword salt in
            Return (AccountOk 200 "Password changed successfully" None,
                    update_password_hash d newPasswordHash (bind userId) timestamp)
        end
    end in
  match attempt with
  | Return r => r
  | Throw error => (AccountError 500 "Failed to change password" (Some (message error)), d)
  end.

(** [exports.updateProfile] *)
Definition updateProfile (d : db) (req : request) (req_body : gmap string jsval)
           (timestamp : string) : account_reply * db :=
  let attempt : completion (account_reply * db) :=
    match req_user req with
    | None => Throw (type_error_reading "id")
    | Some me =>
      let userId := get me "id" in
      let full_name := get req_body "full_name" in
      let email := get req_body "email" in
      if negb (truthy full_name) && negb (truthy email) then
        Return (AccountError 400 "At least one field (full_name or email) is required"
                             None, d)
      else
        match (if truthy email
               then select_other_user_with_email d (bind email) (bind userId)
               else None) with
        | Some _ => Return (AccountError 409 "Email address is already in use" None, d)
        | None =>
          match update_profile_columns d
                  (if truthy full_name then Some (text_cell (bind full_name)) else None)
                  (if truthy email then Some (text_cell (bind email)) else None)
                  (bind userId) timestamp with
          | Rejected error => Throw error
          | Done d' _ _ =>
            Return (AccountOk 200 "Profile updated successfully"
                              (user_columns_dated <$>
                                 List.find (user_has_id (bind userId)) (users d')),
                    d')
          end
        end
    end in
  match attempt with
  | Return r => r
  | Throw error => (AccountError 500 "Failed to update profile" (Some (message error)), d)
  end.

End AuthMore.

(** A [bcrypt.hash] to run the handlers on: the salt and the data, tagged. *)
Definition sample_hash (data salt : string) : string := "$2b$12$" +:+ salt +:+ data.

(** The administrator, as [authenticateToken] attaches it. *)
Definition admin_request : request :=
  {| authorization := Some (Bearer admin_token); req_session := None;
     req_user := Some (user_columns admin_row); req_userId := JNum 1 |}.

(** The [bcrypt.compare] that goes with [sample_hash]: the text after the tag
    is a salt followed by the data. *)
Definition sample_verify (data hash : string) : bool :=
  let salt := substring 7 (String.length hash - 7 - String.length data) hash in
  String.eqb hash (sample_hash data salt).

(** A [bcrypt.compare] for a store that holds the seeded hash beside hashes
    of [sample_hash]. *)
Definition sample_check (data hash : string) : bool :=
  sample_compare data hash || sample_verify data hash.

(** What a new teacher's form sends to [register]. *)
Definition bola_form : gmap string jsval :=
  {[ "username" := JStr "bola"; "email" := JStr "bola@school-os.local";
     "password" := JStr "secret1"; "full_name" := JStr "Bola Ade" ]}.

(** A form whose username is the email address of a stored account. *)
Definition shadowed_form : gmap string jsval :=
  {[ "username" := JStr "ngozi@school-os.local"; "email" := JStr "bola@school-os.local";
     "password" := JStr "secret1"; "full_name" := JStr "Bola Ade" ]}.

(** The session object express-session hands to a first request. *)
Definition fresh_session : session :=
  {| userId := JUndefined; username := JUndefined; role := JUndefined |}.

(** Usernames and emails are unique, ids are unique and not above the sequence. *)
Record users_ok (d : db) (users_seq : Z) : Prop := {
  ok_ids : NoDup (map u_id (users d));
  ok_usernames : NoDup (map u_username (users d));
  ok_emails : NoDup (map u_email (users d));
  ok_seq : Forall (fun u => u_id u <= users_seq) (users d)
}.

(** The user a middleware attached, when it called [next()]. *)
Definition attached_user (o : outcome) : option (gmap string jsval) :=
  match o with
  | Next req => req_user req
  | Respond _ _ _ => None
  end.

(** ** Logging out: [exports.logout] *)

Definition with_session (req : request) (sess : option session) : request :=
  {| authorization := authorization req; req_session := sess;
     req_user := req_user req; req_userId := req_userId req |}.

(** [exports.logout]: the reply and [req.session] afterwards.  [destroy]
    takes the session off the request before it asks the session store;
    [store_error] is what the store calls back with. *)
Definition logout (sess : option session) (store_error : option string)
  : account_reply * option session :=
  match sess with
  | None =>
    (AccountError 500 "Logout failed"
                  (Some (message (type_error_reading "destroy"))), None)
  | Some _ =>
    match store_error with
    | Some _ => (AccountError 500 "Logout failed" None, None)
    | None => (AccountOk 200 "Logout successful" None, None)
    end
  end.

(** ** controllers/settingsController.js *)

(** A row of [school_settings]; [setting_key] is [UNIQUE NOT NULL], the
    other columns are TEXT that may be [NULL]. *)
Record setting_row := {
  ss_id : Z;
  ss_key : string;
  ss_value : sqlval;
  ss_type : sqlval;
  ss_description : sqlval;
  ss_created_at : string;
  ss_updated_at : string
}.

(** [SELECT setting_key, setting_value, setting_type, description, updated_at] *)
Definition setting_columns (r : setting_row) : gmap string jsval :=
  list_to_map
    [ ("setting_key", JStr (ss_key r)); ("setting_value", unbind (ss_value r));
      ("setting_type", unbind (ss_type r)); ("description", unbind (ss_description r));
      ("updated_at", JStr (ss_updated_at r)) ].

(** [WHERE setting_key = ?] with the text of a route parameter or of a
    property name. *)
Definition has_key (key : string) (r : setting_row) : bool :=
  sql_eq (SText (ss_key r)) (text_affinity (SText key)).

Definition set_setting_value (value : sqlval) (timestamp : string) (r : setting_row)
  : setting_row :=
  {| ss_id := ss_id r; ss_key := ss_key r; ss_value := text_affinity value;
     ss_type := ss_type r; ss_description := ss_description r;
     ss_created_at := ss_created_at r; ss_updated_at := timestamp |}.

(** [UPDATE school_settings SET setting_value = ?, updated_at =
    CURRENT_TIMESTAMP WHERE setting_key = ?] *)
Definition update_setting_value (t : list setting_row) (value : sqlval) (key : string)
           (timestamp : string) : list setting_row :=
  map (fun r => if has_key key r then set_setting_value value timestamp r else r) t.

(** [ORDER BY setting_key]: the BINARY collation compares the bytes. *)
Definition key_order (a b : setting_row) : Prop :=
  String.leb (ss_key a) (ss_key b) = true.

#[global] Instance key_order_dec a b : Decision (key_order a b).
Proof. unfold key_order. apply _. Defined.

(** What [settingsObject] holds under a key. *)
Definition setting_entry (r : setting_row) : gmap string jsval :=
  list_to_map
    [ ("value", unbind (ss_value r)); ("type", unbind (ss_type r));
      ("description", unbind (ss_description r)); ("updated_at", JStr (ss_updated_at r)) ].

(** One element of [results] in [bulkUpdateSettings]. *)
Record bulk_result := {
  br_key : string;
  br_success : bool;
  br_action : option string;
  br_error : option string
}.

Record bulk_summary := {
  bulk_message : string;
  bulk_results : list bulk_result;
  bulk_total : Z;
  bulk_successful : Z;
  bulk_failed : Z
}.

(** What the settings controller sends. *)
Inductive settings_reply :=
| SettingsError (code : Z) (error : string)
| SettingOk (data : option (gmap string jsval)) (msg : option string)
| AllSettings (data : gmap string (gmap string jsval)) (total : Z)
| BulkOk (summary : bulk_summary).

Definition settings_status (r : settings_reply) : Z :=
  match r with
  | SettingsError code _ => code
  | _ => 200
  end.

(** [exports.getAllSettings] *)
Definition getAllSettings (t : list setting_row) : settings_reply :=
  let settings := merge_sort key_order t in
  let settingsObject :=
    foldl (fun obj setting => <[ss_key setting := setting_entry setting]> obj)
          (∅ : gmap string (gmap string jsval)) settings in
  AllSettings settingsObject (Z.of_nat (length settings)).

(** [exports.getSetting] *)
Definition getSetting (t : list setting_row) (settingKey : string) : settings_reply :=
  match List.find (has_key settingKey) t with
  | None => SettingsError 404 "Setting not found"
  | Some setting => SettingOk (Some (setting_columns setting)) None
  end.

(** [exports.updateSetting]: the reply and the table. *)
Definition updateSetting (t : list setting_row) (settingKey : string)
           (req_body : gmap string jsval) (timestamp : string)
  : settings_reply * list setting_row :=
  let value := get req_body "value" in
  if decide (value = JUndefined) then (SettingsError 400 "Setting value is required", t)
  else
    match List.find (has_key settingKey) t with
    | None => (SettingsError 404 "Setting not found", t)
    | Some _ =>
      let t' := update_setting_value t (bind value) settingKey timestamp in
      (SettingOk (setting_columns <$> List.find (has_key settingKey) t')
                 (Some "Setting updated successfully"), t')
    end.

(** The loop of [bulkUpdateSettings] over [Object.entries(settings)]. *)
Fixpoint bulk_loop (t : list setting_row) (entries : list (string * jsval))
         (timestamp : string) : list bulk_result * list setting_row :=
  match entries with
  | [] => ([], t)
  | (key, value) :: rest =>
    match List.find (has_key key) t with
    | Some _ =>
      let t' := update_setting_value t (bind value) key timestamp in
      let (results, t'') := bulk_loop t' rest timestamp in
      ({| br_key := key; br_success := true; br_action := Some "updated";
          br_error := None |} :: results, t'')
    | None =>
      let (results, t') := bulk_loop t rest timestamp in
      ({| br_key := key; br_success := false; br_action := None;
          br_error := Some "Setting not found" |} :: results, t')
    end
  end.

(** [exports.bulkUpdateSettings]; the body is the entries of the object the
    request carried, or [None] when it carried no object. *)
Definition bulkUpdateSettings (t : list setting_row)
           (req_body : option (list (string * jsval))) (timestamp : string)
  : settings_reply * list setting_row :=
  match req_body with
  | None => (SettingsError 400 "Settings object is required", t)
  | Some entries =>
    let (results, t') := bulk_loop t entries timestamp in
    let successCount := Z.of_nat (length (List.filter br_success results)) in
    let errorCount :=
      Z.of_nat (length (List.filter (fun r => negb (br_success r)) results)) in
    (BulkOk {| bulk_message := "Bulk update completed: " +:+ pretty successCount
                                 +:+ " successful, " +:+ pretty errorCount +:+ " failed";
               bulk_results := results;
               bulk_total := Z.of_nat (length results);
               bulk_successful := successCount;
               bulk_failed := errorCount |}, t')
  end.

(** Three of the settings [insertDefaultData] seeds. *)
Definition sample_settings : list setting_row :=
  [ {| ss_id := 1; ss_key := "school_name"; ss_value := SText "Sample Elementary School";
       ss_type := SText "text"; ss_description := SText "Name of the school";
       ss_created_at := "2025-06-14 08:00:00"; ss_updated_at := "2025-06-14 08:00:00" |};
    {| ss_id := 2; ss_key := "school_logo"; ss_value := SText "";
       ss_type := SText "file"; ss_description := SText "School logo image file path";
       ss_created_at := "2025-06-14 08:00:00"; ss_updated_at := "2025-06-14 08:00:00" |};
    {| ss_id := 6; ss_key := "academic_year"; ss_value := SText "2024-2025";
       ss_type := SText "text"; ss_description := SText "Current academic year";
       ss_created_at := "2025-06-14 08:00:00"; ss_updated_at := "2025-06-14 08:00:00" |} ].

(** ** The store: lemmas *)

Lemma sql_eq_true a b : sql_eq a b = true -> a = b.
Proof.
  destruct a, b; simpl; try discriminate.
  - intros H. apply Z.eqb_eq in H. congruence.
  - intros H. apply String.eqb_eq in H. congruence.
Qed.

Lemma sql_eq_refl a : is_null a = false -> sql_eq a a = true.
Proof.
  destruct a; simpl; try discriminate; intros _.
  - apply Z.eqb_refl.
  - apply String.eqb_refl.
Qed.

Lemma truthy_not_null v : truthy v = true -> is_null (bind v) = false.
Proof. destruct v; simpl; try discriminate; reflexivity. Qed.

Lemma numeric_affinity_null v : is_null (numeric_affinity v) = is_null v.
Proof.
  destruct v as [| |s]; simpl; try reflexivity.
  destruct (integer_literal s); reflexivity.
Qed.

Lemma text_affinity_null v : is_null (text_affinity v) = is_null v.
Proof. destruct v; reflexivity. Qed.

Lemma same_day_key s dt r :
  same_day s dt r = true -> day_key r = (numeric_affinity s, numeric_affinity dt).
Proof.
  unfold same_day, day_key. intros H. apply andb_prop in H as [H1 H2].
  apply sql_eq_true in H1, H2. congruence.
Qed.

Lemma same_day_other s dt s' dt' r :
  (numeric_affinity s', numeric_affinity dt')
  <> (numeric_affinity s, numeric_affinity dt) ->
  same_day s' dt' r = true -> same_day s dt r = false.
Proof.
  intros Hne H'. destruct (same_day s dt r) eqn:H; [|reflexivity].
  apply same_day_key in H, H'. congruence.
Qed.

(** Parameters with the same affinity image select the same records. *)
Lemma records_for_same_key d s dt s' dt' :
  (numeric_affinity s', numeric_affinity dt')
  = (numeric_affinity s, numeric_affinity dt) ->
  records_for d s' dt' = records_for d s dt.
Proof. intros [= H1 H2]. unfold records_for, same_day. rewrite H1, H2. reflexivity. Qed.

Lemma find_existsb {A} (f : A -> bool) l :
  List.find f l = None <-> existsb f l = false.
Proof.
  induction l as [|x l IH]; simpl; [tauto|].
  destruct (f x); simpl; [split; discriminate | exact IH].
Qed.

Lemma existsb_filter_nil {A} (f : A -> bool) l :
  existsb f l = false <-> List.filter f l = [].
Proof.
  induction l as [|x l IH]; simpl; [tauto|].
  destruct (f x); simpl; [split; discriminate | exact IH].
Qed.

Lemma select_none d s dt :
  select_attendance_id d s dt = None <-> records_for d s dt = [].
Proof.
  unfold select_attendance_id, records_for.
  rewrite <- existsb_filter_nil, <- find_existsb.
  destruct (List.find _ _); simpl; split; congruence.
Qed.

Lemma select_some d s dt id :
  select_attendance_id d s dt = Some id ->
  exists r rest, records_for d s dt = r :: rest /\ at_id r = id.
Proof.
  unfold select_attendance_id, records_for.
  induction (attendance d) as [|x l IH]; simpl; [discriminate|].
  destruct (same_day s dt x); simpl.
  - intros [= <-]. eauto.
  - exact IH.
Qed.

Lemma filter_map_keep {A} (g : A -> bool) (f : A -> A) l :
  (forall x, g (f x) = g x) ->
  List.filter g (map f l) = map f (List.filter g l).
Proof.
  intros Hg. induction l as [|x l IH]; simpl; [reflexivity|].
  rewrite Hg. destruct (g x); simpl; congruence.
Qed.

Lemma map_filter_id {A} (g : A -> bool) (f : A -> A) l :
  (forall x, g x = true -> f x = x) ->
  map f (List.filter g l) = List.filter g l.
Proof.
  intros Hf. induction l as [|x l IH]; simpl; [reflexivity|].
  destruct (g x) eqn:Hx; simpl; [rewrite Hf by assumption|]; congruence.
Qed.

Lemma map_filter_all {A} (g : A -> bool) (f h : A -> A) l :
  (forall x, g x = true -> f x = h x) ->
  map f (List.filter g l) = map h (List.filter g l).
Proof.
  intros Hf. induction l as [|x l IH]; simpl; [reflexivity|].
  destruct (g x) eqn:Hx; simpl; [rewrite Hf by assumption|]; congruence.
Qed.

Lemma same_day_set_status_notes ts s dt st nt r :
  same_day s dt (set_status_notes ts st nt r) = same_day s dt r.
Proof. reflexivity. Qed.

Lemma next_rowid_fresh d r : In r (attendance d) -> at_id r < next_rowid d.
Proof.
  unfold next_rowid. induction (attendance d) as [|x l IH]; simpl; [tauto|].
  intros [-> | H]; [lia | specialize (IH H); lia].
Qed.

(** [UPDATE] when the pair has a record. *)
Lemma update_written ts d st nt s dt :
  is_null st = false ->
  records_for d s dt <> [] ->
  exists d' changes,
    update_attendance ts d st nt s dt = Done d' (attendance_seq d) changes
    /\ written d d' s dt (text_affinity st) (text_affinity nt)
    /\ map at_id (attendance d') = map at_id (attendance d)
    /\ attendance_seq d' = attendance_seq d.
Proof.
  intros Hst Hsome. unfold update_attendance. rewrite Hst, andb_false_r.
  eexists _, _. split; [reflexivity|].
  set (f := fun r => if same_day s dt r
                     then set_status_notes ts (text_affinity st) (text_affinity nt) r
                     else r).
  assert (Hkeep : forall s' dt' x, same_day s' dt' (f x) = same_day s' dt' x).
  { intros s' dt' x. unfold f. destruct (same_day s dt x); reflexivity. }
  assert (Hrec : forall s' dt',
             List.filter (same_day s' dt') (map f (attendance d))
             = map f (List.filter (same_day s' dt') (attendance d))).
  { intros s' dt'. apply filter_map_keep. apply Hkeep. }
  split; [|split; [|reflexivity]].
  - split; simpl; try reflexivity; unfold records_for; simpl; fold f.
    + intros s' dt' Hne. rewrite Hrec. apply map_filter_id.
      intros x Hx. unfold f. rewrite (same_day_other _ _ _ _ _ Hne Hx). reflexivity.
    + rewrite Hrec, length_map.
      unfold records_for in Hsome.
      destruct (List.filter (same_day s dt) (attendance d)); [congruence | simpl; lia].
    + rewrite Hrec.
      rewrite (map_filter_all _ f (set_status_notes ts (text_affinity st) (text_affinity nt))).
      * apply Forall_forall. intros r Hr. apply list_elem_of_In, in_map_iff in Hr.
        destruct Hr as (x & <- & _). split; reflexivity.
      * intros x Hx. unfold f. rewrite Hx. reflexivity.
  - simpl. fold f. rewrite map_map. apply map_ext. intros x. unfold f.
    destruct (same_day s dt x); reflexivity.
Qed.

(** [INSERT] when the pair has no record and the student exists. *)
Lemma insert_written ts d s dt st nt :
  is_null s = false -> is_null dt = false -> is_null st = false ->
  records_for d s dt = [] ->
  student_exists d s = true ->
  exists d',
    insert_attendance ts d s dt st nt = Done d' (next_rowid d) 1
    /\ written d d' s dt (text_affinity st) (text_affinity nt)
    /\ attendance d' = (attendance d ++
         [ {| at_id := next_rowid d;
              at_student_id := numeric_affinity s; at_date := numeric_affinity dt;
              at_status := text_affinity st; at_notes := text_affinity nt;
              at_recorded_by := SNull;
              at_created_at := ts; at_updated_at := ts |} ])%list.
Proof.
  intros Hs Hdt Hst Hnone Hfk. unfold insert_attendance.
  rewrite Hs, Hdt, Hst, Hfk. simpl.
  apply existsb_filter_nil in Hnone as Hex. rewrite Hex.
  eexists. split; [reflexivity|]. split; [|reflexivity].
  split; simpl; try reflexivity; unfold records_for in *; simpl;
    try intros s' dt' Hne; rewrite List.filter_app; simpl.
  - unfold same_day at 2. simpl.
    destruct (sql_eq (numeric_affinity s) (numeric_affinity s')
              && sql_eq (numeric_affinity dt) (numeric_affinity dt')) eqn:H;
      [|apply app_nil_r].
    apply andb_prop in H as [H1 H2]. apply sql_eq_true in H1, H2. congruence.
  - rewrite Hnone. unfold same_day. simpl.
    rewrite !sql_eq_refl by (rewrite numeric_affinity_null; assumption). reflexivity.
  - rewrite Hnone. unfold same_day. simpl.
    rewrite !sql_eq_refl by (rewrite numeric_affinity_null; assumption).
    simpl. repeat constructor.
Qed.

(** [INSERT] for a student the [students] table does not hold. *)
Lemma insert_foreign_key ts d s dt st nt :
  is_null s = false -> is_null dt = false -> is_null st = false ->
  records_for d s dt = [] ->
  student_exists d s = false ->
  insert_attendance ts d s dt st nt
  = Rejected (sqlite_constraint "FOREIGN KEY constraint failed").
Proof.
  intros Hs Hdt Hst Hnone Hfk. unfold insert_attendance.
  rewrite Hs, Hdt, Hst, Hfk. apply existsb_filter_nil in Hnone. rewrite Hnone.
  reflexivity.
Qed.

Lemma written_at_most_one d d' s dt st nt :
  written d d' s dt st nt -> at_most_one d -> at_most_one d'.
Proof.
  intros W Hd s' dt'.
  destruct (decide ((numeric_affinity s', numeric_affinity dt')
                    = (numeric_affinity s, numeric_affinity dt))) as [He | Hne].
  - rewrite (records_for_same_key d' _ _ _ _ He), (written_count _ _ _ _ _ _ W).
    specialize (Hd s dt). lia.
  - rewrite (written_frame _ _ _ _ _ _ W) by assumption. apply Hd.
Qed.

Lemma written_one d d' s dt st nt :
  written d d' s dt st nt -> at_most_one d ->
  exists r, records_for d' s dt = [r] /\ at_status r = st /\ at_notes r = nt.
Proof.
  intros W Hd. pose proof (written_count _ _ _ _ _ _ W) as Hc.
  pose proof (written_cells _ _ _ _ _ _ W) as Hf.
  specialize (Hd s dt).
  destruct (records_for d' s dt) as [|r [|r' l]]; simpl in Hc; try lia.
  exists r. split; [reflexivity|]. apply Forall_inv in Hf. exact Hf.
Qed.

Lemma insert_done_inv ts d s dt st nt d' id changes :
  insert_attendance ts d s dt st nt = Done d' id changes ->
  is_null s = false /\ is_null dt = false /\ is_null st = false
  /\ records_for d s dt = [] /\ student_exists d s = true.
Proof.
  unfold insert_attendance.
  destruct (is_null s); [discriminate|].
  destruct (is_null dt); [discriminate|].
  destruct (is_null st); [discriminate|].
  destruct (existsb _ _) eqn:Hex; [discriminate|].
  destruct (student_exists d s); [|discriminate].
  intros _. apply existsb_filter_nil in Hex. auto.
Qed.

Lemma insert_done_written ts d s dt st nt d' id changes :
  insert_attendance ts d s dt st nt = Done d' id changes ->
  written d d' s dt (text_affinity st) (text_affinity nt).
Proof.
  intros H. pose proof (insert_done_inv ts _ _ _ _ _ _ _ _ H) as (Hs & Hdt & Hst & Hn & Hfk).
  destruct (insert_written ts d s dt st nt Hs Hdt Hst Hn Hfk) as (d'' & Hd'' & W & _).
  congruence.
Qed.

Lemma missing_required_false o :
  missing_required o = false ->
  truthy (get o "student_id") = true /\ truthy (get o "date") = true
  /\ truthy (get o "status") = true.
Proof.
  unfold missing_required. intros H.
  apply orb_false_elim in H as [H H3]. apply orb_false_elim in H as [H1 H2].
  apply negb_false_iff in H1, H2, H3. auto.
Qed.

(** ** The loop body of [recordAttendance] *)

(** A well-formed item whose pair has a record: the record is updated. *)
Lemma record_one_existing ts d o existing :
  missing_required o = false ->
  select_attendance_id d (bind (get o "student_id")) (bind (get o "date")) = Some existing ->
  exists d',
    record_one ts d (IObj o)
    = Return (RSuccess Updated existing (get o "student_id") (get o "date")
                       (get o "status") (get o "notes"), d')
    /\ written d d' (bind (get o "student_id")) (bind (get o "date"))
               (text_affinity (bind (get o "status")))
               (text_affinity (bind (js_or (get o "notes") JNull)))
    /\ map at_id (attendance d') = map at_id (attendance d).
Proof.
  intros Hm Hsel. pose proof (missing_required_false _ Hm) as (H1 & H2 & H3).
  destruct (select_some _ _ _ _ Hsel) as (r & rest & Hrec & _).
  destruct (update_written ts d (bind (get o "status")) (bind (js_or (get o "notes") JNull))
              (bind (get o "student_id")) (bind (get o "date")))
    as (d' & c & Hup & W & Hids & _).
  { apply truthy_not_null, H3. }
  { rewrite Hrec. discriminate. }
  exists d'. unfold record_one. fold (missing_required o). rewrite Hm, Hsel, Hup. auto.
Qed.

(** A well-formed item whose pair has no record, for a student the store
    knows: a record is inserted under a fresh id. *)
Lemma record_one_fresh ts d o :
  missing_required o = false ->
  select_attendance_id d (bind (get o "student_id")) (bind (get o "date")) = None ->
  student_exists d (bind (get o "student_id")) = true ->
  exists d',
    record_one ts d (IObj o)
    = Return (RSuccess Created (next_rowid d) (get o "student_id") (get o "date")
                       (get o "status") (get o "notes"), d')
    /\ written d d' (bind (get o "student_id")) (bind (get o "date"))
               (text_affinity (bind (get o "status")))
               (text_affinity (bind (js_or (get o "notes") JNull)))
    /\ attendance d' = (attendance d ++
         [ {| at_id := next_rowid d;
              at_student_id := numeric_affinity (bind (get o "student_id"));
              at_date := numeric_affinity (bind (get o "date"));
              at_status := text_affinity (bind (get o "status"));
              at_notes := text_affinity (bind (js_or (get o "notes") JNull));
              at_recorded_by := SNull;
              at_created_at := ts; at_updated_at := ts |} ])%list.
Proof.
  intros Hm Hsel Hfk. pose proof (missing_required_false _ Hm) as (H1 & H2 & H3).
  apply truthy_not_null in H1, H2, H3. apply select_none in Hsel as Hnone.
  destruct (insert_written ts d _ _ _ (bind (js_or (get o "notes") JNull)) H1 H2 H3 Hnone Hfk)
    as (d' & Hins & W & Hatt).
  exists d'. unfold record_one. fold (missing_required o). rewrite Hm, Hsel, Hins. auto.
Qed.

(** The same, for a student the store does not know: the item fails on the
    foreign key and nothing is written. *)
Lemma record_one_unknown_student ts d o :
  missing_required o = false ->
  select_attendance_id d (bind (get o "student_id")) (bind (get o "date")) = None ->
  student_exists d (bind (get o "student_id")) = false ->
  record_one ts d (IObj o)
  = Return (RFailure "SQLITE_CONSTRAINT: FOREIGN KEY constraint failed" (IObj o), d).
Proof.
  intros Hm Hsel Hfk. pose proof (missing_required_false _ Hm) as (H1 & H2 & H3).
  apply truthy_not_null in H1, H2, H3. apply select_none in Hsel as Hnone.
  unfold record_one. fold (missing_required o). rewrite Hm, Hsel.
  rewrite (insert_foreign_key ts d _ _ _ _ H1 H2 H3 Hnone Hfk). reflexivity.
Qed.

Lemma record_one_missing ts d o :
  missing_required o = true ->
  record_one ts d (IObj o)
  = Return (RFailure "Missing required fields: student_id, date, status" (IObj o), d).
Proof. intros Hm. unfold record_one. fold (missing_required o). rewrite Hm. reflexivity. Qed.

Lemma record_one_cases ts d it : record_one_ends d it (record_one ts d it).
Proof.
  destruct it as [|o]; [constructor; reflexivity|].
  destruct (missing_required o) eqn:Hm.
  { rewrite record_one_missing by assumption. constructor. discriminate. }
  destruct (select_attendance_id d (bind (get o "student_id")) (bind (get o "date")))
    as [existing|] eqn:Hsel.
  { destruct (record_one_existing ts d o existing Hm Hsel) as (d' & -> & W & _).
    econstructor; eauto. }
  destruct (student_exists d (bind (get o "student_id"))) eqn:Hfk.
  - destruct (record_one_fresh ts d o Hm Hsel Hfk) as (d' & -> & W & _).
    econstructor; eauto.
  - rewrite record_one_unknown_student by assumption. constructor. discriminate.
Qed.

Lemma record_one_at_most_one ts d it r d' :
  record_one ts d it = Return (r, d') -> at_most_one d -> at_most_one d'.
Proof.
  intros H Hd. pose proof (record_one_cases ts d it) as Hc. rewrite H in Hc.
  inversion Hc; subst; [assumption|]. eapply written_at_most_one; eauto.
Qed.

Lemma record_loop_at_most_one ts records :
  forall d results, at_most_one d -> at_most_one (record_loop ts d records results).2.
Proof.
  induction records as [|it rest IH]; intros d results Hd; simpl; [assumption|].
  destruct (record_one ts d it) as [[r d']|e] eqn:H; simpl; [|assumption].
  apply IH. eapply record_one_at_most_one; eauto.
Qed.

Lemma recordAttendance_at_most_one ts d b :
  at_most_one d -> at_most_one (recordAttendance ts d b).2.
Proof.
  intros Hd. unfold recordAttendance.
  set (records := match b with BodyArray l => l | BodyObject o => [IObj o] end).
  pose proof (record_loop_at_most_one ts records d [] Hd) as H.
  destruct (record_loop ts d records []) as [[results|e] d']; exact H.
Qed.

(** ** The loop body of [markAllPresent] *)

Lemma mark_one_at_most_one ts d date notes s :
  at_most_one d -> at_most_one (mark_one ts d date notes s).2.
Proof.
  intros Hd. unfold mark_one.
  destruct (select_attendance_id d (SInt s) (bind date)) as [existing|] eqn:Hsel.
  - destruct (select_some _ _ _ _ Hsel) as (r & rest & Hrec & _).
    destruct (update_written ts d (SText "present") (bind (js_or notes JNull))
                (SInt s) (bind date)) as (d' & c & -> & W & _).
    { reflexivity. } { rewrite Hrec. discriminate. }
    simpl. eapply written_at_most_one; eauto.
  - destruct (insert_attendance ts _ _ _ _ _) as [d' id c|e] eqn:Hins; simpl; [|assumption].
    eapply written_at_most_one; [|eassumption]. eapply insert_done_written; eauto.
Qed.

Lemma mark_loop_at_most_one ts date notes l :
  forall d results, at_most_one d -> at_most_one (mark_loop ts d date notes l results).2.
Proof.
  induction l as [|s rest IH]; intros d results Hd; simpl; [assumption|].
  pose proof (mark_one_at_most_one ts d date notes s Hd) as H1.
  destruct (mark_one ts d date notes s) as [r d']. apply IH, H1.
Qed.

Lemma markAllPresent_at_most_one ts d o :
  at_most_one d -> at_most_one (markAllPresent ts d o).2.
Proof.
  intros Hd. unfold markAllPresent.
  destruct (_ || _); [assumption|].
  destruct (_ =? _)%nat; [assumption|].
  pose proof (mark_loop_at_most_one ts (get o "date") (get o "notes")
                (select_active_students d (bind (get o "class_id"))) d [] Hd) as H.
  destruct (mark_loop ts _ _ _ _ _) as [results d']. exact H.
Qed.

Lemma serve_at_most_one d c : at_most_one d -> at_most_one (serve d c).
Proof.
  destruct c; simpl.
  - apply recordAttendance_at_most_one.
  - apply recordAttendance_at_most_one.
  - apply markAllPresent_at_most_one.
Qed.

Lemma serve_all_at_most_one cs : forall d, at_most_one d -> at_most_one (serve_all d cs).
Proof.
  induction cs as [|c cs IH]; intros d Hd; simpl; [assumption|].
  apply IH, serve_at_most_one, Hd.
Qed.

Lemma NoDup_day_key_at_most_one d :
  NoDup (map day_key (attendance d)) -> at_most_one d.
Proof.
  intros Hnd s dt. unfold records_for.
  induction (attendance d) as [|x l IH]; simpl; [lia|].
  apply NoDup_cons in Hnd as [Hx Hl]. specialize (IH Hl).
  destruct (same_day s dt x) eqn:Hs; simpl; [|lia].
  assert (List.filter (same_day s dt) l = []) as ->; [|simpl; lia].
  apply existsb_filter_nil. destruct (existsb _ l) eqn:Hex; [|reflexivity].
  apply existsb_exists in Hex as (y & Hy & Hsy). exfalso. apply Hx.
  apply same_day_key in Hs, Hsy. apply list_elem_of_In, in_map_iff.
  exists y. split; [congruence | assumption].
Qed.

Lemma sample_db_at_most_one : at_most_one sample_db.
Proof. apply NoDup_day_key_at_most_one. apply (bool_decide_unpack _). vm_compute. exact I. Qed.

(** * Attendance upsert engine *)

(** What the [UPDATE] of the upsert leaves in the timestamp columns. *)
Lemma update_attendance_stamps ts d st nt s dt d' id c :
  update_attendance ts d st nt s dt = Done d' id c ->
  Forall (fun r => at_updated_at r = ts) (records_for d' s dt)
  /\ map at_created_at (attendance d') = map at_created_at (attendance d).
Proof.
  unfold update_attendance. cbv zeta.
  destruct (existsb _ _ && is_null st); [discriminate|]. intros [= <- _ _].
  set (f := fun r => if same_day s dt r
                     then set_status_notes ts (text_affinity st) (text_affinity nt) r
                     else r).
  assert (Hkeep : forall x, same_day s dt (f x) = same_day s dt x).
  { intros x. unfold f. destruct (same_day s dt x) eqn:Hx; [|exact Hx]. exact Hx. }
  split.
  - unfold records_for. simpl. fold f.
    rewrite (filter_map_keep _ _ _ Hkeep).
    rewrite (map_filter_all _ f (set_status_notes ts (text_affinity st) (text_affinity nt)))
      by (intros x Hx; unfold f; rewrite Hx; reflexivity).
    apply Forall_forall. intros r Hr. apply list_elem_of_In, in_map_iff in Hr.
    destruct Hr as (x & <- & _). reflexivity.
  - simpl. fold f. rewrite map_map. apply map_ext. intros x. unfold f.
    destruct (same_day s dt x); reflexivity.
Qed.

(** One more item at the end of a batch is served on the store the items
    before it left. *)
Lemma record_loop_snoc ts pre x :
  forall d results,
    record_loop ts d (pre ++ [x]) results
    = match record_loop ts d pre results with
      | (Return rs, d1) =>
        match record_one ts d1 x with
        | Return (r, d2) => (Return (rs ++ [r])%list, d2)
        | Throw e => (Throw e, d1)
        end
      | (Throw e, d1) => (Throw e, d1)
      end.
Proof.
  induction pre as [|it rest IH]; intros d results; simpl.
  - destruct (record_one ts d x) as [[r d2]|e]; reflexivity.
  - destruct (record_one ts d it) as [[r d']|e]; [apply IH | reflexivity].
Qed.

Lemma recordAttendance_snoc ts d pre o msg rs sm d1 r d2 :
  recordAttendance ts d (BodyArray pre) = (Batch msg rs sm, d1) ->
  record_one ts d1 (IObj o) = Return (r, d2) ->
  exists msg',
    recordAttendance ts d (BodyArray (pre ++ [IObj o]))
    = (Batch msg' (rs ++ [r])
             {| total := S (total sm);
                successful := if success r then S (successful sm) else successful sm;
                failed := if success r then failed sm else S (failed sm) |},
       d2).
Proof.
  unfold recordAttendance. rewrite record_loop_snoc.
  destruct (record_loop ts d pre []) as [[results|e] d0]; [|discriminate].
  intros [= _ <- <- <-] Hone. rewrite Hone. eexists. f_equal. f_equal.
  rewrite !List.filter_app, !length_app. simpl.
  destruct (success r); simpl; f_equal; lia.
Qed.

Lemma record_loop_results (P : result -> Prop) ts records :
  (forall d it r d', record_one ts d it = Return (r, d') -> P r) ->
  forall d results rs d',
    Forall P results ->
    record_loop ts d records results = (Return rs, d') -> Forall P rs.
Proof.
  intros Hone. induction records as [|it rest IH]; intros d results rs d' Hres; simpl.
  - intros [= <- _]. exact Hres.
  - destruct (record_one ts d it) as [[r d1]|e] eqn:H; [|discriminate].
    apply IH. apply Forall_app. split; [exact Hres|].
    constructor; [eapply Hone; eassumption | constructor].
Qed.

(** C1, as the code has it.  [recordAttendance] serves the items of a
    submission one after the other, a single object as a batch of one.  A
    well-formed item is first looked up by (student, date) in the store the
    items before it left.  When a record exists it is updated in place (same
    ids, the new status and notes, the update time) and the entry added to
    the results reports [updated] with the existing id.  When none exists
    and the store knows the student, one record is appended under a fresh id
    and the entry reports [created] with that id; when the store does not
    know the student the insert is refused on the foreign key, the entry
    reports the failure and nothing is written.  No entry ever reports a
    violation of the UNIQUE constraint, and any run of attendance requests
    keeps at most one record per (student, date). *)
Theorem upsert_keeps_one_record_per_day :
  (forall ts d pre msg rs sm d1 o,
      recordAttendance ts d (BodyArray pre) = (Batch msg rs sm, d1) ->
      missing_required o = false ->
      let student_id := get o "student_id" in
      let date := get o "date" in
      let status := get o "status" in
      let notes := get o "notes" in
      exists msg' d',
        match select_attendance_id d1 (bind student_id) (bind date) with
        | Some existing =>
          recordAttendance ts d (BodyArray (pre ++ [IObj o]))
          = (Batch msg' (rs ++ [RSuccess Updated existing student_id date status notes])
                   {| total := S (total sm); successful := S (successful sm);
                      failed := failed sm |}, d')
          /\ recorded d' (bind student_id) (bind date) (text_affinity (bind status))
                      (text_affinity (bind (js_or notes JNull)))
          /\ Forall (fun r => at_updated_at r = ts)
                    (records_for d' (bind student_id) (bind date))
          /\ map at_id (attendance d') = map at_id (attendance d1)
          /\ length (records_for d' (bind student_id) (bind date))
             = length (records_for d1 (bind student_id) (bind date))
        | None =>
          if student_exists d1 (bind student_id) then
            recordAttendance ts d (BodyArray (pre ++ [IObj o]))
            = (Batch msg' (rs ++ [RSuccess Created (next_rowid d1) student_id date status
                                           notes])
                     {| total := S (total sm); successful := S (successful sm);
                        failed := failed sm |}, d')
            /\ (forall r, In r (attendance d1) -> at_id r < next_rowid d1)
            /\ attendance d' = (attendance d1 ++
                 [ {| at_id := next_rowid d1;
                      at_student_id := numeric_affinity (bind student_id);
                      at_date := numeric_affinity (bind date);
                      at_status := text_affinity (bind status);
                      at_notes := text_affinity (bind (js_or notes JNull));
                      at_recorded_by := SNull;
                      at_created_at := ts; at_updated_at := ts |} ])%list
          else
            recordAttendance ts d (BodyArray (pre ++ [IObj o]))
            = (Batch msg' (rs ++ [RFailure "SQLITE_CONSTRAINT: FOREIGN KEY constraint failed"
                                           (IObj o)])
                     {| total := S (total sm); successful := successful sm;
                        failed := S (failed sm) |}, d')
            /\ d' = d1
        end)
  /\ (forall ts d o,
         recordAttendance ts d (BodyObject o) = recordAttendance ts d (BodyArray [IObj o]))
  /\ (forall ts d b r,
         In r (results_of (recordAttendance ts d b).1) ->
         forall data, r <> RFailure unique_violation data)
  /\ (forall cs d, at_most_one d -> at_most_one (serve_all d cs)).
Proof.
  split; [|split; [|split]].
  - intros ts d pre msg rs sm d1 o Hpre Hm. cbv zeta.
    destruct (select_attendance_id d1 (bind (get o "student_id")) (bind (get o "date")))
      as [existing|] eqn:Hsel.
    + destruct (record_one_existing ts d1 o existing Hm Hsel) as (d' & H & W & Hids).
      destruct (recordAttendance_snoc _ _ _ _ _ _ _ _ _ _ Hpre H) as (msg' & Hall).
      destruct (select_some _ _ _ _ Hsel) as (r & rest & Hrec & _).
      exists msg', d'. split; [exact Hall|]. split; [|split; [|split; [exact Hids|]]].
      * split; [|exact (written_cells _ _ _ _ _ _ W)].
        pose proof (written_count _ _ _ _ _ _ W) as Hc.
        destruct (records_for d' _ _); [simpl in Hc; lia | discriminate].
      * unfold record_one in H. fold (missing_required o) in H. rewrite Hm, Hsel in H.
        destruct (update_attendance ts d1 _ _ _ _) as [d2 i c|e] eqn:Hup;
          [|discriminate].
        injection H as <-. exact (proj1 (update_attendance_stamps _ _ _ _ _ _ _ _ _ Hup)).
      * rewrite (written_count _ _ _ _ _ _ W), Hrec. simpl. lia.
    + destruct (student_exists d1 (bind (get o "student_id"))) eqn:Hfk.
      * destruct (record_one_fresh ts d1 o Hm Hsel Hfk) as (d' & H & W & Hatt).
        destruct (recordAttendance_snoc _ _ _ _ _ _ _ _ _ _ Hpre H) as (msg' & Hall).
        exists msg', d'. split; [exact Hall|]. split; [|exact Hatt].
        intros r. apply next_rowid_fresh.
      * pose proof (record_one_unknown_student ts d1 o Hm Hsel Hfk) as H.
        destruct (recordAttendance_snoc _ _ _ _ _ _ _ _ _ _ Hpre H) as (msg' & Hall).
        exists msg', d1. split; [exact Hall | reflexivity].
  - reflexivity.
  - intros ts d b r Hin data ->. revert Hin. unfold recordAttendance.
    set (records := match b with BodyArray l => l | BodyObject o => [IObj o] end).
    destruct (record_loop ts d records []) as [[results|e] d'] eqn:Hloop; simpl; [|tauto].
    intros Hin.
    assert (Hall : Forall (fun r => forall data, r <> RFailure unique_violation data)
                          results).
    { eapply (record_loop_results _ ts records); [| |exact Hloop]; [|constructor].
      intros d0 it r0 d0' H data0 ->.
      pose proof (record_one_cases ts d0 it) as Hc. rewrite H in Hc.
      inversion Hc; subst. congruence. }
    rewrite Forall_forall in Hall. apply list_elem_of_In in Hin.
    exact (Hall _ Hin data eq_refl).
  - intros cs d. apply serve_all_at_most_one.
Qed.

Lemma upsert_keeps_one_record_per_day_witness :
  (exists msg d',
      recordAttendance sample_time sample_db
        (BodyArray [IObj (attendance_item 2 "2025-06-16" "present");
                    IObj (attendance_item 1 "2025-06-16" "late")])
      = (Batch msg
               [RSuccess Created 2 (JNum 2) (JStr "2025-06-16") (JStr "present") JUndefined;
                RSuccess Updated 1 (JNum 1) (JStr "2025-06-16") (JStr "late") JUndefined]
               {| total := 2; successful := 2; failed := 0 |}, d')
      /\ recorded d' (SInt 1) (SText "2025-06-16") (SText "late") SNull)
  /\ at_most_one
       (serve_all sample_db
          [ PostAttendance sample_time (BodyObject (attendance_item 1 "2025-06-16" "late"));
            PostBulk "2025-06-16 07:50:00"
                     (BodyArray [ IObj (attendance_item 2 "2025-06-16" "present");
                                  IObj (attendance_item 1 "2025-06-16" "excused") ]);
            PostMarkAllPresent "2025-06-17 07:45:00"
                               {[ "class_id" := JNum 1; "date" := JStr "2025-06-17" ]} ]).
Proof.
  split.
  - pose proof (proj1 upsert_keeps_one_record_per_day sample_time sample_db
                  [IObj (attendance_item 2 "2025-06-16" "present")]
                  "Attendance recorded: 1 successful, 0 failed"
                  [RSuccess Created 2 (JNum 2) (JStr "2025-06-16") (JStr "present")
                            JUndefined]
                  {| total := 1; successful := 1; failed := 0 |}
                  (recordAttendance sample_time sample_db
                     (BodyArray [IObj (attendance_item 2 "2025-06-16" "present")])).2
                  (attendance_item 1 "2025-06-16" "late")) as H.
    destruct H as (msg & d' & Hall & Hrec & _); [vm_compute; reflexivity..|].
    exists msg, d'. split; [exact Hall | exact Hrec].
  - apply (proj2 (proj2 (proj2 upsert_keeps_one_record_per_day))).
    apply NoDup_day_key_at_most_one. apply (bool_decide_unpack _). vm_compute. exact I.
Defined.

(** C1, as stated, fails: for a student the store does not hold, no record
    exists for the pair, yet nothing is inserted and the entry reports a
    failure. *)
Lemma upsert_for_unknown_student_inserts_nothing :
  missing_required (attendance_item 99 "2025-06-16" "present") = false
  /\ select_attendance_id sample_db (bind (JNum 99)) (bind (JStr "2025-06-16")) = None
  /\ recordAttendance sample_time sample_db
       (BodyObject (attendance_item 99 "2025-06-16" "present"))
     = (Batch "Attendance recorded: 0 successful, 1 failed"
              [RFailure "SQLITE_CONSTRAINT: FOREIGN KEY constraint failed"
                        (IObj (attendance_item 99 "2025-06-16" "present"))]
              {| total := 1; successful := 0; failed := 1 |},
        sample_db).
Proof. repeat split; vm_compute; reflexivity. Qed.

Lemma written_recorded d d' s dt st nt :
  written d d' s dt st nt -> recorded d' s dt st nt.
Proof.
  intros W. split; [|exact (written_cells _ _ _ _ _ _ W)].
  pose proof (written_count _ _ _ _ _ _ W) as Hc.
  destruct (records_for d' s dt); [simpl in Hc; lia | discriminate].
Qed.

(** A well-formed item the store accepts: one of the two upsert branches ran. *)
Lemma record_one_accepted ts d o :
  missing_required o = false ->
  student_exists d (bind (get o "student_id")) = true ->
  exists act id d',
    record_one ts d (IObj o)
    = Return (RSuccess act id (get o "student_id") (get o "date")
                       (get o "status") (get o "notes"), d')
    /\ written d d' (bind (get o "student_id")) (bind (get o "date"))
               (text_affinity (bind (get o "status")))
               (text_affinity (bind (js_or (get o "notes") JNull))).
Proof.
  intros Hm Hfk.
  destruct (select_attendance_id d (bind (get o "student_id")) (bind (get o "date")))
    as [existing|] eqn:Hsel.
  - destruct (record_one_existing ts d o existing Hm Hsel) as (d' & H & W & _). eauto.
  - destruct (record_one_fresh ts d o Hm Hsel Hfk) as (d' & H & W & _). eauto.
Qed.

#[local] Arguments record_one : simpl never.
#[local] Arguments mark_one : simpl never.

(** A single-object body is a batch of one. *)
Lemma recordAttendance_single ts d o r d' :
  record_one ts d (IObj o) = Return (r, d') ->
  recordAttendance ts d (BodyObject o)
  = (Batch ("Attendance recorded: " +:+ (if success r then "1" else "0")
              +:+ " successful, " +:+ (if success r then "0" else "1") +:+ " failed")
           [r]
           {| total := 1;
              successful := if success r then 1 else 0;
              failed := if success r then 0 else 1 |},
     d').
Proof.
  intros H. unfold recordAttendance. simpl. rewrite H. simpl.
  destruct (success r); reflexivity.
Qed.

(** C2. Two upserts in a row for the same student and day with different
    statuses, on a store that knows the student: the second is reported as an
    update, and the store ends with exactly one record for the pair, carrying
    the second status. *)
Theorem second_upsert_wins ts1 ts2 d o1 o2 :
  at_most_one d ->
  missing_required o1 = false ->
  missing_required o2 = false ->
  get o2 "student_id" = get o1 "student_id" ->
  get o2 "date" = get o1 "date" ->
  get o1 "status" <> get o2 "status" ->
  student_exists d (bind (get o1 "student_id")) = true ->
  let first := recordAttendance ts1 d (BodyObject o1) in
  let second := recordAttendance ts2 first.2 (BodyObject o2) in
  (exists act id, results_of first.1
                  = [RSuccess act id (get o1 "student_id") (get o1 "date")
                              (get o1 "status") (get o1 "notes")])
  /\ (exists id, results_of second.1
                 = [RSuccess Updated id (get o2 "student_id") (get o2 "date")
                             (get o2 "status") (get o2 "notes")])
  /\ exists r, records_for second.2 (bind (get o1 "student_id")) (bind (get o1 "date")) = [r]
               /\ at_status r = text_affinity (bind (get o2 "status")).
Proof.
  intros Hd Hm1 Hm2 Hs Hdt _ Hfk. cbv zeta.
  destruct (record_one_accepted ts1 d o1 Hm1 Hfk) as (act & id & d1 & H1 & W1).
  rewrite (recordAttendance_single ts1 _ _ _ _ H1). simpl.
  pose proof (written_at_most_one _ _ _ _ _ _ W1 Hd) as Hd1.
  destruct (written_one _ _ _ _ _ _ W1 Hd) as (r1 & Hr1 & _).
  destruct (select_attendance_id d1 (bind (get o2 "student_id")) (bind (get o2 "date")))
    as [existing|] eqn:Hsel.
  2:{ apply select_none in Hsel. rewrite Hs, Hdt in Hsel. congruence. }
  destruct (record_one_existing ts2 d1 o2 existing Hm2 Hsel) as (d2 & H2 & W2 & _).
  rewrite (recordAttendance_single ts2 _ _ _ _ H2). simpl.
  split; [eauto|]. split; [eauto|].
  rewrite Hs, Hdt in W2.
  destruct (written_one _ _ _ _ _ _ W2 Hd1) as (r & Hr & Hst & _). eauto.
Qed.

Lemma second_upsert_wins_witness :
  exists r,
    records_for
      (recordAttendance "2025-06-16 09:10:00"
         (recordAttendance sample_time sample_db
            (BodyObject (attendance_item 2 "2025-06-16" "absent"))).2
         (BodyObject (attendance_item 2 "2025-06-16" "late"))).2
      (SInt 2) (SText "2025-06-16") = [r]
    /\ at_status r = SText "late".
Proof.
  refine (proj2 (proj2 (second_upsert_wins sample_time "2025-06-16 09:10:00" sample_db
            (attendance_item 2 "2025-06-16" "absent")
            (attendance_item 2 "2025-06-16" "late") _ _ _ _ _ _ _))).
  - apply NoDup_day_key_at_most_one. apply (bool_decide_unpack _). vm_compute. exact I.
  - vm_compute. reflexivity.
  - vm_compute. reflexivity.
  - vm_compute. reflexivity.
  - vm_compute. reflexivity.
  - vm_compute. discriminate.
  - vm_compute. reflexivity.
Defined.

(** C3, as the code has it.  A batch of one well-formed item for a student
    the store knows and one item missing a required field, in either order:
    the well-formed item
    is written and reported as a success, the other is reported as a failure
    with the missing-fields message, and the summary counts one success and
    one failure out of two. *)
Theorem batch_isolates_missing_fields ts d good bad :
  missing_required good = false ->
  missing_required bad = true ->
  student_exists d (bind (get good "student_id")) = true ->
  exists act id d',
    let ok := RSuccess act id (get good "student_id") (get good "date")
                       (get good "status") (get good "notes") in
    let ko := RFailure "Missing required fields: student_id, date, status" (IObj bad) in
    recordAttendance ts d (BodyArray [IObj good; IObj bad])
    = (Batch "Attendance recorded: 1 successful, 1 failed" [ok; ko]
             {| total := 2; successful := 1; failed := 1 |}, d')
    /\ recordAttendance ts d (BodyArray [IObj bad; IObj good])
       = (Batch "Attendance recorded: 1 successful, 1 failed" [ko; ok]
                {| total := 2; successful := 1; failed := 1 |}, d')
    /\ recorded d' (bind (get good "student_id")) (bind (get good "date"))
                (text_affinity (bind (get good "status")))
                (text_affinity (bind (js_or (get good "notes") JNull))).
Proof.
  intros Hg Hb Hfk.
  destruct (record_one_accepted ts d good Hg Hfk) as (act & id & d' & H & W).
  exists act, id, d'. cbv zeta. split; [|split].
  - unfold recordAttendance. simpl. rewrite H.
    rewrite (record_one_missing ts d' bad Hb). reflexivity.
  - unfold recordAttendance. simpl.
    rewrite (record_one_missing ts d bad Hb), H. reflexivity.
  - eapply written_recorded; eauto.
Qed.

Lemma batch_isolates_missing_fields_witness :
  exists act id d',
    recordAttendance sample_time sample_db
      (BodyArray [ IObj (attendance_item 2 "2025-06-16" "late");
                   IObj {[ "student_id" := JNum 1; "date" := JStr "2025-06-16" ]} ])
    = (Batch "Attendance recorded: 1 successful, 1 failed"
             [ RSuccess act id (JNum 2) (JStr "2025-06-16") (JStr "late") JUndefined;
               RFailure "Missing required fields: student_id, date, status"
                        (IObj {[ "student_id" := JNum 1; "date" := JStr "2025-06-16" ]}) ]
             {| total := 2; successful := 1; failed := 1 |}, d').
Proof.
  destruct (batch_isolates_missing_fields sample_time sample_db
              (attendance_item 2 "2025-06-16" "late")
              {[ "student_id" := JNum 1; "date" := JStr "2025-06-16" ]})
    as (act & id & d' & H & _).
  - vm_compute. reflexivity.
  - vm_compute. reflexivity.
  - vm_compute. reflexivity.
  - exists act, id, d'. exact H.
Defined.

(** C3, as stated, fails: a well-formed item for a student the store does
    not hold is not persisted; beside an item with a missing field the
    summary counts no success and two failures. *)
Lemma well_formed_item_for_unknown_student_fails :
  missing_required (attendance_item 99 "2025-06-16" "late") = false
  /\ missing_required {[ "student_id" := JNum 1; "date" := JStr "2025-06-16" ]} = true
  /\ recordAttendance sample_time sample_db
       (BodyArray [ IObj (attendance_item 99 "2025-06-16" "late");
                    IObj {[ "student_id" := JNum 1; "date" := JStr "2025-06-16" ]} ])
     = (Batch "Attendance recorded: 0 successful, 2 failed"
              [ RFailure "SQLITE_CONSTRAINT: FOREIGN KEY constraint failed"
                         (IObj (attendance_item 99 "2025-06-16" "late"));
                RFailure "Missing required fields: student_id, date, status"
                         (IObj {[ "student_id" := JNum 1; "date" := JStr "2025-06-16" ]}) ]
              {| total := 2; successful := 0; failed := 2 |},
        sample_db).
Proof. repeat split; vm_compute; reflexivity. Qed.

(** C8, as the code has it.  A single (non-batch) submission missing a
    required field is answered like a batch of one: status 200, one failed
    entry with the missing-fields message, summary 0 successful and 1 failed
    of 1, and nothing written. *)
Theorem single_missing_field_reported_in_results ts d o :
  missing_required o = true ->
  recordAttendance ts d (BodyObject o)
  = (Batch "Attendance recorded: 0 successful, 1 failed"
           [RFailure "Missing required fields: student_id, date, status" (IObj o)]
           {| total := 1; successful := 0; failed := 1 |}, d)
  /\ http_status (recordAttendance ts d (BodyObject o)).1 = 200.
Proof.
  intros Hm.
  rewrite (recordAttendance_single ts _ _ _ _ (record_one_missing ts d o Hm)).
  split; reflexivity.
Qed.

Lemma single_missing_field_reported_in_results_witness :
  http_status
    (recordAttendance sample_time sample_db
       (BodyObject {[ "student_id" := JNum 1; "date" := JStr "2025-06-16" ]})).1 = 200.
Proof.
  apply (single_missing_field_reported_in_results sample_time sample_db
           {[ "student_id" := JNum 1; "date" := JStr "2025-06-16" ]}).
  vm_compute. reflexivity.
Defined.

(** C8, as stated, fails: a submission without [status] is answered 200, not
    400. *)
Lemma single_missing_field_not_400 :
  missing_required {[ "student_id" := JNum 1; "date" := JStr "2025-06-16" ]} = true
  /\ http_status
       (recordAttendance sample_time sample_db
          (BodyObject {[ "student_id" := JNum 1; "date" := JStr "2025-06-16" ]})).1
     <> 400.
Proof. split; [vm_compute; reflexivity | vm_compute; discriminate]. Qed.

(** ** [markAllPresent] *)

Lemma student_exists_ext d d' x :
  students d' = students d -> student_exists d' x = student_exists d x.
Proof. unfold student_exists. intros ->. reflexivity. Qed.

Lemma active_student_exists d c s :
  In s (select_active_students d c) -> student_exists d (SInt s) = true.
Proof.
  unfold select_active_students, student_exists. intros H.
  apply in_map_iff in H as (x & <- & Hx). apply List.filter_In in Hx as [Hx _].
  apply existsb_exists. exists x. split; [assumption|]. simpl. apply Z.eqb_refl.
Qed.

Lemma recorded_preserved d d' s dt st nt s0 dt0 :
  written d d' s dt st nt -> recorded d s0 dt0 st nt -> recorded d' s0 dt0 st nt.
Proof.
  intros W H.
  destruct (decide ((numeric_affinity s0, numeric_affinity dt0)
                    = (numeric_affinity s, numeric_affinity dt))) as [He | Hne].
  - unfold recorded. rewrite (records_for_same_key d' _ _ _ _ He).
    eapply written_recorded; eauto.
  - unfold recorded. rewrite (written_frame _ _ _ _ _ _ W) by assumption. exact H.
Qed.

(** One student the store knows: the loop body succeeds and writes [present]. *)
Lemma mark_one_known ts d date notes s :
  student_exists d (SInt s) = true ->
  is_null (bind date) = false ->
  exists act id d',
    mark_one ts d date notes s = (MSuccess act s id, d')
    /\ written d d' (SInt s) (bind date) (SText "present")
               (text_affinity (bind (js_or notes JNull)))
    /\ (records_for d (SInt s) (bind date) <> [] -> act = Updated /\ id = None).
Proof.
  intros Hfk Hdt. unfold mark_one.
  destruct (select_attendance_id d (SInt s) (bind date)) as [existing|] eqn:Hsel.
  - destruct (select_some _ _ _ _ Hsel) as (r & rest & Hrec & _).
    destruct (update_written ts d (SText "present") (bind (js_or notes JNull))
                (SInt s) (bind date)) as (d' & c & -> & W & _).
    { reflexivity. } { rewrite Hrec. discriminate. }
    eauto 10.
  - apply select_none in Hsel as Hnone.
    destruct (insert_written ts d (SInt s) (bind date) (SText "present")
                (bind (js_or notes JNull))) as (d' & -> & W & _); try reflexivity;
      try assumption.
    exists Created, (Some (next_rowid d)), d'. split; [reflexivity|].
    split; [assumption|]. congruence.
Qed.

Lemma mark_loop_known ts date notes l :
  is_null (bind date) = false ->
  forall d results,
    (forall s, In s l -> student_exists d (SInt s) = true) ->
    exists rs d',
      mark_loop ts d date notes l results = ((results ++ rs)%list, d')
      /\ map mark_student rs = l
      /\ Forall (fun r => mark_success r = true) rs
      /\ students d' = students d
      /\ (forall s, recorded d (SInt s) (bind date) (SText "present")
                             (text_affinity (bind (js_or notes JNull))) ->
                    recorded d' (SInt s) (bind date) (SText "present")
                             (text_affinity (bind (js_or notes JNull))))
      /\ (forall s, In s l ->
                    recorded d' (SInt s) (bind date) (SText "present")
                             (text_affinity (bind (js_or notes JNull)))).
Proof.
  intros Hdt. induction l as [|s rest IH]; intros d results Hfk; simpl.
  - exists [], d. rewrite app_nil_r.
    split; [reflexivity|]. split; [reflexivity|]. split; [constructor|].
    split; [reflexivity|]. split; [auto|]. intros s [].
  - destruct (mark_one_known ts d date notes s (Hfk s (or_introl eq_refl)) Hdt)
      as (act & id & d1 & -> & W & _).
    destruct (IH d1 (results ++ [MSuccess act s id])%list)
      as (rs & d' & -> & Hmap & Hok & Hst & Hkeep & Hall).
    { intros s' Hs'. rewrite (student_exists_ext d d1) by apply W.
      apply Hfk. right. exact Hs'. }
    exists (MSuccess act s id :: rs), d'.
    rewrite <- app_assoc. simpl. split; [reflexivity|].
    split; [congruence|]. split; [constructor; [reflexivity | assumption]|].
    split; [rewrite Hst; apply W|]. split.
    + intros s' H. apply Hkeep. eapply recorded_preserved; eauto.
    + intros s' [<- | Hs']; [|apply Hall, Hs'].
      apply Hkeep. eapply written_recorded; eauto.
Qed.

Lemma filter_all_true {A} (f : A -> bool) l :
  Forall (fun x => f x = true) l ->
  List.filter f l = l /\ List.filter (fun x => negb (f x)) l = [].
Proof.
  induction 1 as [|x l Hx _ [IH1 IH2]]; simpl; [auto|].
  rewrite Hx. simpl. rewrite IH1, IH2. auto.
Qed.

Lemma recorded_one d s dt st nt :
  at_most_one d -> recorded d s dt st nt ->
  exists r, records_for d s dt = [r] /\ at_status r = st /\ at_notes r = nt.
Proof.
  intros Hd [Hne Hall]. specialize (Hd s dt).
  destruct (records_for d s dt) as [|r [|r' l]]; simpl in Hd; try congruence; try lia.
  exists r. split; [reflexivity|]. apply Forall_inv in Hall. exact Hall.
Qed.

(** What [markAllPresent] does on a well-formed request. *)
Lemma markAllPresent_known ts d o :
  truthy (get o "class_id") = true ->
  truthy (get o "date") = true ->
  let class := select_active_students d (bind (get o "class_id")) in
  (class = [] /\ markAllPresent ts d o
                 = (Failed 404 "No active students found in this class" None, d))
  \/ (class <> [] /\
      exists rs d',
        markAllPresent ts d o
        = (Batch ("Marked all present: " +:+ pretty (length class)
                    +:+ " successful, " +:+ pretty 0%nat +:+ " failed")
                 rs {| total := length class; successful := length class; failed := 0 |},
           d')
        /\ map mark_student rs = class
        /\ Forall (fun r => mark_success r = true) rs
        /\ forall s, In s class ->
                     recorded d' (SInt s) (bind (get o "date")) (SText "present")
                              (text_affinity (bind (js_or (get o "notes") JNull)))).
Proof.
  intros Hc Hdt class. unfold markAllPresent. rewrite Hc, Hdt. simpl. fold class.
  destruct class as [|s rest] eqn:Hclass; [left; auto|]. right.
  split; [discriminate|]. rewrite <- Hclass.
  destruct (mark_loop_known ts (get o "date") (get o "notes") class
              (truthy_not_null _ Hdt) d [])
    as (rs & d' & Hloop & Hmap & Hok & _ & _ & Hall).
  { intros s' Hs'. eapply active_student_exists; eauto. }
  assert ((length class =? 0)%nat = false) as ->.
  { rewrite Hclass. reflexivity. }
  rewrite Hloop. simpl. destruct (filter_all_true mark_success rs Hok) as [-> ->].
  assert (length rs = length class) as -> by (rewrite <- Hmap; apply eq_sym, length_map).
  exists rs, d'. auto.
Qed.

(** C7. Mark-all-present on a class with N active students, whatever the
    store held for that day: the reply lists exactly N entries, one per
    active student in order, all successful; when N is not zero the summary
    is N successful and 0 failed of N; and afterwards every active student of
    the class has exactly one attendance record for the date, with status
    [present]. *)
Theorem mark_all_present_covers_class ts d o :
  truthy (get o "class_id") = true ->
  truthy (get o "date") = true ->
  at_most_one d ->
  let class := select_active_students d (bind (get o "class_id")) in
  let reply := markAllPresent ts d o in
  length (results_of reply.1) = length class
  /\ map mark_student (results_of reply.1) = class
  /\ Forall (fun r => mark_success r = true) (results_of reply.1)
  /\ (class <> [] ->
      http_status reply.1 = 200
      /\ summary_of reply.1
         = Some {| total := length class; successful := length class; failed := 0 |})
  /\ forall s, In s class ->
               exists r, records_for reply.2 (SInt s) (bind (get o "date")) = [r]
                         /\ at_status r = SText "present".
Proof.
  intros Hc Hdt Hd. cbv zeta.
  pose proof (markAllPresent_at_most_one ts d o Hd) as Hd'.
  destruct (markAllPresent_known ts d o Hc Hdt)
    as [[Hnil H] | (Hne & rs & d' & H & Hmap & Hok & Hall)];
    rewrite H in *; simpl in *.
  - rewrite Hnil. split; [reflexivity|]. split; [reflexivity|]. split; [constructor|].
    split; [congruence|]. intros s [].
  - split; [rewrite <- Hmap; apply eq_sym, length_map|].
    split; [assumption|]. split; [assumption|]. split; [auto|].
    intros s Hs. destruct (recorded_one _ _ _ _ _ Hd' (Hall s Hs)) as (r & Hr & Hst & _).
    eauto.
Qed.

Lemma mark_all_present_covers_class_witness :
  length (results_of (markAllPresent sample_time sample_db
                        {[ "class_id" := JNum 1; "date" := JStr "2025-06-16" ]}).1)
  = 2%nat.
Proof.
  refine (proj1 (mark_all_present_covers_class sample_time sample_db
            {[ "class_id" := JNum 1; "date" := JStr "2025-06-16" ]} _ _ _)).
  - vm_compute. reflexivity.
  - vm_compute. reflexivity.
  - apply NoDup_day_key_at_most_one. apply (bool_decide_unpack _). vm_compute. exact I.
Defined.

Lemma falsy_notes_bind_null notes :
  truthy notes = false -> text_affinity (bind (js_or notes JNull)) = SNull.
Proof. unfold js_or. intros ->. reflexivity. Qed.

(** C10. On the update path a missing or falsy [notes] is written as NULL:
    whatever note the record held is gone.  This holds for a single upsert,
    for the update branch of the mark-all-present loop, and for
    mark-all-present as a whole when it has no shared note. *)
Theorem omitted_notes_erase_stored_notes :
  (forall ts d o existing,
      missing_required o = false ->
      truthy (get o "notes") = false ->
      select_attendance_id d (bind (get o "student_id")) (bind (get o "date"))
      = Some existing ->
      results_of (recordAttendance ts d (BodyObject o)).1
      = [RSuccess Updated existing (get o "student_id") (get o "date")
                  (get o "status") (get o "notes")]
      /\ recorded (recordAttendance ts d (BodyObject o)).2
                  (bind (get o "student_id")) (bind (get o "date"))
                  (text_affinity (bind (get o "status"))) SNull)
  /\ (forall ts d date notes s existing,
         truthy notes = false ->
         select_attendance_id d (SInt s) (bind date) = Some existing ->
         (mark_one ts d date notes s).1 = MSuccess Updated s None
         /\ recorded (mark_one ts d date notes s).2 (SInt s) (bind date)
                     (SText "present") SNull)
  /\ (forall ts d o s existing,
         truthy (get o "class_id") = true ->
         truthy (get o "date") = true ->
         truthy (get o "notes") = false ->
         In s (select_active_students d (bind (get o "class_id"))) ->
         select_attendance_id d (SInt s) (bind (get o "date")) = Some existing ->
         recorded (markAllPresent ts d o).2 (SInt s) (bind (get o "date"))
                  (SText "present") SNull).
Proof.
  split; [|split].
  - intros ts d o existing Hm Hn Hsel.
    destruct (record_one_existing ts d o existing Hm Hsel) as (d' & H & W & _).
    rewrite (recordAttendance_single ts _ _ _ _ H). simpl. split; [reflexivity|].
    rewrite (falsy_notes_bind_null _ Hn) in W. eapply written_recorded; eauto.
  - intros ts d date notes s existing Hn Hsel. unfold mark_one. rewrite Hsel.
    destruct (select_some _ _ _ _ Hsel) as (r & rest & Hrec & _).
    destruct (update_written ts d (SText "present") (bind (js_or notes JNull))
                (SInt s) (bind date)) as (d' & c & -> & W & _).
    { reflexivity. } { rewrite Hrec. discriminate. }
    simpl. split; [reflexivity|].
    rewrite (falsy_notes_bind_null _ Hn) in W. eapply written_recorded; eauto.
  - intros ts d o s existing Hc Hdt Hn Hs _.
    destruct (markAllPresent_known ts d o Hc Hdt)
      as [[Hnil _] | (_ & rs & d' & H & _ & _ & Hall)].
    + rewrite Hnil in Hs. destruct Hs.
    + rewrite H. simpl. rewrite <- (falsy_notes_bind_null _ Hn). apply Hall, Hs.
Qed.

Lemma omitted_notes_erase_stored_notes_witness :
  Forall (fun r => at_notes r = SText "sick")
         (records_for sample_db (SInt 1) (SText "2025-06-16"))
  /\ recorded (recordAttendance sample_time sample_db
                 (BodyObject (attendance_item 1 "2025-06-16" "late"))).2
              (SInt 1) (SText "2025-06-16") (SText "late") SNull
  /\ recorded (markAllPresent sample_time sample_db
                 {[ "class_id" := JNum 1; "date" := JStr "2025-06-16" ]}).2
              (SInt 1) (SText "2025-06-16") (SText "present") SNull.
Proof.
  split; [repeat constructor|]. split.
  - refine (proj2 (proj1 omitted_notes_erase_stored_notes sample_time sample_db
              (attendance_item 1 "2025-06-16" "late") 1 _ _ _));
      vm_compute; reflexivity.
  - refine (proj2 (proj2 omitted_notes_erase_stored_notes) sample_time sample_db
              {[ "class_id" := JNum 1; "date" := JStr "2025-06-16" ]} 1 1 _ _ _ _ _);
      vm_compute; auto.
Defined.

(** The attendance form of the web client posts every field as text and an
    empty note as the empty string: the key ['1'] reaches the record of
    student 1, and the stored note is erased. *)
Example form_submission_erases_note :
  let form : gmap string jsval :=
    {[ "student_id" := JStr "1"; "date" := JStr "2025-06-16";
       "status" := JStr "late"; "notes" := JStr "" ]} in
  results_of (recordAttendance sample_time sample_db (BodyObject form)).1
  = [RSuccess Updated 1 (JStr "1") (JStr "2025-06-16") (JStr "late") (JStr "")]
  /\ attendance (recordAttendance sample_time sample_db (BodyObject form)).2
     = [ {| at_id := 1; at_student_id := SInt 1; at_date := SText "2025-06-16";
            at_status := SText "late"; at_notes := SNull; at_recorded_by := SNull;
            at_created_at := "2025-06-16 07:40:00"; at_updated_at := sample_time |} ].
Proof. split; vm_compute; reflexivity. Qed.

(** * Token service *)

Lemma jwt_sign_claims payload secret span millis now :
  ms span = Some millis ->
  exists claims,
    jwt_sign payload secret span now = Return (Jwt claims (HS256 secret claims))
    /\ claims !! "exp" = Some (JNum (now + millis / 1000))
    /\ claims !! "iat" = Some (JNum now)
    /\ forall k v, k <> "exp" -> k <> "iat" ->
                   claims !! k = Some v <-> payload !! k = Some v /\ v <> JUndefined.
Proof.
  intros Hms. unfold jwt_sign. rewrite Hms. eexists. split; [reflexivity|].
  split; [apply lookup_insert_eq|].
  split; [rewrite lookup_insert_ne by discriminate; apply lookup_insert_eq|].
  intros k v Hexp Hiat.
  rewrite !lookup_insert_ne by congruence.
  rewrite map_lookup_filter_Some. reflexivity.
Qed.

Lemma jwt_verify_not_jwt text secret now :
  exists m, jwt_verify (NotJwt text) secret now = Throw (JsonWebTokenError m).
Proof. simpl. destruct (String.eqb text ""); [|destruct (dots text =? 2)%nat]; eauto. Qed.

Lemma jwt_verify_bad_signature payload sig secret now :
  sig <> HS256 secret payload ->
  jwt_verify (Jwt payload sig) secret now
  = Throw (JsonWebTokenError "invalid signature").
Proof. intros H. simpl. destruct (decide _); [contradiction | reflexivity]. Qed.

Lemma jwt_verify_expired payload secret now exp :
  payload !! "nbf" = None ->
  payload !! "exp" = Some (JNum exp) ->
  exp <= now ->
  jwt_verify (Jwt payload (HS256 secret payload)) secret now = Throw TokenExpiredError.
Proof.
  intros Hnbf Hexp Hle. simpl. destruct (decide _); [|contradiction].
  rewrite Hnbf, Hexp. simpl. apply Z.leb_le in Hle. rewrite Hle. reflexivity.
Qed.

Lemma jwt_verify_live payload secret now exp :
  payload !! "nbf" = None ->
  payload !! "exp" = Some (JNum exp) ->
  now < exp ->
  jwt_verify (Jwt payload (HS256 secret payload)) secret now = Return payload.
Proof.
  intros Hnbf Hexp Hlt. simpl. destruct (decide _); [|contradiction].
  rewrite Hnbf, Hexp. simpl. apply Z.leb_gt in Hlt. rewrite Hlt. reflexivity.
Qed.

Lemma request_token_bearer env req t now :
  authorization req = Some (Bearer t) ->
  token_truthy t = true ->
  request_token env req now = Return (Some t).
Proof.
  intros Hh Ht. unfold request_token. rewrite Hh, Ht. simpl.
  destruct (req_session req); reflexivity.
Qed.

(** With a bearer token in the header, the middleware answers by what
    [jwt.verify] throws. *)
Lemma authenticateToken_bearer_throw env d req t now e :
  authorization req = Some (Bearer t) ->
  token_truthy t = true ->
  jwt_verify t (JWT_SECRET env) now = Throw e ->
  authenticateToken env d req now
  = if String.eqb (name e) "JsonWebTokenError" then Respond 401 "Invalid token." None
    else if String.eqb (name e) "TokenExpiredError" then
           Respond 401 "Token expired. Please login again." None
         else Respond 500 "Authentication failed." (Some (message e)).
Proof.
  intros Hh Ht Hv. unfold authenticateToken.
  rewrite (request_token_bearer _ _ _ _ Hh Ht). simpl. rewrite Ht, Hv. reflexivity.
Qed.

Lemma ms_24h : ms "24h" = Some 86400000.
Proof. reflexivity. Qed.

Lemma ms_1h : ms "1h" = Some 3600000.
Proof. reflexivity. Qed.

(** C4. With a bearer token in the header: text that is not a JWT, or a JWT
    whose tag is not the one the server's key gives for its claims, makes
    [verify] throw JsonWebTokenError and the middleware answer 401 "Invalid
    token."; a correctly signed token whose expiry is not after the clock
    makes [verify] throw TokenExpiredError and the middleware answer 401
    "Token expired. Please login again."; so does every token of
    [generateToken] from 24 hours after it was issued.  The two errors and
    the two answers are different. *)
Theorem invalid_and_expired_tokens_are_told_apart env d req t now :
  authorization req = Some (Bearer t) ->
  token_truthy t = true ->
  ((forall text, t = NotJwt text ->
      (exists m, verifyToken env t now = Throw (JsonWebTokenError m))
      /\ authenticateToken env d req now = Respond 401 "Invalid token." None)
   /\ (forall payload sig,
          t = Jwt payload sig -> sig <> HS256 (JWT_SECRET env) payload ->
          (exists m, verifyToken env t now = Throw (JsonWebTokenError m))
          /\ authenticateToken env d req now = Respond 401 "Invalid token." None))
  /\ (forall payload exp,
         t = Jwt payload (HS256 (JWT_SECRET env) payload) ->
         payload !! "nbf" = None ->
         payload !! "exp" = Some (JNum exp) ->
         exp <= now ->
         verifyToken env t now = Throw TokenExpiredError
         /\ authenticateToken env d req now
            = Respond 401 "Token expired. Please login again." None)
  /\ (forall user issued,
         generateToken env user issued = Return t ->
         issued + 86400 <= now ->
         verifyToken env t now = Throw TokenExpiredError
         /\ authenticateToken env d req now
            = Respond 401 "Token expired. Please login again." None)
  /\ (forall m, name (JsonWebTokenError m) <> name TokenExpiredError)
  /\ Respond 401 "Invalid token." None
     <> Respond 401 "Token expired. Please login again." None.
Proof.
  intros Hh Ht.
  assert (Hexpired : forall payload exp,
             t = Jwt payload (HS256 (JWT_SECRET env) payload) ->
             payload !! "nbf" = None ->
             payload !! "exp" = Some (JNum exp) ->
             exp <= now ->
             verifyToken env t now = Throw TokenExpiredError
             /\ authenticateToken env d req now
                = Respond 401 "Token expired. Please login again." None).
  { intros payload exp -> Hnbf Hexp Hle.
    pose proof (jwt_verify_expired payload (JWT_SECRET env) now exp Hnbf Hexp Hle) as Hv.
    split; [exact Hv|].
    rewrite (authenticateToken_bearer_throw _ _ _ _ _ _ Hh Ht Hv). reflexivity. }
  split; [split|split; [exact Hexpired|split; [|split]]].
  - intros text ->. destruct (jwt_verify_not_jwt text (JWT_SECRET env) now) as [m Hv].
    split; [eauto|].
    rewrite (authenticateToken_bearer_throw _ _ _ _ _ _ Hh Ht Hv). reflexivity.
  - intros payload sig -> Hsig.
    pose proof (jwt_verify_bad_signature payload sig (JWT_SECRET env) now Hsig) as Hv.
    split; [eauto|].
    rewrite (authenticateToken_bearer_throw _ _ _ _ _ _ Hh Ht Hv). reflexivity.
  - intros user issued Hgen Hle. unfold generateToken in Hgen.
    match type of Hgen with
    | jwt_sign ?payload _ _ _ = _ =>
      destruct (jwt_sign_claims payload (JWT_SECRET env) "24h" _ issued ms_24h)
        as (claims & Hsign & Hexp & _ & Hother)
    end.
    rewrite Hsign in Hgen. injection Hgen as <-.
    apply (Hexpired claims (issued + 86400000 / 1000)); try reflexivity; try assumption.
    destruct (claims !! "nbf") as [v|] eqn:Hnbf; [|reflexivity].
    apply Hother in Hnbf as [Hnbf _]; discriminate.
  - intros m. discriminate.
  - discriminate.
Qed.

Lemma invalid_and_expired_tokens_are_told_apart_witness :
  authenticateToken None sample_db (bearer (NotJwt "not.a.jwt")) 1750000000
  = Respond 401 "Invalid token." None
  /\ authenticateToken None sample_db (bearer admin_token) (1750000000 + 86400)
     = Respond 401 "Token expired. Please login again." None.
Proof.
  split.
  - refine (proj2 (proj1 (proj1 (invalid_and_expired_tokens_are_told_apart None sample_db
              (bearer (NotJwt "not.a.jwt")) (NotJwt "not.a.jwt") 1750000000 _ _))
              "not.a.jwt" _)); reflexivity.
  - refine (proj2 (proj1 (proj2 (proj2 (invalid_and_expired_tokens_are_told_apart None
              sample_db (bearer admin_token) admin_token (1750000000 + 86400) _ _)))
              (user_object admin_row) 1750000000 _ _)).
    + reflexivity.
    + reflexivity.
    + vm_compute. reflexivity.
    + vm_compute. discriminate.
Defined.

(** * Authorization guard *)

Lemma authenticateToken_next env d req now req' :
  authenticateToken env d req now = Next req' ->
  exists u, In u (users d) /\ req_user req' = Some (user_columns u).
Proof.
  unfold authenticateToken.
  destruct (request_token env req now) as [[t|]|e]; simpl.
  - destruct (token_truthy t); simpl.
    + destruct (jwt_verify t (JWT_SECRET env) now) as [decoded|e]; simpl.
      * unfold select_user_by_id.
        destruct (List.find _ (users d)) as [u|] eqn:Hfind; simpl; [|discriminate].
        intros [= <-]. simpl. apply find_some in Hfind as [Hin _]. eauto.
      * repeat case_match; discriminate.
    + discriminate.
  - discriminate.
  - repeat case_match; discriminate.
Qed.

(** C5. [requireAdmin] answers 401 exactly when no identity is attached to
    the request, 403 exactly when an identity is attached whose role is not
    [admin], and passes the request on exactly when the attached role is
    [admin].  A request that came through [authenticateToken] is never
    answered 401 by the guard. *)
Theorem require_admin_separates_401_403 req :
  (requireAdmin req = Respond 401 "Authentication required." None
   <-> req_user req = None)
  /\ (requireAdmin req = Respond 403 "Admin access required." None
      <-> exists user, req_user req = Some user /\ get user "role" <> JStr "admin")
  /\ (requireAdmin req = Next req
      <-> exists user, req_user req = Some user /\ get user "role" = JStr "admin")
  /\ (outcome_code (requireAdmin req) = Some 401 <-> req_user req = None)
  /\ (outcome_code (requireAdmin req) = Some 403
      <-> exists user, req_user req = Some user /\ get user "role" <> JStr "admin")
  /\ (forall env d req0 now,
         authenticateToken env d req0 now = Next req ->
         outcome_code (requireAdmin req) <> Some 401).
Proof.
  unfold requireAdmin.
  destruct (req_user req) as [user|] eqn:Hu.
  - destruct (decide (get user "role" <> JStr "admin")) as [Hne|Heq]; simpl.
    + repeat split; try discriminate; try (intros (u & [= <-] & H); congruence); eauto.
    + apply dec_stable in Heq.
      repeat split; try discriminate; try (intros (u & [= <-] & H); congruence); eauto.
  - repeat split; try discriminate; try (intros (u & [=] & _)); auto.
    intros env d req0 now H. apply authenticateToken_next in H as (u & _ & H). congruence.
Qed.

Lemma require_admin_separates_401_403_witness :
  requireAdmin (bearer admin_token) = Respond 401 "Authentication required." None
  /\ requireAdmin {| authorization := None; req_session := None;
                     req_user := Some (user_columns teacher_row);
                     req_userId := JNum 2 |}
     = Respond 403 "Admin access required." None.
Proof.
  split.
  - apply (proj1 (require_admin_separates_401_403 (bearer admin_token))). reflexivity.
  - apply (proj1 (proj2 (require_admin_separates_401_403 _))).
    exists (user_columns teacher_row). split; [reflexivity | vm_compute; discriminate].
Defined.

(** * Token issuance *)

Lemma find_by_login_in a b l u : find_by_login a b l = Some u -> In u l.
Proof.
  unfold find_by_login.
  destruct (List.find _ l) as [x|] eqn:Hx.
  - intros [= <-]. apply find_some in Hx as [Hin _]. exact Hin.
  - intros H. apply find_some in H as [Hin _]. exact Hin.
Qed.

Lemma select_user_by_login_row d a b user :
  select_user_by_login d a b = Some user ->
  exists u, In u (users d) /\ user = user_object u.
Proof.
  unfold select_user_by_login.
  destruct (find_by_login a b (users d)) as [u|] eqn:Hfind; simpl; [|discriminate].
  intros [= <-]. apply find_by_login_in in Hfind. eauto.
Qed.

(** A successful login: the reply carries a stored user without its hash, and
    the token [generateToken] made for that user. *)
Lemma login_ok_inv env compare d req_body sess now m user tok sess' :
  login env compare d req_body sess now = (LoginOk m user tok, sess') ->
  exists u, In u (users d)
            /\ user = without_password_hash (user_object u)
            /\ generateToken env (user_object u) now = Return tok.
Proof.
  unfold login.
  destruct (_ || _); [discriminate|].
  destruct (select_user_by_login d _ _) as [row|] eqn:Hsel; [|discriminate].
  apply select_user_by_login_row in Hsel as (u & Hin & ->).
  destruct (generateToken env (user_object u) now) as [t|e] eqn:Hgen;
    destruct (get req_body "password"); simpl; try discriminate;
    destruct (get (user_object u) "password_hash"); simpl; try discriminate;
    destruct (compare _ _); simpl; try discriminate.
  destruct sess; simpl; [|discriminate].
  intros [= <- <- <- <-]. eauto.
Qed.

Lemma generateToken_claims env u now :
  exists claims,
    generateToken env (user_object u) now
    = Return (Jwt claims (HS256 (JWT_SECRET env) claims))
    /\ claims !! "userId" = Some (JNum (u_id u))
    /\ claims !! "username" = Some (JStr (u_username u))
    /\ claims !! "role" = Some (JStr (u_role u))
    /\ claims !! "iat" = Some (JNum now)
    /\ claims !! "exp" = Some (JNum (now + 86400))
    /\ claims !! "password_hash" = None.
Proof.
  unfold generateToken.
  match goal with
  | |- context [jwt_sign ?payload _ _ _] =>
    destruct (jwt_sign_claims payload (JWT_SECRET env) "24h" _ now ms_24h)
      as (claims & Hsign & Hexp & Hiat & Hother)
  end.
  exists claims. split; [exact Hsign|].
  split; [apply Hother; [discriminate..|split; [reflexivity | discriminate]]|].
  split; [apply Hother; [discriminate..|split; [reflexivity | discriminate]]|].
  split; [apply Hother; [discriminate..|split; [reflexivity | discriminate]]|].
  split; [exact Hiat|]. split; [exact Hexp|].
  destruct (claims !! "password_hash") as [v|] eqn:Hv; [|reflexivity].
  apply Hother in Hv as [Hv _]; discriminate.
Qed.

(** C6, as the code has it.  The token of [generateToken], which is the one
    a login returns, embeds the user's id, username and role, the time of
    issue and an expiry 24 hours later.  The token the middleware makes from
    a cookie session, when the header brings no token and the session has a
    user id, embeds the session's user id, its username when defined, the
    time of issue and an expiry 1 hour later, and no role. *)
Theorem issued_tokens_claims env :
  (forall u now,
      exists claims,
        generateToken env (user_object u) now
        = Return (Jwt claims (HS256 (JWT_SECRET env) claims))
        /\ claims !! "userId" = Some (JNum (u_id u))
        /\ claims !! "username" = Some (JStr (u_username u))
        /\ claims !! "role" = Some (JStr (u_role u))
        /\ claims !! "iat" = Some (JNum now)
        /\ claims !! "exp" = Some (JNum (now + 86400)))
  /\ (forall compare d req_body sess now m user tok sess',
         login env compare d req_body sess now = (LoginOk m user tok, sess') ->
         exists u, In u (users d) /\ generateToken env (user_object u) now = Return tok)
  /\ (forall req s now,
         (forall t, authorization req = Some (Bearer t) -> token_truthy t = false) ->
         req_session req = Some s ->
         truthy (userId s) = true ->
         exists claims,
           request_token env req now
           = Return (Some (Jwt claims (HS256 (JWT_SECRET env) claims)))
           /\ claims !! "userId" = Some (userId s)
           /\ claims !! "username"
              = (if decide (username s = JUndefined) then None else Some (username s))
           /\ claims !! "role" = None
           /\ claims !! "iat" = Some (JNum now)
           /\ claims !! "exp" = Some (JNum (now + 3600))).
Proof.
  split; [|split].
  - intros u now. destruct (generateToken_claims env u now) as (claims & H).
    exists claims. tauto.
  - intros compare d req_body sess now m user tok sess' H.
    apply login_ok_inv in H as (u & Hin & _ & Hgen). eauto.
  - intros req s now Hno Hs Hid. unfold request_token. rewrite Hs, Hid.
    assert (match match authorization req with
                  | Some (Bearer t) => Some t
                  | _ => None
                  end with
            | Some t => negb (token_truthy t)
            | None => true
            end = true) as ->.
    { destruct (authorization req) as [[t|text]|]; try reflexivity.
      rewrite (Hno t eq_refl). reflexivity. }
    cbn [andb].
    match goal with
    | |- context [jwt_sign ?payload _ _ _] =>
      destruct (jwt_sign_claims payload (JWT_SECRET env) "1h" _ now ms_1h)
        as (claims & -> & Hexp & Hiat & Hother)
    end.
    exists claims. simpl. split; [reflexivity|].
    assert (Hdef : userId s <> JUndefined) by (intros E; rewrite E in Hid; discriminate).
    split; [apply Hother; [discriminate..|split; [reflexivity | exact Hdef]]|].
    split; [|split; [|split; [exact Hiat | exact Hexp]]].
    + destruct (decide (username s = JUndefined)) as [Hu|Hu].
      * destruct (claims !! "username") as [v|] eqn:Hv; [|reflexivity].
        apply Hother in Hv as [Hv Hne]; try discriminate.
        rewrite lookup_insert_ne in Hv by discriminate.
        rewrite lookup_singleton_eq in Hv. congruence.
      * apply Hother; [discriminate..|]. split; [reflexivity | exact Hu].
    + destruct (claims !! "role") as [v|] eqn:Hv; [|reflexivity].
      apply Hother in Hv as [Hv _]; discriminate.
Qed.

Lemma issued_tokens_claims_witness :
  exists claims,
    request_token None cookie_request 1750000000
    = Return (Some (Jwt claims (HS256 (JWT_SECRET None) claims)))
    /\ claims !! "userId" = Some (JNum 1)
    /\ claims !! "exp" = Some (JNum (1750000000 + 3600)).
Proof.
  destruct (proj2 (proj2 (issued_tokens_claims None)) cookie_request
              {| userId := JNum 1; username := JStr "admin"; role := JStr "admin" |}
              1750000000)
    as (claims & H & Hid & _ & _ & _ & Hexp).
  - intros t. discriminate.
  - reflexivity.
  - reflexivity.
  - exists claims. auto.
Defined.

(** C6, as stated, fails: the token made from the administrator's cookie
    session carries the user id, the username and a 1-hour expiry, and no
    role claim. *)
Lemma session_bridge_token_has_no_role :
  exists claims sig,
    request_token None cookie_request 1750000000 = Return (Some (Jwt claims sig))
    /\ claims !! "userId" = Some (JNum 1)
    /\ claims !! "username" = Some (JStr "admin")
    /\ claims !! "exp" = Some (JNum 1750003600)
    /\ claims !! "role" = None.
Proof.
  eexists _, _. split; [vm_compute; reflexivity|].
  repeat split; vm_compute; reflexivity.
Qed.

(** * The password hash stays inside *)

Lemma user_columns_no_hash u : user_columns u !! "password_hash" = None.
Proof. reflexivity. Qed.

Lemma without_password_hash_lookup user :
  without_password_hash user !! "password_hash" = None.
Proof. apply lookup_delete_eq. Qed.

(** C9. The user object of a successful login reply has no [password_hash]
    property, nor have the claims of the token beside it; the data of a
    profile reply has none; and the user object [authenticateToken] attaches
    to the request has none. *)
Theorem password_hash_is_never_sent env compare :
  (forall d req_body sess now m user tok sess',
      login env compare d req_body sess now = (LoginOk m user tok, sess') ->
      user !! "password_hash" = None
      /\ forall claims sig, tok = Jwt claims sig -> claims !! "password_hash" = None)
  /\ (forall d req_body sess now data,
         (login env compare d req_body sess now).1 <> ProfileOk data)
  /\ (forall req, match getProfile req with
                  | ProfileOk data => data !! "password_hash" = None
                  | LoginOk _ _ _ => False
                  | AuthError _ _ _ => req_user req = None
                  end)
  /\ (forall d req now req',
         authenticateToken env d req now = Next req' ->
         exists user, req_user req' = Some user /\ user !! "password_hash" = None).
Proof.
  split; [|split; [|split]].
  - intros d req_body sess now m user tok sess' H.
    apply login_ok_inv in H as (u & _ & -> & Hgen).
    split; [apply without_password_hash_lookup|].
    intros claims sig ->.
    destruct (generateToken_claims env u now) as (claims' & Hgen' & H).
    rewrite Hgen' in Hgen. injection Hgen as <- _. tauto.
  - intros d req_body sess now data. unfold login.
    destruct (_ || _); [discriminate|].
    destruct (select_user_by_login d _ _) as [row|]; [|discriminate].
    destruct (generateToken env row now) as [t|e];
      destruct (get req_body "password"); simpl; try discriminate;
      destruct (get row "password_hash"); simpl; try discriminate;
      destruct (compare _ _); simpl; try discriminate;
      destruct sess; simpl; discriminate.
  - intros req. unfold getProfile. destruct (req_user req); [|reflexivity].
    apply without_password_hash_lookup.
  - intros d req now req' H. apply authenticateToken_next in H as (u & _ & H).
    exists (user_columns u). split; [exact H | apply user_columns_no_hash].
Qed.

Lemma password_hash_is_never_sent_witness :
  exists m user tok sess',
    login None sample_compare sample_db
          {[ "username" := JStr "admin"; "password" := JStr "admin" ]}
          (Some {| userId := JUndefined; username := JUndefined; role := JUndefined |})
          1750000000
    = (LoginOk m user tok, sess')
    /\ user !! "username" = Some (JStr "admin")
    /\ user !! "password_hash" = None.
Proof.
  assert (H : exists m user tok sess',
             login None sample_compare sample_db
                   {[ "username" := JStr "admin"; "password" := JStr "admin" ]}
                   (Some {| userId := JUndefined; username := JUndefined;
                            role := JUndefined |})
                   1750000000
             = (LoginOk m user tok, sess')
             /\ user !! "username" = Some (JStr "admin")).
  { eexists _, _, _, _. split; vm_compute; reflexivity. }
  destruct H as (m & user & tok & sess' & H & Hname).
  exists m, user, tok, sess'. split; [exact H|]. split; [exact Hname|].
  exact (proj1 (proj1 (password_hash_is_never_sent None sample_compare)
                      _ _ _ _ _ _ _ _ H)).
Defined.

(** * Attendance records by id *)

Lemma length_zero_nil {A} (l : list A) : (Z.of_nat (length l) =? 0) = true <-> l = [].
Proof.
  destruct l; simpl; split; try reflexivity; discriminate.
Qed.

Lemma filter_nil_map_id {A} (g : A -> bool) (f : A -> A) l :
  List.filter g l = [] -> map (fun r => if g r then f r else r) l = l.
Proof.
  induction l as [|x l IH]; simpl; [reflexivity|].
  destruct (g x); [discriminate|]. intros H. rewrite IH by assumption. reflexivity.
Qed.

Lemma filter_nil_negb_id {A} (g : A -> bool) l :
  List.filter g l = [] -> List.filter (fun r => negb (g r)) l = l.
Proof.
  induction l as [|x l IH]; simpl; [reflexivity|].
  destruct (g x); [discriminate|]. simpl. intros H. rewrite IH by assumption. reflexivity.
Qed.


Lemma valid_status_text status :
  is_valid_status status = true ->
  exists s, status = JStr s /\ In s validStatuses /\ truthy status = true.
Proof.
  destruct status as [| | | |s]; simpl; try discriminate.
  intros H. apply bool_decide_eq_true in H. exists s.
  pose proof (proj1 (list_elem_of_In _ _) H) as Hin.
  split; [reflexivity|]. split; [exact Hin|].
  destruct s; [|reflexivity]. exfalso.
  simpl in Hin. intuition discriminate.
Qed.

Lemma update_by_id_done ts d status notes id :
  is_null status = false ->
  update_attendance_by_id ts d status notes id
  = Done {| users := users d; students := students d;
            attendance :=
              map (fun r => if has_id id r
                            then set_status_notes ts (text_affinity status)
                                                  (text_affinity notes) r
                            else r)
                  (attendance d);
            attendance_seq := attendance_seq d |}
         (attendance_seq d)
         (Z.of_nat (length (List.filter (has_id id) (attendance d)))).
Proof. intros H. unfold update_attendance_by_id. rewrite H, andb_false_r. reflexivity. Qed.



Lemma has_id_eq id r r' : at_id r = at_id r' -> has_id id r = has_id id r'.
Proof. unfold has_id. intros ->. reflexivity. Qed.

Lemma attendance_with_student_columns r s :
  get (attendance_with_student r s) "id" = JNum (at_id r)
  /\ get (attendance_with_student r s) "status" = unbind (at_status r)
  /\ get (attendance_with_student r s) "updated_at" = JStr (at_updated_at r)
  /\ get (attendance_with_student r s) "student_id" = JStr (st_student_id s)
  /\ get (attendance_with_student r s) "first_name" = JStr (st_first_name s)
  /\ get (attendance_with_student r s) "last_name" = JStr (st_last_name s).
Proof. repeat split; reflexivity. Qed.

(** X2. [updateAttendance] with one of the four statuses, for the id of a
    stored record: the answer is 200; the records with that id carry the
    submitted status, [notes || null] and the time of the update; every
    other record, every id, every (student, day) key and every creation
    time is as before.  The row sent back is the one the JOIN finds in the
    new store: it has the id, the new status and the update time of such a
    record, and under [student_id] the code of the student, with the
    student's names beside it; when the record's student is not in
    [students] the JOIN finds nothing. *)
Theorem update_by_id_rewrites_the_record ts d attendanceId o :
  is_valid_status (get o "status") = true ->
  existsb (has_id (SText attendanceId)) (attendance d) = true ->
  let d' := (updateAttendance ts d attendanceId o).2 in
  (updateAttendance ts d attendanceId o).1
  = RecordUpdated (select_attendance_with_student d' (SText attendanceId))
                  "Attendance record updated successfully"
  /\ users d' = users d /\ students d' = students d
  /\ attendance_seq d' = attendance_seq d
  /\ attendance_index d' = attendance_index d
  /\ map at_created_at (attendance d') = map at_created_at (attendance d)
  /\ (forall r, In r (attendance d') -> has_id (SText attendanceId) r = true ->
                unbind (at_status r) = get o "status"
                /\ at_notes r = text_affinity (bind (js_or (get o "notes") JNull))
                /\ at_updated_at r = ts)
  /\ (forall r, has_id (SText attendanceId) r = false ->
                In r (attendance d') <-> In r (attendance d))
  /\ (forall row, select_attendance_with_student d' (SText attendanceId) = Some row ->
        exists r s,
          In r (attendance d') /\ has_id (SText attendanceId) r = true
          /\ In s (students d) /\ joins r s = true
          /\ get row "id" = JNum (at_id r)
          /\ get row "status" = get o "status"
          /\ get row "updated_at" = JStr ts
          /\ get row "student_id" = JStr (st_student_id s)
          /\ get row "first_name" = JStr (st_first_name s)
          /\ get row "last_name" = JStr (st_last_name s))
  /\ (select_attendance_with_student d' (SText attendanceId) = None <->
      forall r, In r (attendance d') -> has_id (SText attendanceId) r = true ->
                existsb (joins r) (students d) = false).
Proof.
  intros Hv Hex. cbv zeta.
  destruct (valid_status_text _ Hv) as (s & Hs & _ & Ht).
  unfold updateAttendance. rewrite Ht, Hv. simpl.
  rewrite update_by_id_done by (rewrite Hs; reflexivity).
  assert (Hc : (Z.of_nat (length (List.filter (has_id (SText attendanceId))
                                              (attendance d))) =? 0) = false).
  { destruct (Z.of_nat _ =? 0) eqn:Hc; [|reflexivity].
    apply length_zero_nil, existsb_filter_nil in Hc. congruence. }
  rewrite Hc. simpl.
  set (f := fun r => if has_id (SText attendanceId) r
                     then set_status_notes ts (text_affinity (bind (get o "status")))
                            (text_affinity (bind (js_or (get o "notes") JNull))) r
                     else r).
  assert (Hcells : forall r, In r (map f (attendance d)) ->
                             has_id (SText attendanceId) r = true ->
                             unbind (at_status r) = get o "status"
                             /\ at_notes r
                                = text_affinity (bind (js_or (get o "notes") JNull))
                             /\ at_updated_at r = ts).
  { intros r Hr Hid. apply in_map_iff in Hr as (x & <- & _). unfold f in *.
    destruct (has_id (SText attendanceId) x) eqn:Hx.
    - simpl. rewrite Hs. repeat split; reflexivity.
    - congruence. }
  split; [reflexivity|]. split; [reflexivity|]. split; [reflexivity|].
  split; [reflexivity|]. split; [|split; [|split; [exact Hcells|split; [|split]]]].
  - unfold attendance_index. simpl. rewrite map_map. apply map_ext.
    intros r. unfold f. destruct (has_id _ r); reflexivity.
  - rewrite map_map. apply map_ext.
    intros r. unfold f. destruct (has_id _ r); reflexivity.
  - intros r Hno. split.
    + intros Hr. apply in_map_iff in Hr as (x & <- & Hx). unfold f in *.
      destruct (has_id (SText attendanceId) x) eqn:Hid; [|assumption].
      rewrite (has_id_eq (SText attendanceId) (set_status_notes _ _ _ x) x eq_refl) in Hno.
      congruence.
    + intros Hr. apply in_map_iff. exists r. unfold f. rewrite Hno. auto.
  - intros row. unfold select_attendance_with_student. simpl attendance. simpl students.
    destruct (List.find _ (map f (attendance d))) as [r|] eqn:Hr; [|discriminate].
    simpl. destruct (List.find (joins r) (students d)) as [st|] eqn:Hst; [|discriminate].
    simpl. intros [= <-].
    apply find_some in Hr as [Hin Hr]. apply andb_prop in Hr as [Hid _].
    apply find_some in Hst as [Hins Hj].
    destruct (Hcells r Hin Hid) as (Hstatus & _ & Hstamp).
    destruct (attendance_with_student_columns r st)
      as (Hc1 & Hc2 & Hc3 & Hc4 & Hc5 & Hc6).
    exists r, st. rewrite Hc1, Hc2, Hc3, Hc4, Hc5, Hc6, Hstatus, Hstamp.
    repeat split; assumption.
  - unfold select_attendance_with_student. simpl attendance. simpl students. split.
    + intros Hnone r Hin Hid.
      destruct (List.find _ (map f (attendance d))) as [x|] eqn:Hx.
      * simpl in Hnone. apply find_some in Hx as [_ Hx]. apply andb_prop in Hx as [_ Hx].
        destruct (List.find (joins x) (students d)) as [st|] eqn:Hst; [discriminate|].
        apply find_existsb in Hst. congruence.
      * pose proof (find_none _ _ Hx r Hin) as Hr. simpl in Hr. rewrite Hid in Hr.
        exact Hr.
    + intros Hall.
      destruct (List.find _ (map f (attendance d))) as [x|] eqn:Hx; [|reflexivity].
      apply find_some in Hx as [Hin Hx]. apply andb_prop in Hx as [Hid Hj].
      rewrite (Hall x Hin Hid) in Hj. discriminate.
Qed.

Lemma update_by_id_rewrites_the_record_witness :
  exists row,
    (updateAttendance sample_time sample_db "1" {[ "status" := JStr "excused" ]}).1
    = RecordUpdated (Some row) "Attendance record updated successfully"
    /\ get row "student_id" = JStr "JSS1A001"
    /\ get row "first_name" = JStr "Ada"
    /\ get row "status" = JStr "excused"
    /\ get row "notes" = JNull
    /\ get row "created_at" = JStr "2025-06-16 07:40:00"
    /\ get row "updated_at" = JStr sample_time.
Proof.
  destruct (update_by_id_rewrites_the_record sample_time sample_db "1"
              {[ "status" := JStr "excused" ]}) as (Hreply & _);
    [vm_compute; reflexivity..|].
  eexists. split; [rewrite Hreply; vm_compute; reflexivity|].
  repeat split; vm_compute; reflexivity.
Defined.

(** X3. [deleteAttendance] for the id of a stored record answers 200; what
    is left are exactly the records with another id, and the sequence is
    kept.  Asking again for that id, to delete or to update, is answered
    404, and the lookup by id finds nothing. *)
Theorem delete_by_id_removes_the_record ts d attendanceId :
  existsb (has_id (SText attendanceId)) (attendance d) = true ->
  let d' := (deleteAttendance d attendanceId).2 in
  (deleteAttendance d attendanceId).1
  = RecordDeleted "Attendance record deleted successfully"
  /\ attendance_seq d' = attendance_seq d
  /\ (forall r, In r (attendance d')
                <-> In r (attendance d) /\ has_id (SText attendanceId) r = false)
  /\ deleteAttendance d' attendanceId
     = (RecordError 404 "Attendance record not found" None, d')
  /\ (forall o, is_valid_status (get o "status") = true ->
                updateAttendance ts d' attendanceId o
                = (RecordError 404 "Attendance record not found" None, d'))
  /\ select_attendance_with_student d' (SText attendanceId) = None.
Proof.
  intros Hex.
  assert (Hc : (Z.of_nat (length (List.filter (has_id (SText attendanceId))
                                              (attendance d))) =? 0) = false).
  { destruct (Z.of_nat _ =? 0) eqn:Hc; [|reflexivity].
    apply length_zero_nil, existsb_filter_nil in Hc. congruence. }
  set (rest := {| users := users d; students := students d;
                  attendance :=
                    List.filter (fun r => negb (has_id (SText attendanceId) r))
                                (attendance d);
                  attendance_seq := attendance_seq d |}).
  assert (Hdone : deleteAttendance d attendanceId
                  = (RecordDeleted "Attendance record deleted successfully", rest)).
  { unfold deleteAttendance, delete_attendance_by_id. rewrite Hc. reflexivity. }
  rewrite Hdone. cbv zeta. simpl.
  assert (Hgone : List.filter (has_id (SText attendanceId)) (attendance rest) = []).
  { apply existsb_filter_nil.
    destruct (existsb (has_id (SText attendanceId)) (attendance rest)) eqn:H;
      [|reflexivity].
    apply existsb_exists in H as (x & Hx & Hid). simpl in Hx.
    apply List.filter_In in Hx as [_ Hx]. rewrite Hid in Hx. discriminate. }
  split; [reflexivity|]. split; [reflexivity|]. split; [|split; [|split]].
  - intros r. rewrite List.filter_In, negb_true_iff. reflexivity.
  - unfold deleteAttendance, delete_attendance_by_id. rewrite Hgone. simpl.
    rewrite filter_nil_negb_id by assumption. reflexivity.
  - intros o Hv. destruct (valid_status_text _ Hv) as (s & Hs & _ & Ht).
    unfold updateAttendance. rewrite Ht, Hv. simpl.
    rewrite update_by_id_done by (rewrite Hs; reflexivity).
    rewrite Hgone. simpl. rewrite filter_nil_map_id by assumption.
    reflexivity.
  - unfold select_attendance_with_student.
    destruct (List.find _ _) as [row|] eqn:Hf; [|reflexivity].
    apply find_some in Hf as [Hin Hf]. apply andb_prop in Hf as [Hf _].
    assert (In row (List.filter (has_id (SText attendanceId)) (attendance rest)))
      by (apply List.filter_In; auto).
    rewrite Hgone in H. destruct H.
Qed.

Lemma delete_by_id_removes_the_record_witness :
  (deleteAttendance sample_db "1").1
  = RecordDeleted "Attendance record deleted successfully"
  /\ deleteAttendance (deleteAttendance sample_db "1").2 "1"
     = (RecordError 404 "Attendance record not found" None,
        (deleteAttendance sample_db "1").2).
Proof.
  destruct (delete_by_id_removes_the_record sample_time sample_db "1") as (H1 & _ & _ & H2 & _).
  - vm_compute. reflexivity.
  - split; [exact H1 | exact H2].
Defined.

(** ** Every attendance write keeps the invariants *)

Lemma same_day_by_key s dt r r' :
  day_key r = day_key r' -> same_day s dt r = same_day s dt r'.
Proof. unfold day_key, same_day. intros [= -> ->]. reflexivity. Qed.

Lemma records_for_length_by_keys d d' :
  map day_key (attendance d') = map day_key (attendance d) ->
  forall s dt, length (records_for d' s dt) = length (records_for d s dt).
Proof.
  intros H s dt. unfold records_for.
  revert H. generalize (attendance d). generalize (attendance d').
  induction l as [|x l IH]; intros [|y l'] H; simpl in *; try discriminate;
    [reflexivity|].
  injection H as Hk1 Hk2 Hl.
  assert (Hk : day_key x = day_key y) by (unfold day_key; congruence).
  rewrite (same_day_by_key s dt x y Hk).
  destruct (same_day s dt y); simpl; rewrite (IH l' Hl); reflexivity.
Qed.

Lemma index_keys d d' :
  attendance_index d' = attendance_index d ->
  map day_key (attendance d') = map day_key (attendance d).
Proof.
  unfold attendance_index. intros H.
  apply (f_equal (map snd)) in H. rewrite !map_map in H. exact H.
Qed.

Lemma index_ids d d' :
  attendance_index d' = attendance_index d -> attendance_ids d' = attendance_ids d.
Proof.
  unfold attendance_index, attendance_ids. intros H.
  apply (f_equal (map fst)) in H. rewrite !map_map in H. exact H.
Qed.

Lemma filter_filter_length {A} (g p : A -> bool) l :
  (length (List.filter g (List.filter p l)) <= length (List.filter g l))%nat.
Proof.
  induction l as [|x l IH]; simpl; [lia|].
  destruct (p x), (g x) eqn:Hg; simpl; rewrite ?Hg; simpl; lia.
Qed.

Lemma updateAttendance_index ts d attendanceId o :
  attendance_index (updateAttendance ts d attendanceId o).2 = attendance_index d
  /\ attendance_seq (updateAttendance ts d attendanceId o).2 = attendance_seq d.
Proof.
  unfold updateAttendance.
  destruct (truthy (get o "status")); simpl; [|auto].
  destruct (is_valid_status (get o "status")) eqn:Hv; simpl; [|auto].
  apply valid_status_text in Hv as (s & Hs & _ & _).
  rewrite update_by_id_done by (rewrite Hs; reflexivity).
  destruct (_ =? 0); simpl; (split; [|reflexivity]);
    unfold attendance_index; simpl; rewrite map_map; apply map_ext;
    intros r; destruct (has_id _ r); reflexivity.
Qed.

Lemma deleteAttendance_rows d attendanceId :
  attendance (deleteAttendance d attendanceId).2
  = List.filter (fun r => negb (has_id (SText attendanceId) r)) (attendance d)
  /\ attendance_seq (deleteAttendance d attendanceId).2 = attendance_seq d.
Proof.
  unfold deleteAttendance, delete_attendance_by_id.
  destruct (_ =? 0); simpl; auto.
Qed.

Lemma serve_write_at_most_one d c : at_most_one d -> at_most_one (serve_write d c).
Proof.
  intros Hd. destruct c as [c|ts attendanceId o|attendanceId]; simpl.
  - apply serve_at_most_one, Hd.
  - destruct (updateAttendance_index ts d attendanceId o) as [Hi _].
    intros s dt. rewrite (records_for_length_by_keys _ _ (index_keys _ _ Hi)). apply Hd.
  - destruct (deleteAttendance_rows d attendanceId) as [Hr _].
    intros s dt. unfold records_for. rewrite Hr.
    etransitivity; [apply filter_filter_length | apply Hd].
Qed.

(** X4. Every request that writes attendance (single and bulk upsert,
    mark-all-present, update by id, delete by id), in any order and with any
    arguments, keeps at most one record per (student, date). *)
Theorem every_write_keeps_one_record_per_day cs :
  forall d, at_most_one d -> at_most_one (serve_writes d cs).
Proof.
  induction cs as [|c cs IH]; intros d Hd; simpl; [assumption|].
  apply IH, serve_write_at_most_one, Hd.
Qed.

Lemma every_write_keeps_one_record_per_day_witness :
  at_most_one
    (serve_writes sample_db
       [ Upsert (PostAttendance sample_time (BodyObject (attendance_item 2 "2025-06-16" "late")));
         PutAttendance sample_time "2" {[ "status" := JStr "absent" ]};
         DeleteAttendance "1";
         Upsert (PostMarkAllPresent sample_time {[ "class_id" := JNum 1;
                                       "date" := JStr "2025-06-16" ]}) ]).
Proof.
  apply every_write_keeps_one_record_per_day.
  apply NoDup_day_key_at_most_one. apply (bool_decide_unpack _). vm_compute. exact I.
Defined.

Lemma ids_grow_refl d : ids_grow d d.
Proof. split; [lia|]. split; auto. Qed.

Lemma ids_grow_trans d1 d2 d3 : ids_grow d1 d2 -> ids_grow d2 d3 -> ids_grow d1 d3.
Proof.
  intros (Hs1 & Hi1 & Hk1) (Hs2 & Hi2 & Hk2). split; [lia|]. split; [|auto].
  intros p Hp. destruct (Hi2 p Hp) as [H|H]; [apply Hi1, H | right; lia].
Qed.

Lemma ids_grow_same_index d d' :
  attendance_index d' = attendance_index d ->
  attendance_seq d' = attendance_seq d ->
  ids_grow d d'.
Proof.
  intros Hi Hs. split; [lia|]. split.
  - intros p Hp. left. rewrite <- Hi. exact Hp.
  - unfold ids_in_sequence. rewrite (index_ids _ _ Hi), Hs. auto.
Qed.

Lemma next_rowid_above d :
  attendance_seq d < next_rowid d
  /\ Forall (fun id => id < next_rowid d) (attendance_ids d).
Proof.
  unfold next_rowid, attendance_ids.
  induction (map at_id (attendance d)) as [|x l [IH1 IH2]]; simpl.
  - split; [lia | constructor].
  - split; [lia|]. constructor; [lia|].
    eapply Forall_impl; [exact IH2|]. simpl. intros; lia.
Qed.

Lemma ids_grow_append d d' row :
  attendance d' = (attendance d ++ [row])%list ->
  at_id row = next_rowid d ->
  attendance_seq d' = next_rowid d ->
  ids_grow d d'.
Proof.
  intros Ha Hid Hs. destruct (next_rowid_above d) as [Hseq Hall].
  split; [lia|]. split.
  - intros p. unfold attendance_index. rewrite Ha, map_app, in_app_iff. simpl.
    intros [H | [<- | []]]; [left; exact H | right; simpl; lia].
  - intros [Hnd Hle]. unfold ids_in_sequence, attendance_ids in *.
    rewrite Ha, map_app, Hs. simpl. rewrite Hid. split.
    + apply NoDup_app. split; [exact Hnd|]. split; [|apply NoDup_singleton].
      intros id Hin Hin'. apply list_elem_of_singleton in Hin'. subst id.
      rewrite Forall_forall in Hall. specialize (Hall _ Hin). lia.
    + apply Forall_app. split; [|repeat constructor; lia].
      eapply Forall_impl; [exact Hall|]. simpl. intros; lia.
Qed.

Lemma NoDup_map_filter {A B} `{EqDecision B} (f : A -> B) (p : A -> bool) l :
  NoDup (map f l) -> NoDup (map f (List.filter p l)).
Proof.
  induction l as [|x l IH]; simpl; [auto|]. intros H.
  apply NoDup_cons in H as [Hx Hl]. destruct (p x); simpl; [|auto].
  apply NoDup_cons. split; [|auto].
  intros Hin. apply Hx. apply list_elem_of_In, in_map_iff in Hin as (y & Hy & Hin).
  apply List.filter_In in Hin as [Hin _].
  apply list_elem_of_In, in_map_iff. eauto.
Qed.

Lemma ids_grow_filter d d' p :
  attendance d' = List.filter p (attendance d) ->
  attendance_seq d' = attendance_seq d ->
  ids_grow d d'.
Proof.
  intros Ha Hs. split; [lia|]. split.
  - intros q. unfold attendance_index. rewrite Ha, !in_map_iff.
    intros (r & <- & Hr). apply List.filter_In in Hr as [Hr _]. left. eauto.
  - intros [Hnd Hle]. unfold ids_in_sequence, attendance_ids in *. rewrite Ha, Hs. split.
    + apply NoDup_map_filter, Hnd.
    + rewrite Forall_forall in *. intros id Hin.
      apply list_elem_of_In, in_map_iff in Hin as (r & <- & Hr).
      apply List.filter_In in Hr as [Hr _]. apply Hle.
      apply list_elem_of_In, in_map_iff. eauto.
Qed.

Lemma update_attendance_done_ids ts d st nt s dt d' id changes :
  update_attendance ts d st nt s dt = Done d' id changes -> ids_grow d d'.
Proof.
  unfold update_attendance. destruct (_ && _); [discriminate|].
  intros [= <- _ _]. apply ids_grow_same_index; [|reflexivity].
  unfold attendance_index. simpl. rewrite map_map. apply map_ext.
  intros r. destruct (same_day s dt r); reflexivity.
Qed.

Lemma insert_attendance_done_ids ts d s dt st nt d' id changes :
  insert_attendance ts d s dt st nt = Done d' id changes -> ids_grow d d'.
Proof.
  unfold insert_attendance.
  destruct (is_null s); [discriminate|].
  destruct (is_null dt); [discriminate|].
  destruct (is_null st); [discriminate|].
  destruct (existsb _ _); [discriminate|].
  destruct (negb _); [discriminate|].
  intros [= <- _ _]. eapply ids_grow_append; reflexivity.
Qed.

Lemma record_one_ids_grow ts d it r d' :
  record_one ts d it = Return (r, d') -> ids_grow d d'.
Proof.
  unfold record_one. destruct it as [|o]; [discriminate|].
  destruct (_ || _); [intros [= _ <-]; apply ids_grow_refl|].
  destruct (select_attendance_id _ _ _).
  - destruct (update_attendance ts _ _ _ _ _) eqn:H; intros [= _ <-].
    + eapply update_attendance_done_ids; eauto.
    + apply ids_grow_refl.
  - destruct (insert_attendance ts _ _ _ _ _) eqn:H; intros [= _ <-].
    + eapply insert_attendance_done_ids; eauto.
    + apply ids_grow_refl.
Qed.

Lemma record_loop_ids_grow ts records :
  forall d results, ids_grow d (record_loop ts d records results).2.
Proof.
  induction records as [|it rest IH]; intros d results; simpl; [apply ids_grow_refl|].
  destruct (record_one ts d it) as [[r d']|e] eqn:H; simpl; [|apply ids_grow_refl].
  eapply ids_grow_trans; [eapply record_one_ids_grow; eauto | apply IH].
Qed.

Lemma recordAttendance_ids_grow ts d b : ids_grow d (recordAttendance ts d b).2.
Proof.
  unfold recordAttendance.
  set (records := match b with BodyArray l => l | BodyObject o => [IObj o] end).
  pose proof (record_loop_ids_grow ts records d []) as H.
  destruct (record_loop ts d records []) as [[results|e] d']; exact H.
Qed.

Lemma mark_one_ids_grow ts d date notes s : ids_grow d (mark_one ts d date notes s).2.
Proof.
  unfold mark_one. destruct (select_attendance_id _ _ _).
  - destruct (update_attendance ts _ _ _ _ _) eqn:H; simpl.
    + eapply update_attendance_done_ids; eauto.
    + apply ids_grow_refl.
  - destruct (insert_attendance ts _ _ _ _ _) eqn:H; simpl.
    + eapply insert_attendance_done_ids; eauto.
    + apply ids_grow_refl.
Qed.

Lemma mark_loop_ids_grow ts date notes l :
  forall d results, ids_grow d (mark_loop ts d date notes l results).2.
Proof.
  induction l as [|s rest IH]; intros d results; simpl; [apply ids_grow_refl|].
  pose proof (mark_one_ids_grow ts d date notes s) as H1.
  destruct (mark_one ts d date notes s) as [r d'].
  eapply ids_grow_trans; [exact H1 | apply IH].
Qed.

Lemma markAllPresent_ids_grow ts d o : ids_grow d (markAllPresent ts d o).2.
Proof.
  unfold markAllPresent.
  destruct (_ || _); [apply ids_grow_refl|].
  destruct (_ =? _)%nat; [apply ids_grow_refl|].
  pose proof (mark_loop_ids_grow ts (get o "date") (get o "notes")
                (select_active_students d (bind (get o "class_id"))) d []) as H.
  destruct (mark_loop ts _ _ _ _ _) as [results d']. exact H.
Qed.

Lemma serve_write_ids_grow d c : ids_grow d (serve_write d c).
Proof.
  destruct c as [[ts b|ts b|ts o]|ts attendanceId o|attendanceId]; simpl.
  - apply recordAttendance_ids_grow.
  - apply recordAttendance_ids_grow.
  - apply markAllPresent_ids_grow.
  - destruct (updateAttendance_index ts d attendanceId o).
    apply ids_grow_same_index; assumption.
  - destruct (deleteAttendance_rows d attendanceId).
    eapply ids_grow_filter; eassumption.
Qed.

Lemma serve_writes_ids_grow cs : forall d, ids_grow d (serve_writes d cs).
Proof.
  induction cs as [|c cs IH]; intros d; simpl; [apply ids_grow_refl|].
  eapply ids_grow_trans; [apply serve_write_ids_grow | apply IH].
Qed.

(** X5. Row ids are never reused.  From a store whose ids are distinct and
    not above the AUTOINCREMENT sequence, after any run of attendance writes
    (deletions included): the ids are still distinct and not above the
    sequence, the sequence did not go back, every record has either an id
    above the old sequence or the id, student and day of a record of the old
    store; so an id of the old store that is still there stands for the same
    student and day. *)
Theorem attendance_ids_are_never_reused cs d :
  ids_in_sequence d ->
  let d' := serve_writes d cs in
  ids_in_sequence d'
  /\ attendance_seq d <= attendance_seq d'
  /\ (forall r', In r' (attendance d') ->
                 attendance_seq d < at_id r'
                 \/ exists r, In r (attendance d)
                              /\ at_id r = at_id r' /\ day_key r = day_key r')
  /\ (forall r r', In r (attendance d) -> In r' (attendance d') ->
                   at_id r' = at_id r -> day_key r' = day_key r).
Proof.
  intros Hd. cbv zeta. destruct (serve_writes_ids_grow cs d) as (Hs & Hi & Hk).
  assert (Hold : forall r', In r' (attendance (serve_writes d cs)) ->
                   attendance_seq d < at_id r'
                   \/ exists r, In r (attendance d)
                                /\ at_id r = at_id r' /\ day_key r = day_key r').
  { intros r' Hr'. destruct (Hi (at_id r', day_key r')) as [H|H].
    - unfold attendance_index. apply in_map_iff. eauto.
    - right. unfold attendance_index in H. apply in_map_iff in H as (r & He & Hr).
      exists r. split; [exact Hr|]. split; congruence.
    - left. exact H. }
  split; [auto|]. split; [exact Hs|]. split; [exact Hold|].
  intros r r' Hr Hr' Hid. destruct Hd as [Hnd Hle].
  destruct (Hold r' Hr') as [H | (r0 & Hr0 & Hid0 & Hk0)].
  - rewrite Forall_forall in Hle.
    assert (at_id r <= attendance_seq d).
    { apply Hle. apply list_elem_of_In, in_map_iff. eauto. }
    lia.
  - rewrite <- Hk0. f_equal.
    assert (Hinj : forall l : list attendance_row,
               NoDup (map at_id l) -> In r0 l -> In r l -> at_id r0 = at_id r -> r0 = r).
    { induction l as [|x l IH]; simpl; [tauto|]. intros Hx.
      apply NoDup_cons in Hx as [Hx Hl].
      intros [-> | H0] [-> | H1] He; auto.
      - exfalso. apply Hx. rewrite He. apply list_elem_of_In, in_map_iff. eauto.
      - exfalso. apply Hx. rewrite <- He. apply list_elem_of_In, in_map_iff. eauto. }
    apply (Hinj (attendance d)); [exact Hnd | assumption | assumption | congruence].
Qed.

Lemma attendance_ids_are_never_reused_witness :
  ids_in_sequence
    (serve_writes sample_db
       [ DeleteAttendance "1";
         Upsert (PostAttendance sample_time (BodyObject (attendance_item 1 "2025-06-16" "late"))) ])
  /\ attendance_ids
       (serve_writes sample_db
          [ DeleteAttendance "1";
            Upsert (PostAttendance sample_time (BodyObject (attendance_item 1 "2025-06-16" "late"))) ])
     = [2].
Proof.
  split; [|vm_compute; reflexivity].
  refine (proj1 (attendance_ids_are_never_reused _ sample_db _)).
  split; apply (bool_decide_unpack _); vm_compute; exact I.
Defined.

(** X6. The upsert does not check the status against the four allowed
    values: a well-formed item with any other (truthy) status, for a student
    the store knows, is written and reported as a success.  The same status
    sent to [updateAttendance] is refused with 400 whatever the id. *)
Theorem upsert_stores_a_status_update_refuses ts d o :
  missing_required o = false ->
  is_valid_status (get o "status") = false ->
  student_exists d (bind (get o "student_id")) = true ->
  (exists act id,
      results_of (recordAttendance ts d (BodyObject o)).1
      = [RSuccess act id (get o "student_id") (get o "date") (get o "status")
                  (get o "notes")])
  /\ recorded (recordAttendance ts d (BodyObject o)).2
              (bind (get o "student_id")) (bind (get o "date"))
              (text_affinity (bind (get o "status")))
              (text_affinity (bind (js_or (get o "notes") JNull)))
  /\ forall d' attendanceId o',
       get o' "status" = get o "status" ->
       updateAttendance ts d' attendanceId o'
       = (RecordError 400
            "Invalid status. Must be one of: present, absent, late, excused" None, d').
Proof.
  intros Hm Hv Hfk.
  destruct (record_one_accepted ts d o Hm Hfk) as (act & id & d1 & H & W).
  rewrite (recordAttendance_single ts _ _ _ _ H). simpl.
  split; [eauto|]. split; [eapply written_recorded; eauto|].
  intros d' attendanceId o' Hs. unfold updateAttendance. rewrite Hs, Hv.
  destruct (missing_required_false _ Hm) as (_ & _ & ->). reflexivity.
Qed.

Lemma upsert_stores_a_status_update_refuses_witness :
  recorded (recordAttendance sample_time sample_db
              (BodyObject (attendance_item 2 "2025-06-16" "on holiday"))).2
           (SInt 2) (SText "2025-06-16") (SText "on holiday") SNull
  /\ updateAttendance sample_time sample_db "1" {[ "status" := JStr "on holiday" ]}
     = (RecordError 400
          "Invalid status. Must be one of: present, absent, late, excused" None,
        sample_db).
Proof.
  destruct (upsert_stores_a_status_update_refuses sample_time sample_db
              (attendance_item 2 "2025-06-16" "on holiday")) as (_ & H1 & H2).
  - vm_compute. reflexivity.
  - vm_compute. reflexivity.
  - vm_compute. reflexivity.
  - split; [exact H1|]. apply H2. vm_compute. reflexivity.
Defined.

(** * The rest of the middleware *)

(** X7. [requireTeacher] answers 401 exactly when no identity is attached,
    403 exactly when the attached role is neither [teacher] nor [admin], and
    passes the request on otherwise; whoever passes [requireAdmin] passes
    [requireTeacher], and whoever [requireTeacher] turns away with 403 is
    turned away by [requireAdmin] with 403 too. *)
Theorem require_teacher_admits_admins req :
  (requireTeacher req = Respond 401 "Authentication required." None
   <-> req_user req = None)
  /\ (requireTeacher req = Respond 403 "Teacher access required." None
      <-> exists user, req_user req = Some user
                       /\ get user "role" <> JStr "teacher"
                       /\ get user "role" <> JStr "admin")
  /\ (requireTeacher req = Next req
      <-> exists user, req_user req = Some user
                       /\ (get user "role" = JStr "teacher"
                           \/ get user "role" = JStr "admin"))
  /\ (requireAdmin req = Next req -> requireTeacher req = Next req)
  /\ (requireTeacher req = Respond 403 "Teacher access required." None ->
      requireAdmin req = Respond 403 "Admin access required." None).
Proof.
  unfold requireTeacher, requireAdmin.
  destruct (req_user req) as [user|] eqn:Hu.
  2:{ repeat split; try discriminate; try (intros (u & [=] & _)); auto. }
  destruct (decide (get user "role" = JStr "admin")) as [Ha|Ha].
  - rewrite Ha. simpl. destruct (decide (JStr "admin" <> JStr "admin")); [congruence|].
    repeat split; try discriminate; eauto.
    intros (u & [= <-] & _ & H). congruence.
  - destruct (decide (get user "role" <> JStr "admin")); [|contradiction].
    destruct (decide (get user "role" = JStr "teacher")) as [Ht|Ht].
    + rewrite Ht. simpl. repeat split; try discriminate; eauto.
      intros (u & [= <-] & H & _). congruence.
    + assert (bool_decide (get user "role" ∈ [JStr "teacher"; JStr "admin"]) = false)
        as ->.
      { apply bool_decide_eq_false. intros H.
        apply list_elem_of_In in H. simpl in H. intuition congruence. }
      simpl. repeat split; try discriminate; eauto.
      intros (u & [= <-] & [H|H]); congruence.
Qed.

Lemma require_teacher_admits_admins_witness :
  requireTeacher admin_request = Next admin_request.
Proof.
  apply (proj1 (proj2 (proj2 (proj2 (require_teacher_admits_admins admin_request))))).
  vm_compute. reflexivity.
Defined.

Lemma find_user_by_own_id (l : list user_row) u :
  NoDup (map u_id l) -> In u l ->
  List.find (fun u' => sql_eq (SInt (u_id u')) (SInt (u_id u))) l = Some u.
Proof.
  induction l as [|x l IH]; simpl; [tauto|]. intros Hnd.
  apply NoDup_cons in Hnd as [Hx Hl]. intros [-> | Hin].
  - rewrite Z.eqb_refl. reflexivity.
  - destruct (u_id x =? u_id u) eqn:He; [|apply IH; assumption].
    apply Z.eqb_eq in He. exfalso. apply Hx. rewrite He.
    apply list_elem_of_In, in_map_iff. eauto.
Qed.

Lemma authenticateToken_bearer_return env d req t now decoded :
  authorization req = Some (Bearer t) ->
  token_truthy t = true ->
  jwt_verify t (JWT_SECRET env) now = Return decoded ->
  authenticateToken env d req now
  = match select_user_by_id d (bind (get decoded "userId")) with
    | None => Respond 401 "Invalid token. User not found." None
    | Some user =>
      Next {| authorization := authorization req; req_session := req_session req;
              req_user := Some user; req_userId := get user "id" |}
    end.
Proof.
  intros Hh Ht Hv. unfold authenticateToken.
  rewrite (request_token_bearer _ _ _ _ Hh Ht). simpl. rewrite Ht, Hv. simpl.
  destruct (select_user_by_id d _); reflexivity.
Qed.

(** X8. [optionalAuth] always calls [next()].  When the header brings a
    bearer token that verifies and names a stored user, the request goes on
    with that user attached, its id, username, email, role and full name
    but no [password_hash], and with [userId] set to its id.  In every other
    case (no bearer token, a token that does not verify, a token that names
    no stored user) the request goes on as it came; a cookie session alone
    attaches nothing. *)
Theorem optional_auth_never_rejects env d req now :
  (exists req', optionalAuth env d req now = Next req')
  /\ (forall t decoded u,
         authorization req = Some (Bearer t) ->
         jwt_verify t (JWT_SECRET env) now = Return decoded ->
         List.find (user_has_id (bind (get decoded "userId"))) (users d) = Some u ->
         optionalAuth env d req now
         = Next {| authorization := authorization req; req_session := req_session req;
                   req_user := Some (user_columns_short u);
                   req_userId := JNum (u_id u) |}
         /\ user_columns_short u !! "password_hash" = None)
  /\ ((forall t, authorization req <> Some (Bearer t)) ->
      optionalAuth env d req now = Next req)
  /\ (forall t e,
         authorization req = Some (Bearer t) ->
         jwt_verify t (JWT_SECRET env) now = Throw e ->
         optionalAuth env d req now = Next req)
  /\ (forall t decoded,
         authorization req = Some (Bearer t) ->
         jwt_verify t (JWT_SECRET env) now = Return decoded ->
         List.find (user_has_id (bind (get decoded "userId"))) (users d) = None ->
         optionalAuth env d req now = Next req).
Proof.
  split; [|split; [|split; [|split]]].
  - unfold optionalAuth.
    destruct (authorization req) as [[t|text]|]; try (eexists; reflexivity).
    destruct (jwt_verify t (JWT_SECRET env) now) as [decoded|e]; simpl;
      [|eexists; reflexivity].
    destruct (List.find _ (users d)); simpl; eexists; reflexivity.
  - intros t decoded u Hh Hv Hf. unfold optionalAuth. rewrite Hh, Hv. simpl.
    rewrite Hf. simpl. split; reflexivity.
  - intros Hno. unfold optionalAuth.
    destruct (authorization req) as [[t|text]|]; try reflexivity.
    exfalso. apply (Hno t). reflexivity.
  - intros t e Hh Hv. unfold optionalAuth. rewrite Hh, Hv. reflexivity.
  - intros t decoded Hh Hv Hf. unfold optionalAuth. rewrite Hh, Hv. simpl.
    rewrite Hf. reflexivity.
Qed.

Lemma optional_auth_never_rejects_witness :
  optionalAuth None sample_db (bearer admin_token) 1750000100
  = Next {| authorization := Some (Bearer admin_token); req_session := None;
            req_user := Some (user_columns_short admin_row);
            req_userId := JNum 1 |}
  /\ optionalAuth None sample_db cookie_request 1750000100 = Next cookie_request.
Proof.
  split.
  - destruct (proj1 (proj2 (optional_auth_never_rejects None sample_db
                              (bearer admin_token) 1750000100))
                    admin_token
                    (match jwt_verify admin_token (JWT_SECRET None) 1750000100 with
                     | Return c => c
                     | Throw _ => ∅
                     end)
                    admin_row) as [H _]; [vm_compute; reflexivity..|].
    exact H.
  - apply (proj1 (proj2 (proj2 (optional_auth_never_rejects None sample_db cookie_request
                                                            1750000100)))).
    intros t. vm_compute. discriminate.
Defined.

Lemma issued_token_verifies env u issued now :
  now < issued + 86400 ->
  exists claims,
    generateToken env (user_object u) issued
    = Return (Jwt claims (HS256 (JWT_SECRET env) claims))
    /\ jwt_verify (Jwt claims (HS256 (JWT_SECRET env) claims)) (JWT_SECRET env) now
       = Return claims
    /\ get claims "userId" = JNum (u_id u)
    /\ get claims "username" = JStr (u_username u)
    /\ get claims "role" = JStr (u_role u).
Proof.
  intros Hlt. unfold generateToken.
  match goal with
  | |- context [jwt_sign ?payload _ _ _] =>
    destruct (jwt_sign_claims payload (JWT_SECRET env) "24h" _ issued ms_24h)
      as (claims & Hsign & Hexp & Hiat & Hother)
  end.
  exists claims. split; [exact Hsign|].
  assert (Hnbf : claims !! "nbf" = None).
  { destruct (claims !! "nbf") as [v|] eqn:Hv; [|reflexivity].
    apply Hother in Hv as [Hv _]; discriminate. }
  split; [apply (jwt_verify_live claims _ now (issued + 86400000 / 1000) Hnbf Hexp Hlt)|].
  unfold get.
  split; [|split];
    match goal with
    | |- default _ (claims !! ?k) = ?v =>
      assert (claims !! k = Some v) as ->;
        [apply Hother; [discriminate..|split; [reflexivity | discriminate]] | reflexivity]
    end.
Qed.

(** X9. The token a successful login returns authenticates: on a store with
    distinct user ids, a request that bears it less than 24 hours after the
    login passes [authenticateToken] with the columns of the user who logged
    in attached, and [verifyToken] gives back that user's id, username and
    role. *)
Theorem login_token_authenticates env compare d req_body sess issued m user tok sess'
        req now :
  login env compare d req_body sess issued = (LoginOk m user tok, sess') ->
  NoDup (map u_id (users d)) ->
  authorization req = Some (Bearer tok) ->
  now < issued + 86400 ->
  exists u claims,
    In u (users d)
    /\ user = without_password_hash (user_object u)
    /\ verifyToken env tok now = Return claims
    /\ get claims "userId" = JNum (u_id u)
    /\ get claims "username" = JStr (u_username u)
    /\ get claims "role" = JStr (u_role u)
    /\ authenticateToken env d req now
       = Next {| authorization := authorization req; req_session := req_session req;
                 req_user := Some (user_columns u); req_userId := JNum (u_id u) |}.
Proof.
  intros Hlogin Hnd Hh Hlt.
  apply login_ok_inv in Hlogin as (u & Hin & -> & Hgen).
  destruct (issued_token_verifies env u issued now Hlt)
    as (claims & Hgen' & Hv & Hid & Hname & Hrole).
  rewrite Hgen' in Hgen. injection Hgen as <-.
  exists u, claims. repeat split; auto.
  rewrite (authenticateToken_bearer_return env d req _ now claims Hh eq_refl Hv).
  rewrite Hid. unfold select_user_by_id.
  change (numeric_affinity (bind (JNum (u_id u)))) with (SInt (u_id u)).
  rewrite (find_user_by_own_id _ u Hnd Hin). reflexivity.
Qed.

Lemma login_token_authenticates_witness :
  exists tok,
    (login None sample_compare sample_db
           {[ "username" := JStr "admin"; "password" := JStr "admin" ]}
           (Some {| userId := JUndefined; username := JUndefined; role := JUndefined |})
           1750000000).1
    = LoginOk "Login successful" (without_password_hash (user_object admin_row)) tok
    /\ authenticateToken None sample_db (bearer tok) 1750003600
       = Next {| authorization := Some (Bearer tok); req_session := None;
                 req_user := Some (user_columns admin_row); req_userId := JNum 1 |}.
Proof.
  assert (H : exists tok sess',
             login None sample_compare sample_db
                   {[ "username" := JStr "admin"; "password" := JStr "admin" ]}
                   (Some {| userId := JUndefined; username := JUndefined;
                            role := JUndefined |})
                   1750000000
             = (LoginOk "Login successful" (without_password_hash
                                              (user_object admin_row)) tok, sess')).
  { eexists _, _. vm_compute. reflexivity. }
  destruct H as (tok & sess' & H). exists tok. rewrite H. split; [reflexivity|].
  destruct (login_token_authenticates None sample_compare sample_db _ _ _ _ _ _ _
              (bearer tok) 1750003600 H)
    as (u & claims & Hin & Hu & _ & Hid & _ & _ & Hauth).
  - apply (bool_decide_unpack _). vm_compute. exact I.
  - reflexivity.
  - vm_compute. reflexivity.
  - rewrite Hauth. simpl in Hin. destruct Hin as [<- | [<- | []]].
    + reflexivity.
    + exfalso. apply (f_equal (fun o : gmap string jsval => o !! "id")) in Hu.
      vm_compute in Hu. discriminate.
Defined.

Lemma login_ok_session env compare d req_body sess now m user tok sess' :
  login env compare d req_body sess now = (LoginOk m user tok, sess') ->
  exists u, In u (users d)
            /\ sess' = Some {| userId := JNum (u_id u); username := JStr (u_username u);
                               role := JStr (u_role u) |}.
Proof.
  unfold login.
  destruct (_ || _); [discriminate|].
  destruct (select_user_by_login d _ _) as [row|] eqn:Hsel; [|discriminate].
  apply select_user_by_login_row in Hsel as (u & Hin & ->).
  destruct (generateToken env (user_object u) now) as [t|e] eqn:Hgen;
    destruct (get req_body "password"); simpl; try discriminate;
    destruct (get (user_object u) "password_hash"); simpl; try discriminate;
    destruct (compare _ _); simpl; try discriminate.
  destruct sess; simpl; [|discriminate].
  intros [= _ _ _ <-]. exists u. split; [exact Hin | reflexivity].
Qed.

Lemma session_token_verifies env req s now :
  (forall t, authorization req = Some (Bearer t) -> token_truthy t = false) ->
  req_session req = Some s ->
  truthy (userId s) = true ->
  exists t claims,
    request_token env req now = Return (Some t)
    /\ token_truthy t = true
    /\ jwt_verify t (JWT_SECRET env) now = Return claims
    /\ get claims "userId" = userId s.
Proof.
  intros Hno Hs Hid. unfold request_token. rewrite Hs, Hid.
  assert (match match authorization req with
                | Some (Bearer t) => Some t
                | _ => None
                end with
          | Some t => negb (token_truthy t)
          | None => true
          end = true) as ->.
  { destruct (authorization req) as [[t|text]|]; try reflexivity.
    rewrite (Hno t eq_refl). reflexivity. }
  cbn [andb].
  match goal with
  | |- context [jwt_sign ?payload _ _ _] =>
    destruct (jwt_sign_claims payload (JWT_SECRET env) "1h" _ now ms_1h)
      as (claims & -> & Hexp & Hiat & Hother)
  end.
  exists (Jwt claims (HS256 (JWT_SECRET env) claims)), claims.
  split; [reflexivity|]. split; [reflexivity|].
  assert (Hnbf : claims !! "nbf" = None).
  { destruct (claims !! "nbf") as [v|] eqn:Hv; [|reflexivity].
    apply Hother in Hv as [Hv _]; discriminate. }
  split.
  - apply (jwt_verify_live claims _ now (now + 3600000 / 1000) Hnbf Hexp).
    change (3600000 / 1000) with 3600. lia.
  - unfold get. assert (claims !! "userId" = Some (userId s)) as ->; [|reflexivity].
    apply Hother; [discriminate..|]. split; [reflexivity|].
    intros E. rewrite E in Hid. discriminate.
Qed.

(** X10. A cookie session never lapses at the token layer.  When the header
    brings no token and the session carries a user id, [authenticateToken]
    answers by the user lookup alone: the stored user is attached, or 401
    "Invalid token. User not found."; never "Token expired" nor "Invalid
    token.".  So on a store with distinct user ids, the session a
    successful login leaves passes at any later time. *)
Theorem cookie_session_never_expires env d req s now :
  (forall t, authorization req = Some (Bearer t) -> token_truthy t = false) ->
  req_session req = Some s ->
  truthy (userId s) = true ->
  authenticateToken env d req now
  = match select_user_by_id d (bind (userId s)) with
    | None => Respond 401 "Invalid token. User not found." None
    | Some user =>
      Next {| authorization := authorization req; req_session := req_session req;
              req_user := Some user; req_userId := get user "id" |}
    end
  /\ (forall compare d0 req_body sess issued m user tok,
         login env compare d0 req_body sess issued = (LoginOk m user tok, Some s) ->
         NoDup (map u_id (users d0)) ->
         exists u, In u (users d0)
                   /\ authenticateToken env d0 req now
                      = Next {| authorization := authorization req;
                                req_session := req_session req;
                                req_user := Some (user_columns u);
                                req_userId := JNum (u_id u) |}).
Proof.
  intros Hno Hs Hid.
  assert (Hauth : forall d1,
             authenticateToken env d1 req now
             = match select_user_by_id d1 (bind (userId s)) with
               | None => Respond 401 "Invalid token. User not found." None
               | Some user =>
                 Next {| authorization := authorization req;
                         req_session := req_session req;
                         req_user := Some user; req_userId := get user "id" |}
               end).
  { intros d1. destruct (session_token_verifies env req s now Hno Hs Hid)
      as (t & claims & Ht & Htt & Hv & Hu).
    unfold authenticateToken. rewrite Ht. simpl. rewrite Htt, Hv. simpl. rewrite Hu.
    destruct (select_user_by_id d1 _); reflexivity. }
  split; [apply Hauth|].
  intros compare d0 req_body sess issued m user tok Hlogin Hnd.
  apply login_ok_session in Hlogin as (u & Hin & [= ->]).
  exists u. split; [exact Hin|]. rewrite Hauth. unfold select_user_by_id.
  change (numeric_affinity (bind (userId {| userId := JNum (u_id u);
                                            username := JStr (u_username u);
                                            role := JStr (u_role u) |})))
    with (SInt (u_id u)).
  rewrite (find_user_by_own_id _ u Hnd Hin). reflexivity.
Qed.

Lemma cookie_session_never_expires_witness :
  authenticateToken None sample_db cookie_request 9999999999
  = Next {| authorization := None;
            req_session := Some {| userId := JNum 1; username := JStr "admin";
                                   role := JStr "admin" |};
            req_user := Some (user_columns admin_row); req_userId := JNum 1 |}.
Proof.
  rewrite (proj1 (cookie_session_never_expires None sample_db cookie_request
                    {| userId := JNum 1; username := JStr "admin"; role := JStr "admin" |}
                    9999999999 (fun t H => ltac:(discriminate H)) eq_refl eq_refl)).
  reflexivity.
Defined.

(** X11. Privilege follows the store, not the token.  The user
    [authenticateToken] attaches is a row of [users], so [requireAdmin]
    afterwards passes exactly when that row's role is [admin]; and two
    bearer tokens that verify with the same [userId] claim get the same user
    attached, whatever else they claim. *)
Theorem role_comes_from_the_store env d now :
  (forall req req',
      authenticateToken env d req now = Next req' ->
      exists u, In u (users d)
                /\ req_user req' = Some (user_columns u)
                /\ (requireAdmin req' = Next req' <-> u_role u = "admin")
                /\ (requireAdmin req' = Respond 403 "Admin access required." None
                    <-> u_role u <> "admin"))
  /\ (forall req1 req2 t1 t2 claims1 claims2,
         authorization req1 = Some (Bearer t1) ->
         authorization req2 = Some (Bearer t2) ->
         jwt_verify t1 (JWT_SECRET env) now = Return claims1 ->
         jwt_verify t2 (JWT_SECRET env) now = Return claims2 ->
         get claims1 "userId" = get claims2 "userId" ->
         attached_user (authenticateToken env d req1 now)
         = attached_user (authenticateToken env d req2 now)).
Proof.
  split.
  - intros req req' H. apply authenticateToken_next in H as (u & Hin & Hu).
    exists u. split; [exact Hin|]. split; [exact Hu|].
    unfold requireAdmin. rewrite Hu.
    change (get (user_columns u) "role") with (JStr (u_role u)).
    destruct (decide (JStr (u_role u) <> JStr "admin")) as [Hne|He].
    + split; split; try discriminate; try congruence; intros _; reflexivity.
    + apply dec_stable in He. injection He as He.
      split; split; try discriminate; try congruence; intros _; reflexivity.
  - intros req1 req2 t1 t2 c1 c2 H1 H2 Hv1 Hv2 Hid.
    assert (Ht : forall t c, jwt_verify t (JWT_SECRET env) now = Return c ->
                             token_truthy t = true).
    { intros [text|p sg] c; simpl; [|reflexivity].
      destruct (String.eqb text ""); [|destruct (dots text =? 2)%nat]; discriminate. }
    rewrite (authenticateToken_bearer_return env d req1 t1 now c1 H1 (Ht _ _ Hv1) Hv1).
    rewrite (authenticateToken_bearer_return env d req2 t2 now c2 H2 (Ht _ _ Hv2) Hv2).
    rewrite Hid. destruct (select_user_by_id d _); reflexivity.
Qed.

Lemma role_comes_from_the_store_witness :
  attached_user
    (authenticateToken None sample_db
       (bearer (Jwt {[ "userId" := JNum 2; "role" := JStr "admin" ]}
                    (HS256 (JWT_SECRET None) {[ "userId" := JNum 2;
                                                "role" := JStr "admin" ]})))
       1750000000)
  = attached_user
      (authenticateToken None sample_db
         (bearer (Jwt {[ "userId" := JNum 2 ]}
                      (HS256 (JWT_SECRET None) {[ "userId" := JNum 2 ]})))
         1750000000).
Proof.
  apply (proj2 (role_comes_from_the_store None sample_db 1750000000)
               (bearer _) (bearer _) _ _
               {[ "userId" := JNum 2; "role" := JStr "admin" ]}
               {[ "userId" := JNum 2 ]} eq_refl eq_refl);
    vm_compute; reflexivity.
Defined.

(** X12. A login that names no stored user and a login with a wrong
    password get the same answer, 401 "Invalid username or password", and
    the session stays as it was; more generally [login] touches the session
    only when it answers with a token. *)
Theorem login_failures_look_alike env compare d req_body sess now p :
  truthy (get req_body "username") = true ->
  get req_body "password" = JStr p ->
  p <> "" ->
  ((select_user_by_login d (bind (get req_body "username"))
                         (bind (get req_body "username")) = None
    \/ exists u, select_user_by_login d (bind (get req_body "username"))
                                      (bind (get req_body "username"))
                 = Some (user_object u)
                 /\ compare p (u_password_hash u) = false) ->
   login env compare d req_body sess now
   = (AuthError 401 "Invalid username or password" None, sess))
  /\ ((login env compare d req_body sess now).2 = sess
      \/ exists m user tok, (login env compare d req_body sess now).1 = LoginOk m user tok).
Proof.
  intros Hu Hp Hne.
  assert (Htp : truthy (get req_body "password") = true).
  { rewrite Hp. simpl. destruct p; [congruence | reflexivity]. }
  unfold login. rewrite Hu, Htp, Hp. simpl. split.
  - intros [-> | (u & -> & Hc)]; [reflexivity|].
    change (get (user_object u) "password_hash") with (JStr (u_password_hash u)).
    simpl. rewrite Hc. reflexivity.
  - destruct (select_user_by_login d _ _) as [row|]; [|left; reflexivity].
    destruct (generateToken env row now) as [t|e];
      destruct (get row "password_hash"); simpl; auto;
      destruct (compare _ _); simpl; auto;
      destruct sess; simpl; eauto.
Qed.

Lemma login_failures_look_alike_witness :
  login None sample_compare sample_db
        {[ "username" := JStr "nobody"; "password" := JStr "admin" ]} None 1750000000
  = (AuthError 401 "Invalid username or password" None, None)
  /\ login None sample_compare sample_db
           {[ "username" := JStr "admin"; "password" := JStr "guess" ]} None 1750000000
     = (AuthError 401 "Invalid username or password" None, None).
Proof.
  split.
  - refine (proj1 (login_failures_look_alike None sample_compare sample_db
                     {[ "username" := JStr "nobody"; "password" := JStr "admin" ]}
                     None 1750000000 "admin" _ _ _) _).
    + vm_compute. reflexivity.
    + vm_compute. reflexivity.
    + discriminate.
    + left. vm_compute. reflexivity.
  - refine (proj1 (login_failures_look_alike None sample_compare sample_db
                     {[ "username" := JStr "admin"; "password" := JStr "guess" ]}
                     None 1750000000 "guess" _ _ _) _).
    + vm_compute. reflexivity.
    + vm_compute. reflexivity.
    + discriminate.
    + right. exists admin_row. split; vm_compute; reflexivity.
Defined.

(** X13. With [JWT_SECRET] unset or empty the server signs and verifies with
    the key written in the source, and [jwt.verify] does not ask for an
    expiry: on a store with distinct user ids, a token signed with that key
    that names a stored user, with no [nbf] claim and with no [exp] claim or
    one after the clock, passes [authenticateToken] with that user attached. *)
Theorem unset_secret_accepts_the_source_key env d u claims now req :
  env = None \/ env = Some "" ->
  NoDup (map u_id (users d)) ->
  In u (users d) ->
  get claims "userId" = JNum (u_id u) ->
  claims !! "nbf" = None ->
  (claims !! "exp" = None \/ exists exp, claims !! "exp" = Some (JNum exp) /\ now < exp) ->
  authorization req
  = Some (Bearer (Jwt claims (HS256 "school-os-jwt-secret-change-in-production" claims))) ->
  authenticateToken env d req now
  = Next {| authorization := authorization req; req_session := req_session req;
            req_user := Some (user_columns u); req_userId := JNum (u_id u) |}.
Proof.
  intros Henv Hnd Hin Hid Hnbf Hexp Hh.
  assert (Hk : JWT_SECRET env = "school-os-jwt-secret-change-in-production")
    by (destruct Henv as [-> | ->]; reflexivity).
  assert (Hv : jwt_verify (Jwt claims (HS256 "school-os-jwt-secret-change-in-production"
                                             claims))
                          (JWT_SECRET env) now = Return claims).
  { rewrite Hk. destruct Hexp as [He | (exp & He & Hlt)].
    - simpl. destruct (decide _); [|contradiction]. rewrite Hnbf, He. reflexivity.
    - apply (jwt_verify_live _ _ _ exp); assumption. }
  rewrite (authenticateToken_bearer_return env d req _ now claims Hh eq_refl Hv).
  rewrite Hid. unfold select_user_by_id.
  change (numeric_affinity (bind (JNum (u_id u)))) with (SInt (u_id u)).
  rewrite (find_user_by_own_id _ u Hnd Hin). reflexivity.
Qed.

Lemma unset_secret_accepts_the_source_key_witness :
  authenticateToken (Some "") sample_db
    (bearer (Jwt {[ "userId" := JNum 1 ]}
                 (HS256 "school-os-jwt-secret-change-in-production"
                        {[ "userId" := JNum 1 ]})))
    9999999999
  = Next {| authorization :=
              Some (Bearer (Jwt {[ "userId" := JNum 1 ]}
                                (HS256 "school-os-jwt-secret-change-in-production"
                                       {[ "userId" := JNum 1 ]})));
            req_session := None;
            req_user := Some (user_columns admin_row); req_userId := JNum 1 |}.
Proof.
  apply (unset_secret_accepts_the_source_key (Some "") sample_db admin_row
           {[ "userId" := JNum 1 ]} 9999999999 (bearer _)).
  - right. reflexivity.
  - apply (bool_decide_unpack _). vm_compute. exact I.
  - simpl. auto.
  - vm_compute. reflexivity.
  - vm_compute. reflexivity.
  - left. vm_compute. reflexivity.
  - reflexivity.
Defined.

(** * User accounts: [register], [changePassword], [updateProfile] *)

Lemma next_user_id_above d users_seq :
  users_seq < next_user_id d users_seq
  /\ Forall (fun u => u_id u < next_user_id d users_seq) (users d).
Proof.
  unfold next_user_id. induction (users d) as [|x l [IH1 IH2]]; simpl.
  - split; [lia | constructor].
  - split; [lia|]. constructor; [lia|].
    eapply Forall_impl; [exact IH2|]. simpl. intros; lia.
Qed.

Lemma existsb_eqb_not_in {A} (f : A -> string) (s : string) l :
  existsb (fun x => String.eqb (f x) s) l = false -> ~ In s (map f l).
Proof.
  induction l as [|x l IH]; simpl; [tauto|].
  destruct (String.eqb (f x) s) eqn:He; [discriminate|].
  apply String.eqb_neq in He. intros H [E|E]; [congruence | exact (IH H E)].
Qed.

Lemma NoDup_snoc {A} (l : list A) x : NoDup l -> ~ In x l -> NoDup (l ++ [x]).
Proof.
  intros Hl Hx. apply NoDup_app. split; [exact Hl|]. split; [|apply NoDup_singleton].
  intros y Hy Hy'. apply list_elem_of_singleton in Hy'. subst y.
  apply Hx, list_elem_of_In, Hy.
Qed.

(** What an accepted [INSERT INTO users] does. *)
Lemma insert_user_done d users_seq username email hash full_name role timestamp d' id c :
  insert_user d users_seq username email hash full_name role timestamp = Done d' id c ->
  let row := {| u_id := id; u_username := text_cell username;
                u_email := text_cell email; u_password_hash := text_cell hash;
                u_role := text_cell role; u_full_name := text_cell full_name;
                u_created_at := timestamp; u_updated_at := timestamp |} in
  id = next_user_id d users_seq
  /\ d' = with_users d (users d ++ [row])
  /\ ~ In (text_cell username) (map u_username (users d))
  /\ ~ In (text_cell email) (map u_email (users d)).
Proof.
  unfold insert_user.
  repeat match goal with
         | |- context [if is_null ?v then _ else _] => destruct (is_null v); [discriminate|]
         end.
  destruct (existsb _ _) eqn:Hu; [discriminate|].
  destruct (existsb (fun u => String.eqb (u_email u) _) _) eqn:He; [discriminate|].
  intros [= <- <- _]. cbv zeta.
  split; [reflexivity|]. split; [reflexivity|].
  split; eapply existsb_eqb_not_in; eassumption.
Qed.

Lemma find_app_none {A} (p : A -> bool) l x :
  List.find p l = None -> List.find p (l ++ [x]) = if p x then Some x else None.
Proof.
  induction l as [|y l IH]; simpl; [reflexivity|].
  destruct (p y); [discriminate|]. exact IH.
Qed.

Lemma find_none_forall {A} (p : A -> bool) l :
  Forall (fun x => p x = false) l -> List.find p l = None.
Proof. induction 1 as [|x l Hx _ IH]; simpl; [reflexivity|]. rewrite Hx. exact IH. Qed.

(** Every way [register] can end. *)
Lemma register_cases hash d users_seq req req_body salt timestamp :
  (exists code error msg,
      register hash d users_seq req req_body salt timestamp
      = (AccountError code error msg, (d, users_seq))
      /\ code <> 201)
  \/ (exists user p d' id changes,
         req_user req = Some user
         /\ get user "role" = JStr "admin"
         /\ truthy (get req_body "username") = true
         /\ truthy (get req_body "email") = true
         /\ truthy (get req_body "full_name") = true
         /\ get req_body "password" = JStr p
         /\ (6 <= js_length p)%nat
         /\ (let role := if decide (get req_body "role" = JUndefined)
                         then JStr "teacher" else get req_body "role" in
             (role = JStr "admin" \/ role = JStr "teacher")
             /\ insert_user d users_seq (bind (get req_body "username"))
                            (bind (get req_body "email")) (SText (hash p salt))
                            (bind (get req_body "full_name")) (bind role) timestamp
                = Done d' id changes)
         /\ register hash d users_seq req req_body salt timestamp
            = (AccountOk 201 "User created successfully"
                         (select_user_by_id d' (SInt id)), (d', id))).
Proof.
  unfold register.
  destruct (req_user req) as [user|]; [|left; eexists _, _, _; split; [reflexivity|lia]].
  destruct (decide (get user "role" <> JStr "admin")) as [Hne|He];
    [left; eexists _, _, _; split; [reflexivity|lia]|].
  apply dec_stable in He.
  destruct (truthy (get req_body "username")) eqn:H1; simpl;
    [|left; eexists _, _, _; split; [reflexivity|lia]].
  destruct (truthy (get req_body "email")) eqn:H2; simpl;
    [|left; eexists _, _, _; split; [reflexivity|lia]].
  destruct (truthy (get req_body "password")) eqn:H3; simpl;
    [|left; eexists _, _, _; split; [reflexivity|lia]].
  destruct (truthy (get req_body "full_name")) eqn:H4; simpl;
    [|left; eexists _, _, _; split; [reflexivity|lia]].
  destruct (shorter_than_6 (get req_body "password")) eqn:H5;
    [left; eexists _, _, _; split; [reflexivity|lia]|].
  set (role := if decide (get req_body "role" = JUndefined)
               then JStr "teacher" else get req_body "role").
  destruct (bool_decide (role ∈ [JStr "admin"; JStr "teacher"])) eqn:H6; simpl;
    [|left; eexists _, _, _; split; [reflexivity|lia]].
  destruct (select_user_id_named d _ _);
    [left; eexists _, _, _; split; [reflexivity|lia]|].
  destruct (get req_body "password") as [| | | |p] eqn:Hp; simpl;
    try (left; eexists _, _, _; split; [reflexivity|lia]).
  destruct (insert_user d users_seq _ _ _ _ _ _) as [d' id c|e] eqn:Hins; simpl;
    [|left; eexists _, _, _; split; [reflexivity|lia]].
  right. exists user, p, d', id, c. cbv zeta. fold role.
  apply bool_decide_eq_true, list_elem_of_In in H6. simpl in H6, H5.
  apply Nat.ltb_ge in H5.
  repeat split; auto. intuition.
Qed.

(** X14. [register] creates a user only for an administrator and only when
    it answers 201: after any other answer the store and the sequence are
    the ones it was given, and a 201 means the attached identity has role
    [admin]. *)
Theorem register_writes_only_for_admins hash d users_seq req req_body salt timestamp :
  let r := register hash d users_seq req req_body salt timestamp in
  (account_status r.1 <> 201 -> r.2 = (d, users_seq))
  /\ (account_status r.1 = 201 ->
      exists user, req_user req = Some user /\ get user "role" = JStr "admin")
  /\ (forall user, req_user req = Some user -> get user "role" <> JStr "admin" ->
                   r = (AccountError 403 "Admin access required to create new users" None,
                        (d, users_seq))).
Proof.
  cbv zeta. split; [|split].
  - destruct (register_cases hash d users_seq req req_body salt timestamp)
      as [(code & e & m & -> & _) | (user & p & d' & id & c & _ & _ & _ & _ & _ & _ & _ & _ & ->)];
      simpl; [reflexivity | congruence].
  - destruct (register_cases hash d users_seq req req_body salt timestamp)
      as [(code & e & m & -> & Hc) | (user & p & d' & id & c & Hu & Hr & _)];
      simpl; [congruence | eauto].
  - intros user Hu Hne. unfold register. rewrite Hu.
    destruct (decide _); [reflexivity | contradiction].
Qed.

Lemma register_writes_only_for_admins_witness :
  register sample_hash sample_db 2
           {| authorization := None; req_session := None;
              req_user := Some (user_columns teacher_row); req_userId := JNum 2 |}
           {[ "username" := JStr "bola"; "email" := JStr "bola@school-os.local";
              "password" := JStr "secret1"; "full_name" := JStr "Bola Ade";
              "role" := JStr "admin" ]}
           "salt" "2025-06-16 09:00:00"
  = (AccountError 403 "Admin access required to create new users" None, (sample_db, 2)).
Proof.
  apply (proj2 (proj2 (register_writes_only_for_admins sample_hash sample_db 2 _ _ _ _))
               (user_columns teacher_row)).
  - reflexivity.
  - vm_compute. discriminate.
Defined.

Lemma register_done hash d users_seq req req_body salt timestamp :
  account_status (register hash d users_seq req req_body salt timestamp).1 = 201 ->
  exists row p,
    register hash d users_seq req req_body salt timestamp
    = (AccountOk 201 "User created successfully" (Some (user_columns row)),
       (with_users d (users d ++ [row]), u_id row))
    /\ u_id row = next_user_id d users_seq
    /\ get req_body "password" = JStr p
    /\ (6 <= js_length p)%nat
    /\ truthy (get req_body "username") = true
    /\ u_username row = text_cell (bind (get req_body "username"))
    /\ u_email row = text_cell (bind (get req_body "email"))
    /\ u_full_name row = text_cell (bind (get req_body "full_name"))
    /\ u_password_hash row = hash p salt
    /\ JStr (u_role row) = (if decide (get req_body "role" = JUndefined)
                            then JStr "teacher" else get req_body "role")
    /\ (u_role row = "admin" \/ u_role row = "teacher")
    /\ u_created_at row = timestamp
    /\ ~ In (u_username row) (map u_username (users d))
    /\ ~ In (u_email row) (map u_email (users d)).
Proof.
  destruct (register_cases hash d users_seq req req_body salt timestamp)
    as [(code & e & m & -> & Hc)
       | (user & p & d' & id & c & _ & _ & Hname & _ & _ & Hp & Hlen & Hrest & ->)];
    simpl; [congruence|]. intros _.
  cbv zeta in Hrest. destruct Hrest as [Hrole Hins].
  apply insert_user_done in Hins. cbv zeta in Hins.
  destruct Hins as (Hid & -> & Hu & He).
  eexists {| u_id := id |}, p. simpl.
  split; [|repeat split; try eassumption; try reflexivity].
  - f_equal. f_equal. unfold select_user_by_id. simpl users.
    rewrite find_app_none.
    + simpl. rewrite Z.eqb_refl. reflexivity.
    + apply find_none_forall. subst id.
      eapply Forall_impl; [exact (proj2 (next_user_id_above d users_seq))|].
      simpl. intros u Hlt. apply Z.eqb_neq. lia.
  - destruct Hrole as [-> | ->]; reflexivity.
  - destruct Hrole as [-> | ->]; simpl; auto.
Qed.

(** X15. [register] keeps the accounts apart: on a store where ids,
    usernames and emails are unique and no id is above the sequence, they
    still are after any call, the sequence never goes down, and every
    account that was there is still there, as it was. *)
Theorem register_keeps_accounts_unique hash d users_seq req req_body salt timestamp :
  users_ok d users_seq ->
  let r := register hash d users_seq req req_body salt timestamp in
  users_ok r.2.1 r.2.2
  /\ users_seq <= r.2.2
  /\ (forall u, In u (users d) -> In u (users r.2.1)).
Proof.
  intros Hok. cbv zeta.
  destruct (decide (account_status
                      (register hash d users_seq req req_body salt timestamp).1 = 201))
    as [H201|Hne].
  - destruct (register_done _ _ _ _ _ _ _ H201)
      as (row & p & -> & Hid & _ & _ & _ & _ & _ & _ & _ & _ & _ & _ & Hu & He).
    destruct (next_user_id_above d users_seq) as [Hseq Hall].
    rewrite <- Hid in Hseq, Hall. simpl.
    split; [|split; [lia | intros u Hin; apply in_or_app; left; exact Hin]].
    destruct Hok as [Hids Hnames Hemails Hbelow].
    split; simpl; rewrite ?map_app; simpl.
    + apply NoDup_snoc; [exact Hids|].
      intros Hin. apply in_map_iff in Hin as (u & Hu' & Hin).
      rewrite Forall_forall in Hall. apply list_elem_of_In, Hall in Hin. lia.
    + apply NoDup_snoc; assumption.
    + apply NoDup_snoc; assumption.
    + apply Forall_app. split.
      * eapply Forall_impl; [exact Hall|]. simpl. intros; lia.
      * constructor; [lia | constructor].
  - destruct (register_cases hash d users_seq req req_body salt timestamp)
      as [(code & e & m & Heq & _) | (user & p & d' & id & c & _ & _ & _ & _ & _ & _ & _ & _ & Heq)];
      rewrite Heq in Hne |- *; simpl in *; [|congruence].
    split; [exact Hok|]. split; [lia | auto].
Qed.

Lemma sample_db_users_ok : users_ok sample_db 2.
Proof.
  split; apply (bool_decide_unpack _); vm_compute; exact I.
Qed.

Lemma register_keeps_accounts_unique_witness :
  users_ok (register sample_hash sample_db 2 admin_request bola_form
                     "salt" "2025-06-16 09:00:00").2.1 3
  /\ map u_username (users (register sample_hash sample_db 2 admin_request bola_form
                                     "salt" "2025-06-16 09:00:00").2.1)
     = ["admin"; "ngozi"; "bola"].
Proof.
  split; [|vm_compute; reflexivity].
  exact (proj1 (register_keeps_accounts_unique
                  sample_hash sample_db 2 admin_request bola_form
                  "salt" "2025-06-16 09:00:00" sample_db_users_ok)).
Defined.

(** X16. A 201 of [register] means one account was appended, under an id
    above the sequence and above every stored id: it holds the submitted
    username, email and full name, the role [teacher] when the request
    names none and otherwise [admin] or [teacher], and as its hash what
    [bcrypt.hash] made of the submitted password, whose [length] (in UTF-16
    code units, as JavaScript counts) is at least 6.  The reply carries that
    account's columns, the hash not among them. *)
Theorem register_creates_the_submitted_account hash d users_seq req req_body salt timestamp :
  let r := register hash d users_seq req req_body salt timestamp in
  account_status r.1 = 201 ->
  exists row p,
    r = (AccountOk 201 "User created successfully" (Some (user_columns row)),
         (with_users d (users d ++ [row]), u_id row))
    /\ user_columns row !! "password_hash" = None
    /\ users_seq < u_id row
    /\ Forall (fun u => u_id u < u_id row) (users d)
    /\ get req_body "password" = JStr p
    /\ (6 <= js_length p)%nat
    /\ u_password_hash row = hash p salt
    /\ (forall s, get req_body "username" = JStr s -> u_username row = s)
    /\ (forall s, get req_body "email" = JStr s -> u_email row = s)
    /\ (forall s, get req_body "full_name" = JStr s -> u_full_name row = s)
    /\ (get req_body "role" = JUndefined -> u_role row = "teacher")
    /\ (u_role row = "admin" \/ u_role row = "teacher").
Proof.
  cbv zeta. intros H201.
  destruct (register_done _ _ _ _ _ _ _ H201)
    as (row & p & Heq & Hid & Hp & Hlen & _ & Hu & He & Hf & Hh & Hr & Hr' & _).
  exists row, p. split; [exact Heq|]. split; [reflexivity|].
  destruct (next_user_id_above d users_seq) as [Hseq Hall]. rewrite <- Hid in Hseq, Hall.
  repeat split; try assumption.
  - intros s Hs. rewrite Hu, Hs. reflexivity.
  - intros s Hs. rewrite He, Hs. reflexivity.
  - intros s Hs. rewrite Hf, Hs. reflexivity.
  - intros Hundef. destruct (decide _); [congruence | contradiction].
Qed.

Lemma register_creates_the_submitted_account_witness :
  exists row p,
    register sample_hash sample_db 2 admin_request bola_form "salt" "2025-06-16 09:00:00"
    = (AccountOk 201 "User created successfully" (Some (user_columns row)),
       (with_users sample_db (users sample_db ++ [row]), u_id row))
    /\ u_id row = 3 /\ u_role row = "teacher" /\ p = "secret1".
Proof.
  destruct (register_creates_the_submitted_account
              sample_hash sample_db 2 admin_request bola_form "salt" "2025-06-16 09:00:00"
              eq_refl)
    as (row & p & Heq & _ & _ & _ & Hp & _ & _ & _ & _ & _ & Hrole & _).
  exists row, p. split; [exact Heq|].
  split; [|split].
  - assert (E : (register sample_hash sample_db 2 admin_request bola_form
                          "salt" "2025-06-16 09:00:00").2.2 = 3)
      by (vm_compute; reflexivity).
    rewrite Heq in E. exact E.
  - apply Hrole. reflexivity.
  - assert (E : get bola_form "password" = JStr "secret1") by reflexivity.
    rewrite Hp in E. congruence.
Defined.

(** Five accented letters are ten bytes but five code units: too short. *)
Example five_accented_letters_are_too_short :
  register sample_hash sample_db 2 admin_request
           (<["password" := JStr "ééééé"]> bola_form) "salt" "2025-06-16 09:00:00"
  = (AccountError 400 "Password must be at least 6 characters long" None, (sample_db, 2)).
Proof. vm_compute. reflexivity. Qed.

(** * From [register] to [login] *)

Lemma find_app_some {A} (p : A -> bool) l k x :
  List.find p l = Some x -> List.find p (l ++ k) = Some x.
Proof.
  induction l as [|y l IH]; simpl; [discriminate|].
  destruct (p y); [auto | exact IH].
Qed.

Lemma find_ext_in {A} (p q : A -> bool) l :
  (forall x, In x l -> p x = q x) -> List.find p l = List.find q l.
Proof.
  induction l as [|y l IH]; simpl; [reflexivity|]. intros H.
  rewrite (H y (or_introl eq_refl)). destruct (q y); [reflexivity|].
  apply IH. intros x Hx. apply H. right. exact Hx.
Qed.

Lemma long_text_truthy p : (6 <= js_length p)%nat -> truthy (JStr p) = true.
Proof. destruct p; simpl; [lia | reflexivity]. Qed.

(** The lookup of [login] for the username of a row that was just appended
    finds that row, whatever emails the store holds. *)
Lemma find_by_login_new_row name d row :
  u_username row = name ->
  ~ In (u_username row) (map u_username (users d)) ->
  find_by_login (SText name) (SText name) (users (with_users d (users d ++ [row])))
  = Some row.
Proof.
  intros Hu Hfresh. unfold find_by_login. simpl users. rewrite find_app_none.
  - simpl. rewrite Hu, String.eqb_refl. reflexivity.
  - apply find_none_forall, Forall_forall. intros u Hin%list_elem_of_In.
    simpl. apply String.eqb_neq. intros E. apply Hfresh.
    rewrite Hu, <- E. apply in_map. exact Hin.
Qed.

(** What [login] answers once the login name selects the account [u]. *)
Lemma login_found env compare d body sess now name p u :
  get body "username" = JStr name ->
  get body "password" = JStr p ->
  truthy (JStr name) = true ->
  truthy (JStr p) = true ->
  find_by_login (SText name) (SText name) (users d) = Some u ->
  exists tok,
    generateToken env (user_object u) now = Return tok
    /\ login env compare d body (Some sess) now
       = if compare p (u_password_hash u)
         then (LoginOk "Login successful" (without_password_hash (user_object u)) tok,
               Some {| userId := JNum (u_id u); username := JStr (u_username u);
                       role := JStr (u_role u) |})
         else (AuthError 401 "Invalid username or password" None, Some sess).
Proof.
  intros Hu Hp Htu Htp Hfind.
  destruct (generateToken_claims env u now) as (claims & Hgen & _).
  eexists. split; [exact Hgen|].
  unfold login. rewrite Hu, Hp, Htu, Htp. cbn [negb orb].
  unfold select_user_by_login. cbn [bind].
  rewrite Hfind. cbn [fmap option_fmap option_map].
  change (get (user_object u) "password_hash") with (JStr (u_password_hash u)).
  cbv beta iota.
  destruct (compare p (u_password_hash u)); cbn [negb]; [|reflexivity].
  rewrite Hgen. reflexivity.
Qed.

(** X17. A registered user can log in: after a 201 of [register] for the
    username [name] and the password [p], a [login] with them on the new
    store succeeds as the new account, with its id in the reply and in the
    session, provided [bcrypt.compare] accepts [p] against the hash
    [bcrypt.hash] made of it and no stored account has [name] as its
    email address. *)
Theorem registered_user_can_log_in env compare hash d users_seq req req_body salt
        timestamp body sess now name p :
  let r := register hash d users_seq req req_body salt timestamp in
  account_status r.1 = 201 ->
  get req_body "username" = JStr name ->
  get req_body "password" = JStr p ->
  get body "username" = JStr name ->
  get body "password" = JStr p ->
  compare p (hash p salt) = true ->
  ~ In name (map u_email (users d)) ->
  exists user tok,
    login env compare r.2.1 body (Some sess) now
    = (LoginOk "Login successful" user tok,
       Some {| userId := JNum r.2.2; username := JStr name;
               role := get user "role" |})
    /\ get user "id" = JNum r.2.2
    /\ get user "username" = JStr name
    /\ user !! "password_hash" = None
    /\ verifyToken env tok now <> Throw {| name := "JsonWebTokenError";
                                           message := "invalid signature" |}.
Proof.
  cbv zeta. intros H201 Hname Hpass Hbu Hbp Hcmp Hemail.
  destruct (register_done _ _ _ _ _ _ _ H201)
    as (row & p' & -> & Hid & Hp' & Hlen & Htn & Hu & _ & _ & Hh & _ & _ & _ & Hfresh & _).
  rewrite Hpass in Hp'. injection Hp' as <-.
  rewrite Hname in Hu, Htn. change (u_username row = name) in Hu.
  pose proof (find_by_login_new_row name d row Hu Hfresh) as Hfind.
  cbn [fst snd].
  destruct (login_found env compare _ body sess now name p row Hbu Hbp Htn
                        (long_text_truthy p Hlen) Hfind) as (tok & Hgen & ->).
  rewrite Hh, Hcmp.
  exists (without_password_hash (user_object row)), tok.
  split; [rewrite Hu; reflexivity|].
  split; [reflexivity|]. split; [rewrite <- Hu; reflexivity|].
  split; [apply lookup_delete_eq|].
  destruct (issued_token_verifies env row now now ltac:(lia)) as (claims & Hgen' & Hv & _).
  rewrite Hgen in Hgen'. injection Hgen' as ->.
  unfold verifyToken. rewrite Hv. discriminate.
Qed.

Lemma registered_user_can_log_in_witness :
  exists user tok,
    login None sample_verify
          (register sample_hash sample_db 2 admin_request bola_form
                    "salt" "2025-06-16 09:00:00").2.1
          {[ "username" := JStr "bola"; "password" := JStr "secret1" ]}
          (Some fresh_session) 1750100000
    = (LoginOk "Login successful" user tok,
       Some {| userId := JNum 3; username := JStr "bola"; role := get user "role" |})
    /\ get user "id" = JNum 3.
Proof.
  destruct (registered_user_can_log_in
              None sample_verify sample_hash sample_db 2 admin_request bola_form
              "salt" "2025-06-16 09:00:00"
              {[ "username" := JStr "bola"; "password" := JStr "secret1" ]}
              fresh_session 1750100000 "bola" "secret1")
    as (user & tok & Hlogin & Hid & _);
    try solve [vm_compute; reflexivity | vm_compute; intuition discriminate].
  exists user, tok. split; [exact Hlogin | exact Hid].
Defined.

(** X18. At login the username wins over the email.  [register] does not
    compare the new username with the stored emails, so it can create an
    account whose username is the email address of a stored account;
    [login] finds a row by its username before it finds one by its email.
    After a 201 of [register] a [login] under the new username is therefore
    always judged against the new account, whatever emails the store
    holds: it succeeds as the new account exactly when [bcrypt.compare]
    accepts the password against the new hash.  The holder of a stored
    account with that email address, logging in by it, is judged against
    the new account too. *)
Theorem new_username_wins_over_stored_email env compare hash d users_seq req req_body salt
        timestamp body sess now name p :
  let r := register hash d users_seq req req_body salt timestamp in
  account_status r.1 = 201 ->
  get req_body "username" = JStr name ->
  get body "username" = JStr name ->
  get body "password" = JStr p ->
  truthy (JStr p) = true ->
  exists row tok,
    users r.2.1 = (users d ++ [row])%list
    /\ u_id row = r.2.2
    /\ Forall (fun u => u_id u <> u_id row) (users d)
    /\ select_user_by_login r.2.1 (SText name) (SText name) = Some (user_object row)
    /\ login env compare r.2.1 body (Some sess) now
       = if compare p (u_password_hash row)
         then (LoginOk "Login successful" (without_password_hash (user_object row)) tok,
               Some {| userId := JNum (u_id row); username := JStr name;
                       role := JStr (u_role row) |})
         else (AuthError 401 "Invalid username or password" None, Some sess).
Proof.
  cbv zeta. intros H201 Hname Hbu Hbp Htp.
  destruct (register_done _ _ _ _ _ _ _ H201)
    as (row & p' & -> & Hid & _ & _ & Htn & Hu & _ & _ & _ & _ & _ & _ & Hfresh & _).
  rewrite Hname in Hu, Htn. change (u_username row = name) in Hu. cbn [fst snd].
  pose proof (find_by_login_new_row name d row Hu Hfresh) as Hfind.
  destruct (login_found env compare _ body sess now name p row Hbu Hbp Htn Htp Hfind)
    as (tok & _ & ->).
  exists row, tok. split; [reflexivity|]. split; [reflexivity|].
  split; [|split; [unfold select_user_by_login; rewrite Hfind; reflexivity|]].
  - destruct (next_user_id_above d users_seq) as [_ Hall]. rewrite <- Hid in Hall.
    eapply Forall_impl; [exact Hall|]. simpl. intros; lia.
  - rewrite Hu. reflexivity.
Qed.

Lemma new_username_wins_over_stored_email_witness :
  select_user_by_login sample_db (SText "ngozi@school-os.local")
                       (SText "ngozi@school-os.local")
  = Some (user_object teacher_row)
  /\ exists row tok,
      login None sample_verify
            (register sample_hash sample_db 2 admin_request shadowed_form
                      "salt" "2025-06-16 09:00:00").2.1
            {[ "username" := JStr "ngozi@school-os.local"; "password" := JStr "secret1" ]}
            (Some fresh_session) 1750100000
      = (LoginOk "Login successful" (without_password_hash (user_object row)) tok,
         Some {| userId := JNum 3; username := JStr "ngozi@school-os.local";
                 role := JStr "teacher" |}).
Proof.
  split; [vm_compute; reflexivity|].
  destruct (new_username_wins_over_stored_email
              None sample_verify sample_hash sample_db 2 admin_request shadowed_form
              "salt" "2025-06-16 09:00:00"
              {[ "username" := JStr "ngozi@school-os.local";
                 "password" := JStr "secret1" ]}
              fresh_session 1750100000 "ngozi@school-os.local" "secret1")
    as (row & tok & Hrows & Hid & _ & _ & Hlogin);
    try solve [vm_compute; reflexivity].
  exists row, tok. rewrite Hlogin.
  assert (Hrow : row = {| u_id := 3; u_username := "ngozi@school-os.local";
                          u_email := "bola@school-os.local";
                          u_password_hash := sample_hash "secret1" "salt";
                          u_role := "teacher"; u_full_name := "Bola Ade";
                          u_created_at := "2025-06-16 09:00:00";
                          u_updated_at := "2025-06-16 09:00:00" |}).
  { assert (E : users (register sample_hash sample_db 2 admin_request shadowed_form
                                "salt" "2025-06-16 09:00:00").2.1
                = (users sample_db ++
                     [ {| u_id := 3; u_username := "ngozi@school-os.local";
                          u_email := "bola@school-os.local";
                          u_password_hash := sample_hash "secret1" "salt";
                          u_role := "teacher"; u_full_name := "Bola Ade";
                          u_created_at := "2025-06-16 09:00:00";
                          u_updated_at := "2025-06-16 09:00:00" |} ])%list)
      by (vm_compute; reflexivity).
    rewrite Hrows in E. apply app_inv_head in E. congruence. }
  subst row. vm_compute. reflexivity.
Defined.

(** * [changePassword] *)

Lemma find_map_same {A} (p : A -> bool) (f : A -> A) l :
  (forall x, p (f x) = p x) -> List.find p (map f l) = f <$> List.find p l.
Proof.
  intros Hp. induction l as [|x l IH]; simpl; [reflexivity|].
  rewrite Hp. destruct (p x); [reflexivity | exact IH].
Qed.

(** Every way [changePassword] can end. *)
Lemma changePassword_cases compare hash d req body salt timestamp :
  (exists code error msg,
      changePassword compare hash d req body salt timestamp
      = (AccountError code error msg, d)
      /\ code <> 200)
  \/ (exists me cur new old,
         req_user req = Some me
         /\ get body "currentPassword" = JStr cur
         /\ get body "newPassword" = JStr new
         /\ (6 <= js_length new)%nat
         /\ select_password_hash d (bind (get me "id")) = Some old
         /\ compare cur old = true
         /\ changePassword compare hash d req body salt timestamp
            = (AccountOk 200 "Password changed successfully" None,
               update_password_hash d (hash new salt) (bind (get me "id")) timestamp)).
Proof.
  unfold changePassword.
  destruct (req_user req) as [me|]; [|left; eexists _, _, _; split; [reflexivity|lia]].
  destruct (truthy (get body "currentPassword")) eqn:H1; simpl;
    [|left; eexists _, _, _; split; [reflexivity|lia]].
  destruct (truthy (get body "newPassword")) eqn:H2; simpl;
    [|left; eexists _, _, _; split; [reflexivity|lia]].
  destruct (shorter_than_6 (get body "newPassword")) eqn:H3;
    [left; eexists _, _, _; split; [reflexivity|lia]|].
  destruct (select_password_hash d _) as [old|] eqn:Hold;
    [|left; eexists _, _, _; split; [reflexivity|lia]].
  destruct (get body "currentPassword") as [| | | |cur] eqn:Hcur; simpl;
    try (left; eexists _, _, _; split; [reflexivity|lia]).
  destruct (compare cur old) eqn:Hcmp; simpl;
    [|left; eexists _, _, _; split; [reflexivity|lia]].
  destruct (get body "newPassword") as [| | | |new] eqn:Hnew; simpl;
    try (left; eexists _, _, _; split; [reflexivity|lia]).
  right. exists me, cur, new, old. simpl in H3. apply Nat.ltb_ge in H3.
  repeat split; auto.
Qed.

Lemma select_password_hash_row d id old :
  select_password_hash d id = Some old ->
  exists u, List.find (user_has_id id) (users d) = Some u /\ u_password_hash u = old.
Proof.
  unfold select_password_hash.
  destruct (List.find _ _) as [u|]; simpl; [|discriminate].
  intros [= <-]. eauto.
Qed.

(** X19. [changePassword] writes only after the current password was
    accepted against the caller's stored hash, and writes only that
    account's hash: after any answer but 200 the store is the one it was
    given; a 200 means the submitted current password passed
    [bcrypt.compare] against the hash of the first account with the
    caller's id and the new password is text of at least 6 characters.
    In every case the ids, usernames, emails, roles and full names are as
    they were in the same order, and an account whose id is not the
    caller's is left as it was. *)
Theorem change_password_needs_the_current_one compare hash d req body salt timestamp :
  let r := changePassword compare hash d req body salt timestamp in
  (account_status r.1 <> 200 -> r.2 = d)
  /\ (account_status r.1 = 200 ->
      exists me cur new u,
        req_user req = Some me
        /\ get body "currentPassword" = JStr cur
        /\ get body "newPassword" = JStr new
        /\ (6 <= js_length new)%nat
        /\ List.find (user_has_id (bind (get me "id"))) (users d) = Some u
        /\ compare cur (u_password_hash u) = true
        /\ List.find (user_has_id (bind (get me "id"))) (users r.2)
           = Some (set_password_hash (hash new salt) timestamp u)
        /\ forall u', In u' (users d) -> user_has_id (bind (get me "id")) u' = false ->
                      In u' (users r.2))
  /\ map u_id (users r.2) = map u_id (users d)
  /\ map u_username (users r.2) = map u_username (users d)
  /\ map u_email (users r.2) = map u_email (users d)
  /\ map u_role (users r.2) = map u_role (users d)
  /\ map u_full_name (users r.2) = map u_full_name (users d)
  /\ students r.2 = students d
  /\ attendance r.2 = attendance d.
Proof.
  cbv zeta.
  destruct (changePassword_cases compare hash d req body salt timestamp)
    as [(code & e & m & -> & Hc)
       | (me & cur & new & old & Hme & Hcur & Hnew & Hlen & Hold & Hcmp & ->)];
    cbn [fst snd account_status].
  - split; [reflexivity|]. split; [congruence|]. repeat split; reflexivity.
  - split; [congruence|]. split.
    + intros _. apply select_password_hash_row in Hold as (u & Hfind & <-).
      exists me, cur, new, u. repeat split; try assumption.
      * unfold update_password_hash. simpl users.
        rewrite find_map_same, Hfind.
        -- simpl. apply find_some in Hfind as [_ ->]. reflexivity.
        -- intros x. destruct (user_has_id _ x) eqn:Hx; [|exact Hx]. exact Hx.
      * intros u' Hin Hno. unfold update_password_hash. simpl users.
        apply in_map_iff. exists u'. rewrite Hno. split; [reflexivity | exact Hin].
    + unfold update_password_hash. simpl.
      repeat split; rewrite map_map; apply map_ext; intros x;
        destruct (user_has_id _ x); reflexivity.
Qed.

Lemma change_password_needs_the_current_one_witness :
  (changePassword sample_compare sample_hash sample_db admin_request
                  {[ "currentPassword" := JStr "guess1"; "newPassword" := JStr "secret2" ]}
                  "salt" "2025-06-16 09:00:00").2 = sample_db
  /\ map u_password_hash
         (users (changePassword sample_compare sample_hash sample_db admin_request
                   {[ "currentPassword" := JStr "admin"; "newPassword" := JStr "secret2" ]}
                   "salt" "2025-06-16 09:00:00").2)
     = ["$2b$12$saltsecret2"; u_password_hash teacher_row].
Proof.
  split; [|vm_compute; reflexivity].
  apply (proj1 (change_password_needs_the_current_one
                  sample_compare sample_hash sample_db admin_request
                  {[ "currentPassword" := JStr "guess1"; "newPassword" := JStr "secret2" ]}
                  "salt" "2025-06-16 09:00:00")).
  vm_compute. discriminate.
Defined.

Lemma find_by_login_map a b (f : user_row -> user_row) l :
  (forall x, u_username (f x) = u_username x /\ u_email (f x) = u_email x) ->
  find_by_login a b (map f l) = f <$> find_by_login a b l.
Proof.
  intros Hf. unfold find_by_login.
  rewrite !find_map_same.
  - destruct (List.find _ l); reflexivity.
  - intros x. rewrite (proj2 (Hf x)). reflexivity.
  - intros x. rewrite (proj1 (Hf x)). reflexivity.
Qed.

(** X20. After a password change the new hash is the one [login] judges:
    when the caller's account is the one the lookup of [login] finds under
    a login name (by username, or else by email), a [login] under that
    name on the store a 200 of [changePassword] left succeeds exactly when
    [bcrypt.compare] accepts the submitted password against the hash made
    of the new one, so the old password is refused unless it passes
    against that hash. *)
Theorem login_judges_against_the_new_hash env compare hash d req body salt timestamp
        me new u login_name pw lbody sess now :
  let r := changePassword compare hash d req body salt timestamp in
  account_status r.1 = 200 ->
  req_user req = Some me ->
  get body "newPassword" = JStr new ->
  find_by_login (SText login_name) (SText login_name) (users d) = Some u ->
  user_has_id (bind (get me "id")) u = true ->
  get lbody "username" = JStr login_name ->
  get lbody "password" = JStr pw ->
  truthy (JStr login_name) = true ->
  truthy (JStr pw) = true ->
  exists tok user,
    login env compare r.2 lbody (Some sess) now
    = if compare pw (hash new salt)
      then (LoginOk "Login successful" user tok,
            Some {| userId := JNum (u_id u); username := JStr (u_username u);
                    role := JStr (u_role u) |})
      else (AuthError 401 "Invalid username or password" None, Some sess).
Proof.
  cbv zeta. intros H200 Hme Hnew Hfind Hhit Hlu Hlp Htn Htp.
  destruct (changePassword_cases compare hash d req body salt timestamp)
    as [(code & e & m & Heq & Hc)
       | (me' & cur & new' & old & Hme' & _ & Hnew' & _ & _ & _ & Heq)];
    rewrite Heq in H200 |- *; cbn [fst snd account_status] in *; [congruence|].
  rewrite Hme in Hme'. injection Hme' as <-.
  rewrite Hnew in Hnew'. injection Hnew' as <-.
  assert (Hfind' : find_by_login (SText login_name) (SText login_name)
                                 (users (update_password_hash d (hash new salt)
                                                              (bind (get me "id"))
                                                              timestamp))
                   = Some (set_password_hash (hash new salt) timestamp u)).
  { unfold update_password_hash. simpl users. rewrite find_by_login_map, Hfind.
    - simpl. rewrite Hhit. reflexivity.
    - intros x. destruct (user_has_id _ x); split; reflexivity. }
  destruct (login_found env compare _ lbody sess now login_name pw _ Hlu Hlp Htn Htp Hfind')
    as (tok & _ & ->).
  exists tok, (without_password_hash
                 (user_object (set_password_hash (hash new salt) timestamp u))).
  reflexivity.
Qed.

Lemma login_judges_against_the_new_hash_witness :
  exists tok user,
    login None sample_check
          (changePassword sample_check sample_hash sample_db admin_request
             {[ "currentPassword" := JStr "admin"; "newPassword" := JStr "secret2" ]}
             "salt" "2025-06-16 09:00:00").2
          {[ "username" := JStr "admin"; "password" := JStr "secret2" ]}
          (Some fresh_session) 1750100000
    = (LoginOk "Login successful" user tok,
       Some {| userId := JNum 1; username := JStr "admin"; role := JStr "admin" |}).
Proof.
  destruct (login_judges_against_the_new_hash
              None sample_check sample_hash sample_db admin_request
              {[ "currentPassword" := JStr "admin"; "newPassword" := JStr "secret2" ]}
              "salt" "2025-06-16 09:00:00"
              (user_columns admin_row) "secret2" admin_row "admin" "secret2"
              {[ "username" := JStr "admin"; "password" := JStr "secret2" ]}
              fresh_session 1750100000)
    as (tok & user & Hlogin); try solve [vm_compute; reflexivity].
  exists tok, user. rewrite Hlogin. reflexivity.
Defined.

(** * [updateProfile] *)

Lemma update_profile_columns_done d full_name email id timestamp d' i c :
  update_profile_columns d full_name email id timestamp = Done d' i c ->
  d' = with_users d (map (fun u => if user_has_id id u
                                   then set_profile full_name email timestamp u else u)
                         (users d))
  /\ forall e, email = Some e ->
               List.filter (user_has_id id) (users d) = []
               \/ ((length (List.filter (user_has_id id) (users d)) <= 1)%nat
                   /\ forall u, In u (users d) -> user_has_id id u = false ->
                                u_email u <> e).
Proof.
  unfold update_profile_columns. cbv zeta.
  destruct email as [e|].
  - destruct (existsb (user_has_id id) (users d)) eqn:Hhit; cbn [andb].
    + destruct (existsb (fun u => negb (user_has_id id u) && String.eqb (u_email u) e)
                        (users d)) eqn:Hother; cbn [orb]; [discriminate|].
      destruct (1 <? length (List.filter (user_has_id id) (users d)))%nat eqn:Hmany;
        [discriminate|].
      intros [= <- _ _]. split; [reflexivity|]. intros e' [= <-]. right.
      apply Nat.ltb_ge in Hmany. split; [exact Hmany|].
      intros u Hin Hno E.
      assert (Hex : existsb (fun u => negb (user_has_id id u) && String.eqb (u_email u) e)
                            (users d) = true).
      { apply existsb_exists. exists u. split; [exact Hin|].
        rewrite Hno, E, String.eqb_refl. reflexivity. }
      congruence.
    + intros [= <- _ _]. split; [reflexivity|]. intros e' _. left.
      apply existsb_filter_nil, Hhit.
  - intros [= <- _ _]. split; [reflexivity|]. intros e' [=].
Qed.

Lemma set_email_NoDup (hit : user_row -> bool) full_name e timestamp l :
  NoDup (map u_email l) ->
  (length (List.filter hit l) <= 1)%nat ->
  (forall u, In u l -> hit u = false -> u_email u <> e) ->
  NoDup (map u_email
             (map (fun u => if hit u then set_profile full_name (Some e) timestamp u else u)
                  l)).
Proof.
  induction l as [|x l IH]; simpl; [constructor|].
  intros Hnd Hlen Hother. apply NoDup_cons in Hnd as [Hx Hl].
  destruct (hit x) eqn:Hhit; simpl in Hlen |- *.
  - assert (Hnil : List.filter hit l = []).
    { destruct (List.filter hit l); [reflexivity | simpl in Hlen; lia]. }
    rewrite (filter_nil_map_id hit _ l Hnil). apply NoDup_cons. split; [|exact Hl].
    intros Hin%list_elem_of_In. apply in_map_iff in Hin as (u & Hu & Hin).
    apply (Hother u (or_intror Hin)); [|exact Hu].
    apply existsb_filter_nil in Hnil.
    destruct (hit u) eqn:Hhu; [|reflexivity].
    assert (existsb hit l = true) by (apply existsb_exists; eauto). congruence.
  - apply NoDup_cons. split.
    + intros Hin%list_elem_of_In. apply in_map_iff in Hin as (u' & Hu' & Hin).
      apply in_map_iff in Hin as (u & <- & Hin).
      destruct (hit u); simpl in Hu'.
      * apply (Hother x (or_introl eq_refl) Hhit). congruence.
      * apply Hx. rewrite <- Hu'. apply list_elem_of_In, in_map. exact Hin.
    + apply IH; [exact Hl | exact Hlen | ].
      intros u Hin. apply Hother. right. exact Hin.
Qed.

Lemma update_profile_columns_users_ok d full_name email id timestamp d' i c users_seq :
  update_profile_columns d full_name email id timestamp = Done d' i c ->
  users_ok d users_seq -> users_ok d' users_seq.
Proof.
  intros Hdone [Hids Hnames Hemails Hseq].
  apply update_profile_columns_done in Hdone as [-> Hemail].
  assert (Hsame : forall (A : Type) (f : user_row -> A),
             (forall u, f (set_profile full_name email timestamp u) = f u) ->
             map f (map (fun u => if user_has_id id u
                                  then set_profile full_name email timestamp u else u)
                        (users d)) = map f (users d)).
  { intros A f Hf. rewrite map_map. apply map_ext. intros u.
    destruct (user_has_id id u); [apply Hf | reflexivity]. }
  split; simpl users.
  - rewrite Hsame by reflexivity. exact Hids.
  - rewrite Hsame by reflexivity. exact Hnames.
  - destruct email as [e|].
    + destruct (Hemail e eq_refl) as [Hnil | [Hlen Hother]].
      * rewrite (filter_nil_map_id _ _ _ Hnil). exact Hemails.
      * apply set_email_NoDup; assumption.
    + rewrite Hsame by reflexivity. exact Hemails.
  - apply Forall_forall. intros u' Hin%list_elem_of_In.
    apply in_map_iff in Hin as (u & <- & Hin).
    rewrite Forall_forall in Hseq. apply list_elem_of_In, Hseq in Hin.
    destruct (user_has_id id u); exact Hin.
Qed.

(** Every way [updateProfile] can end. *)
Lemma updateProfile_cases d req body timestamp :
  (exists code error msg,
      updateProfile d req body timestamp = (AccountError code error msg, d)
      /\ code <> 200)
  \/ (exists me d' i c,
         req_user req = Some me
         /\ update_profile_columns d
              (if truthy (get body "full_name")
               then Some (text_cell (bind (get body "full_name"))) else None)
              (if truthy (get body "email")
               then Some (text_cell (bind (get body "email"))) else None)
              (bind (get me "id")) timestamp
            = Done d' i c
         /\ updateProfile d req body timestamp
            = (AccountOk 200 "Profile updated successfully"
                         (user_columns_dated <$>
                            List.find (user_has_id (bind (get me "id"))) (users d')),
               d')).
Proof.
  unfold updateProfile.
  destruct (req_user req) as [me|]; [|left; eexists _, _, _; split; [reflexivity|lia]].
  destruct (negb (truthy (get body "full_name")) && negb (truthy (get body "email")));
    [left; eexists _, _, _; split; [reflexivity|lia]|].
  destruct (if truthy (get body "email") then _ else None);
    [left; eexists _, _, _; split; [reflexivity|lia]|].
  destruct (update_profile_columns d _ _ _ _) as [d' i c|e] eqn:Hdone;
    [|left; eexists _, _, _; split; [reflexivity|lia]].
  right. exists me, d', i, c. auto.
Qed.

(** X21. [updateProfile] cannot touch what identifies an account or what
    it may do: whatever the request, the ids, usernames, roles, password
    hashes and creation times of all accounts are afterwards as they were,
    in the same order; the emails are when the request names no email and
    the full names when it names no full name; an account whose id is not
    the caller's is left as it was; after any answer but 200 the store is
    the one it was given; and the data of a 200 has no password hash. *)
Theorem profile_update_keeps_identity d req body timestamp :
  let r := updateProfile d req body timestamp in
  (account_status r.1 <> 200 -> r.2 = d)
  /\ map u_id (users r.2) = map u_id (users d)
  /\ map u_username (users r.2) = map u_username (users d)
  /\ map u_role (users r.2) = map u_role (users d)
  /\ map u_password_hash (users r.2) = map u_password_hash (users d)
  /\ map u_created_at (users r.2) = map u_created_at (users d)
  /\ (truthy (get body "email") = false -> map u_email (users r.2) = map u_email (users d))
  /\ (truthy (get body "full_name") = false ->
      map u_full_name (users r.2) = map u_full_name (users d))
  /\ (forall me u, req_user req = Some me -> In u (users d) ->
                   user_has_id (bind (get me "id")) u = false -> In u (users r.2))
  /\ students r.2 = students d
  /\ attendance r.2 = attendance d
  /\ (forall code m data, r.1 = AccountOk code m (Some data) ->
                          data !! "password_hash" = None).
Proof.
  cbv zeta.
  destruct (updateProfile_cases d req body timestamp)
    as [(code & e & m & -> & Hc) | (me & d' & i & c & Hme & Hdone & ->)];
    cbn [fst snd account_status].
  - split; [reflexivity|]. repeat split; try reflexivity; auto. discriminate.
  - apply update_profile_columns_done in Hdone as [-> _].
    split; [congruence|]. simpl users.
    repeat split;
      try (rewrite map_map; apply map_ext; intros x;
           destruct (user_has_id _ x); reflexivity).
    + intros He. rewrite He. rewrite map_map. apply map_ext. intros x.
      destruct (user_has_id _ x); reflexivity.
    + intros Hf. rewrite Hf. rewrite map_map. apply map_ext. intros x.
      destruct (user_has_id _ x); reflexivity.
    + intros me' u Hme' Hin Hno. rewrite Hme in Hme'. injection Hme' as <-.
      apply in_map_iff. exists u. rewrite Hno. auto.
    + intros code m data [= _ _ Hdata].
      destruct (List.find _ _) as [u|]; simpl in Hdata; [|discriminate].
      injection Hdata as <-. reflexivity.
Qed.

(** X22. [updateProfile] keeps the accounts apart: on a store where ids,
    usernames and emails are unique and no id is above the sequence, they
    still are after any call. *)
Theorem profile_update_keeps_accounts_unique d users_seq req body timestamp :
  users_ok d users_seq ->
  users_ok (updateProfile d req body timestamp).2 users_seq.
Proof.
  intros Hok.
  destruct (updateProfile_cases d req body timestamp)
    as [(code & e & m & -> & Hc) | (me & d' & i & c & Hme & Hdone & ->)];
    cbn [snd]; [exact Hok|].
  exact (update_profile_columns_users_ok _ _ _ _ _ _ _ _ _ Hdone Hok).
Qed.

Lemma profile_update_keeps_accounts_unique_witness :
  users_ok (updateProfile sample_db admin_request
                          {[ "email" := JStr "head@school-os.local" ]}
                          "2025-06-16 09:00:00").2 2
  /\ map u_email (users (updateProfile sample_db admin_request
                                       {[ "email" := JStr "head@school-os.local" ]}
                                       "2025-06-16 09:00:00").2)
     = ["head@school-os.local"; "ngozi@school-os.local"].
Proof.
  split; [|vm_compute; reflexivity].
  exact (profile_update_keeps_accounts_unique
           sample_db 2 admin_request {[ "email" := JStr "head@school-os.local" ]}
           "2025-06-16 09:00:00" sample_db_users_ok).
Defined.

(** X23. An email address another account holds is refused: when the
    caller's id is the number [n] and an account with another id has the
    submitted email, [updateProfile] answers 409 and leaves the store as
    it was, whatever full name comes with it. *)
Theorem taken_email_is_refused d req body timestamp me n e u :
  req_user req = Some me ->
  get me "id" = JNum n ->
  get body "email" = JStr e ->
  truthy (JStr e) = true ->
  In u (users d) ->
  u_email u = e ->
  u_id u <> n ->
  updateProfile d req body timestamp
  = (AccountError 409 "Email address is already in use" None, d).
Proof.
  intros Hme Hid He Ht Hin Hu Hne.
  unfold updateProfile. rewrite Hme, Hid, He, Ht.
  rewrite andb_false_r.
  destruct (select_other_user_with_email d (bind (JStr e)) (bind (JNum n)))
    as [i|] eqn:Hsel; [reflexivity|].
  exfalso. unfold select_other_user_with_email in Hsel.
  destruct (List.find _ (users d)) as [x|] eqn:Hfind; [discriminate|].
  apply (find_none _ _ Hfind) in Hin. simpl in Hin.
  rewrite Hu, String.eqb_refl in Hin. simpl in Hin.
  apply negb_false_iff, Z.eqb_eq in Hin. contradiction.
Qed.

Lemma taken_email_is_refused_witness :
  updateProfile sample_db admin_request
                {[ "email" := JStr "ngozi@school-os.local"; "full_name" := JStr "Head" ]}
                "2025-06-16 09:00:00"
  = (AccountError 409 "Email address is already in use" None, sample_db).
Proof.
  apply (taken_email_is_refused sample_db admin_request _ _ (user_columns admin_row) 1
                                "ngozi@school-os.local" teacher_row);
    try solve [vm_compute; reflexivity | vm_compute; discriminate].
  right. left. reflexivity.
Defined.

(** * Logging out *)

(** X24. [logout] ends the cookie session and nothing else: whatever it
    answers, the session is gone afterwards, so a request without a token
    is then refused with 401; a request that bears a token is judged by
    [authenticateToken] exactly as it was with the session in place,
    because a token that is present is never checked against a session. *)
Theorem logout_ends_the_session_not_the_token env d sess store_error req t now :
  authorization req = Some (Bearer t) ->
  token_truthy t = true ->
  (logout sess store_error).2 = None
  /\ authenticateToken env d (with_session req (logout sess store_error).2) now
     = match authenticateToken env d (with_session req sess) now with
       | Next r => Next (with_session r None)
       | Respond code error msg => Respond code error msg
       end
  /\ authenticateToken env d
       {| authorization := None; req_session := (logout sess store_error).2;
          req_user := None; req_userId := JUndefined |} now
     = Respond 401 "Access denied. No token provided." None.
Proof.
  intros Hauth Ht.
  assert (Hgone : (logout sess store_error).2 = None).
  { unfold logout. destruct sess, store_error; reflexivity. }
  split; [exact Hgone|]. rewrite Hgone. split; [|reflexivity].
  unfold authenticateToken, request_token, with_session.
  cbn [authorization req_session req_user req_userId].
  rewrite Hauth, Ht. cbn [negb andb].
  destruct sess; cbn [cbind];
    rewrite ?Ht;
    destruct (jwt_verify t (JWT_SECRET env) now) as [decoded|e]; simpl;
    try reflexivity;
    try (destruct (select_user_by_id d _); reflexivity);
    repeat (destruct (String.eqb _ _); try reflexivity).
Qed.

Lemma logout_ends_the_session_not_the_token_witness :
  attached_user
    (authenticateToken None sample_db
       (with_session (bearer admin_token)
                     (logout (Some {| userId := JNum 1; username := JStr "admin";
                                      role := JStr "admin" |}) None).2)
       1750000100)
  = Some (user_columns admin_row).
Proof.
  destruct (logout_ends_the_session_not_the_token
              None sample_db
              (Some {| userId := JNum 1; username := JStr "admin"; role := JStr "admin" |})
              None (bearer admin_token) admin_token 1750000100 eq_refl eq_refl)
    as (_ & -> & _).
  vm_compute. reflexivity.
Defined.

(** * School settings *)

Lemma has_key_eqb key r : has_key key r = String.eqb (ss_key r) key.
Proof. reflexivity. Qed.

Lemma find_has_key_in key t :
  List.find (has_key key) t <> None <-> In key (map ss_key t).
Proof.
  induction t as [|x t IH]; simpl; [tauto|].
  rewrite has_key_eqb. destruct (String.eqb (ss_key x) key) eqn:He.
  - apply String.eqb_eq in He. split; [auto | discriminate].
  - apply String.eqb_neq in He. rewrite IH. tauto.
Qed.

Lemma update_setting_value_find t value key timestamp k :
  List.find (has_key k) (update_setting_value t value key timestamp)
  = (fun r => if has_key key r then set_setting_value value timestamp r else r)
      <$> List.find (has_key k) t.
Proof.
  unfold update_setting_value. apply find_map_same.
  intros x. destruct (has_key key x); reflexivity.
Qed.

Lemma update_setting_value_other t value key timestamp k :
  k <> key ->
  List.find (has_key k) (update_setting_value t value key timestamp)
  = List.find (has_key k) t.
Proof.
  intros Hne. rewrite update_setting_value_find.
  destruct (List.find (has_key k) t) as [r|] eqn:Hfind; [|reflexivity]. simpl.
  apply find_some in Hfind as [_ Hk]. rewrite has_key_eqb in Hk.
  apply String.eqb_eq in Hk. rewrite has_key_eqb.
  destruct (String.eqb (ss_key r) key) eqn:He; [|reflexivity].
  apply String.eqb_eq in He. congruence.
Qed.

Lemma update_setting_value_same t value key timestamp r :
  List.find (has_key key) t = Some r ->
  List.find (has_key key) (update_setting_value t value key timestamp)
  = Some (set_setting_value value timestamp r).
Proof.
  intros Hfind. rewrite update_setting_value_find, Hfind. simpl.
  apply find_some in Hfind as [_ ->]. reflexivity.
Qed.

Lemma update_setting_value_columns {A} (f : setting_row -> A) t value key timestamp :
  (forall r, f (set_setting_value value timestamp r) = f r) ->
  map f (update_setting_value t value key timestamp) = map f t.
Proof.
  intros Hf. unfold update_setting_value. rewrite map_map. apply map_ext.
  intros r. destruct (has_key key r); [apply Hf | reflexivity].
Qed.

(** The JSON value a setting comes back as, for the JSON value sent. *)
Lemma stored_text_of v :
  unbind (text_affinity (bind v))
  = match v with
    | JStr s => JStr s
    | JNum n => JStr (pretty n)
    | JBool b => JStr (pretty (if b then 1 else 0))
    | JNull | JUndefined => JNull
    end.
Proof. destruct v as [| |[]| |]; reflexivity. Qed.

(** X25. [updateSetting] writes one existing setting and reads it back as
    text: it answers 200 exactly when the body has a [value] and the key is
    stored, and otherwise leaves the table as it was; after a 200,
    [getSetting] for the key returns the data of the reply, stamped with
    the time of the update, whose value is the submitted value as the
    driver binds it and a TEXT column holds it: a submitted text as it is,
    [null] as [null], a boolean as [1] or [0], a number the driver binds as
    an integer as its decimal text; [getSetting] for every other key
    answers as before; and no call adds or removes a key or changes an id,
    a type or a description. *)
Theorem update_setting_round_trip t settingKey req_body timestamp :
  let r := updateSetting t settingKey req_body timestamp in
  (settings_status r.1 = 200
   <-> get req_body "value" <> JUndefined /\ In settingKey (map ss_key t))
  /\ (settings_status r.1 <> 200 -> r.2 = t)
  /\ (settings_status r.1 = 200 ->
      exists data,
        r.1 = SettingOk (Some data) (Some "Setting updated successfully")
        /\ getSetting r.2 settingKey = SettingOk (Some data) None
        /\ get data "setting_key" = JStr settingKey
        /\ get data "updated_at" = JStr timestamp
        /\ get data "setting_value" = unbind (text_affinity (bind (get req_body "value")))
        /\ (forall s, get req_body "value" = JStr s -> get data "setting_value" = JStr s)
        /\ (get req_body "value" = JNull -> get data "setting_value" = JNull)
        /\ (forall b, get req_body "value" = JBool b ->
                      get data "setting_value" = JStr (if b then "1" else "0"))
        /\ (forall n, get req_body "value" = JNum n -> int32 n ->
                      get data "setting_value" = JStr (pretty n)))
  /\ (forall k, k <> settingKey -> getSetting r.2 k = getSetting t k)
  /\ map ss_key r.2 = map ss_key t
  /\ map ss_id r.2 = map ss_id t
  /\ map ss_type r.2 = map ss_type t
  /\ map ss_description r.2 = map ss_description t.
Proof.
  cbv zeta. unfold updateSetting.
  destruct (decide (get req_body "value" = JUndefined)) as [Hundef|Hdef];
    cbn [fst snd settings_status].
  - split; [split; [discriminate | tauto]|]. split; [reflexivity|].
    split; [discriminate|]. repeat split; reflexivity.
  - destruct (List.find (has_key settingKey) t) as [row|] eqn:Hfind;
      cbn [fst snd settings_status].
    + assert (Hin : In settingKey (map ss_key t))
        by (apply find_has_key_in; congruence).
      split; [tauto|]. split; [congruence|].
      rewrite (update_setting_value_same _ _ _ _ _ Hfind).
      split; [|split].
      * intros _. eexists. split; [reflexivity|].
        unfold getSetting. rewrite (update_setting_value_same _ _ _ _ _ Hfind).
        split; [reflexivity|].
        apply find_some in Hfind as [_ Hk]. rewrite has_key_eqb in Hk.
        apply String.eqb_eq in Hk.
        split; [unfold setting_columns; simpl; rewrite Hk; reflexivity|].
        split; [reflexivity|].
        assert (Hv : get (setting_columns
                            (set_setting_value (bind (get req_body "value")) timestamp row))
                         "setting_value"
                     = unbind (text_affinity (bind (get req_body "value"))))
          by reflexivity.
        rewrite Hv, stored_text_of. split; [reflexivity|].
        split; [intros s0 ->; reflexivity|]. split; [intros ->; reflexivity|].
        split; [intros [] ->; reflexivity | intros n -> _; reflexivity].
      * intros k Hne. unfold getSetting.
        rewrite (update_setting_value_other _ _ _ _ _ Hne). reflexivity.
      * repeat split; apply update_setting_value_columns; reflexivity.
    + assert (Hout : ~ In settingKey (map ss_key t)).
      { intros Hin. apply find_has_key_in in Hin. congruence. }
      split; [split; [discriminate | tauto]|]. split; [reflexivity|].
      split; [discriminate|]. repeat split; reflexivity.
Qed.

Lemma update_setting_round_trip_witness :
  exists data,
    getSetting (updateSetting sample_settings "academic_year" {[ "value" := JNum 2026 ]}
                              "2025-09-01 07:30:00").2 "academic_year"
    = SettingOk (Some data) None
    /\ get data "setting_value" = JStr "2026".
Proof.
  destruct (proj1 (proj2 (proj2 (update_setting_round_trip
                                   sample_settings "academic_year"
                                   {[ "value" := JNum 2026 ]} "2025-09-01 07:30:00"))))
    as (data & _ & Hget & _ & _ & _ & _ & _ & _ & Hvalue); [vm_compute; reflexivity|].
  exists data. split; [exact Hget|].
  apply (Hvalue 2026); [vm_compute; reflexivity | unfold int32; lia].
Defined.

Lemma bulk_loop_keys t entries timestamp :
  map ss_key (bulk_loop t entries timestamp).2 = map ss_key t.
Proof.
  revert t. induction entries as [|[key value] rest IH]; intros t; simpl; [reflexivity|].
  destruct (List.find (has_key key) t).
  - specialize (IH (update_setting_value t (bind value) key timestamp)).
    destruct (bulk_loop _ rest timestamp) as [results t'']. simpl in *.
    rewrite IH. apply update_setting_value_columns. reflexivity.
  - specialize (IH t). destruct (bulk_loop t rest timestamp) as [results t']. exact IH.
Qed.

Lemma find_has_key_ext t t' key :
  map ss_key t' = map ss_key t ->
  List.find (has_key key) t' = None <-> List.find (has_key key) t = None.
Proof.
  intros Hkeys.
  assert (H : forall l, List.find (has_key key) l = None <-> ~ In key (map ss_key l)).
  { intros l. pose proof (find_has_key_in key l) as Hl.
    destruct (List.find (has_key key) l) as [s|]; split; intros H'.
    - discriminate H'.
    - exfalso. apply H', Hl. discriminate.
    - intros Hin. apply Hl in Hin. congruence.
    - reflexivity. }
  rewrite !H, Hkeys. reflexivity.
Qed.

(** The results of the loop, one per entry in order: a success exactly for
    the keys the table holds. *)
Lemma bulk_loop_results t entries timestamp :
  map (fun r => (br_key r, br_success r)) (bulk_loop t entries timestamp).1
  = map (fun e => (e.1, existsb (has_key e.1) t)) entries.
Proof.
  revert t. induction entries as [|[key value] rest IH]; intros t; simpl; [reflexivity|].
  destruct (List.find (has_key key) t) as [r|] eqn:Hfind.
  - specialize (IH (update_setting_value t (bind value) key timestamp)).
    destruct (bulk_loop _ rest timestamp) as [results t'']. simpl in *.
    rewrite IH. f_equal.
    + f_equal. symmetry. apply not_false_iff_true. rewrite <- find_existsb. congruence.
    + apply map_ext. intros e. f_equal.
      destruct (existsb (has_key e.1) t) eqn:He.
      * apply not_false_iff_true. rewrite <- find_existsb.
        rewrite find_has_key_ext
          by (apply update_setting_value_columns; reflexivity).
        rewrite find_existsb. congruence.
      * rewrite <- find_existsb in He |- *.
        rewrite find_has_key_ext
          by (apply update_setting_value_columns; reflexivity).
        exact He.
  - specialize (IH t). destruct (bulk_loop t rest timestamp) as [results t'].
    simpl in *. rewrite IH. f_equal. f_equal. symmetry. apply find_existsb, Hfind.
Qed.

Lemma filter_length_split {A} (f : A -> bool) l :
  (length (List.filter f l) + length (List.filter (fun x => negb (f x)) l))%nat = length l.
Proof.
  induction l as [|x l IH]; simpl; [reflexivity|].
  destruct (f x); simpl; lia.
Qed.

Lemma filter_map_length {A B} (f : B -> bool) (g : A -> B) l :
  length (List.filter f (map g l)) = length (List.filter (fun x => f (g x)) l).
Proof.
  induction l as [|x l IH]; simpl; [reflexivity|].
  destruct (f (g x)); simpl; rewrite IH; reflexivity.
Qed.

(** X26. The summary of [bulkUpdateSettings] adds up: for a body that is
    an object the answer is always the 200 summary, also when no entry
    could be applied; it has one result per entry, in the order of the
    entries and under their keys; a result is a success exactly when
    the table holds its key; [successful] counts those, [failed] the
    others, and together they are [total]; and no key is added to or
    removed from the table. *)
Theorem bulk_summary_adds_up t entries timestamp :
  let r := bulkUpdateSettings t (Some entries) timestamp in
  exists b,
    r.1 = BulkOk b
    /\ map br_key (bulk_results b) = map fst entries
    /\ map br_success (bulk_results b) = map (fun e => existsb (has_key e.1) t) entries
    /\ bulk_total b = Z.of_nat (length entries)
    /\ bulk_successful b
       = Z.of_nat (length (List.filter (fun e => existsb (has_key e.1) t) entries))
    /\ bulk_successful b + bulk_failed b = bulk_total b
    /\ map ss_key r.2 = map ss_key t.
Proof.
  cbv zeta. unfold bulkUpdateSettings.
  pose proof (bulk_loop_results t entries timestamp) as Hres.
  pose proof (bulk_loop_keys t entries timestamp) as Hkeys.
  destruct (bulk_loop t entries timestamp) as [results t']. simpl in Hres, Hkeys.
  eexists. split; [reflexivity|]. cbn [bulk_results bulk_total bulk_successful bulk_failed snd].
  assert (Hk : map br_key results = map fst entries).
  { apply (f_equal (map fst)) in Hres. rewrite !map_map in Hres. exact Hres. }
  assert (Hs : map br_success results = map (fun e => existsb (has_key e.1) t) entries).
  { apply (f_equal (map snd)) in Hres. rewrite !map_map in Hres. exact Hres. }
  split; [exact Hk|]. split; [exact Hs|].
  assert (Hlen : length results = length entries).
  { apply (f_equal (@length _)) in Hk. rewrite !length_map in Hk. exact Hk. }
  split; [rewrite Hlen; reflexivity|]. split; [|split; [|exact Hkeys]].
  - f_equal.
    transitivity (length (List.filter (fun b : bool => b) (map br_success results))).
    + rewrite filter_map_length. reflexivity.
    + rewrite Hs, filter_map_length. reflexivity.
  - pose proof (filter_length_split br_success results). lia.
Qed.

Lemma bulk_loop_other t entries timestamp k :
  ~ In k (map fst entries) ->
  List.find (has_key k) (bulk_loop t entries timestamp).2 = List.find (has_key k) t.
Proof.
  revert t. induction entries as [|[key value] rest IH]; intros t Hout; simpl;
    [reflexivity|].
  simpl in Hout.
  destruct (List.find (has_key key) t).
  - specialize (IH (update_setting_value t (bind value) key timestamp)).
    destruct (bulk_loop _ rest timestamp) as [results t'']. simpl in *.
    rewrite IH by tauto. apply update_setting_value_other. intros E. apply Hout. auto.
  - specialize (IH t). destruct (bulk_loop t rest timestamp) as [results t'].
    simpl in *. apply IH. tauto.
Qed.

Lemma bulk_loop_entry t entries timestamp k v r :
  NoDup (map fst entries) ->
  In (k, v) entries ->
  List.find (has_key k) t = Some r ->
  List.find (has_key k) (bulk_loop t entries timestamp).2
  = Some (set_setting_value (bind v) timestamp r).
Proof.
  revert t r. induction entries as [|[key value] rest IH]; intros t r Hnd Hin Hfind;
    simpl in *; [contradiction|].
  apply NoDup_cons in Hnd as [Hfresh Hnd].
  destruct Hin as [[= -> ->] | Hin].
  - rewrite Hfind.
    pose proof (bulk_loop_other (update_setting_value t (bind v) k timestamp)
                                rest timestamp k) as Hother.
    destruct (bulk_loop _ rest timestamp) as [results t'']. simpl in *.
    rewrite Hother.
    + apply update_setting_value_same, Hfind.
    + intros Hk. apply Hfresh, list_elem_of_In, Hk.
  - assert (Hne : k <> key).
    { intros ->. apply Hfresh, list_elem_of_In.
      change key with (fst (key, v)). apply in_map. exact Hin. }
    destruct (List.find (has_key key) t).
    + specialize (IH (update_setting_value t (bind value) key timestamp) r Hnd Hin).
      destruct (bulk_loop _ rest timestamp) as [results t'']. simpl in *.
      apply IH. rewrite update_setting_value_other by exact Hne. exact Hfind.
    + specialize (IH t r Hnd Hin Hfind).
      destruct (bulk_loop t rest timestamp) as [results t']. exact IH.
Qed.

(** X27. [bulkUpdateSettings] applies every entry it can and touches
    nothing else: for the entries of an object, whose keys are distinct,
    a following [getSetting] for a key the table held returns the value
    of that key's entry as text, and [getSetting] for a key the body
    does not name answers as before. *)
Theorem bulk_update_applies_each_entry t entries timestamp :
  NoDup (map fst entries) ->
  let r := bulkUpdateSettings t (Some entries) timestamp in
  (forall k v, In (k, v) entries -> In k (map ss_key t) ->
     exists data,
       getSetting r.2 k = SettingOk (Some data) None
       /\ get data "setting_value" = unbind (text_affinity (bind v)))
  /\ (forall k, ~ In k (map fst entries) -> getSetting r.2 k = getSetting t k).
Proof.
  intros Hnd. cbv zeta.
  assert (Hr : (bulkUpdateSettings t (Some entries) timestamp).2
               = (bulk_loop t entries timestamp).2).
  { unfold bulkUpdateSettings. destruct (bulk_loop t entries timestamp). reflexivity. }
  rewrite Hr. split.
  - intros k v Hin Hk. apply find_has_key_in in Hk.
    destruct (List.find (has_key k) t) as [row|] eqn:Hfind; [|congruence].
    unfold getSetting. rewrite (bulk_loop_entry _ _ _ _ _ _ Hnd Hin Hfind).
    eexists. split; reflexivity.
  - intros k Hout. unfold getSetting. rewrite (bulk_loop_other _ _ _ _ Hout). reflexivity.
Qed.

Lemma bulk_update_applies_each_entry_witness :
  getSetting (bulkUpdateSettings sample_settings
                (Some [("school_name", JStr "Unity School"); ("motto", JStr "Onward")])
                "2025-09-01 07:30:00").2 "academic_year"
  = getSetting sample_settings "academic_year"
  /\ settings_status
       (getSetting (bulkUpdateSettings sample_settings
                      (Some [("school_name", JStr "Unity School");
                             ("motto", JStr "Onward")])
                      "2025-09-01 07:30:00").2 "motto") = 404.
Proof.
  split; [|vm_compute; reflexivity].
  apply (proj2 (bulk_update_applies_each_entry
                  sample_settings
                  [("school_name", JStr "Unity School"); ("motto", JStr "Onward")]
                  "2025-09-01 07:30:00"
                  ltac:(apply (bool_decide_unpack _); vm_compute; exact I))).
  simpl. intuition discriminate.
Defined.

Lemma settings_object_of_list (l : list setting_row) :
  NoDup (map ss_key l) ->
  foldl (fun obj setting => <[ss_key setting := setting_entry setting]> obj)
        (∅ : gmap string (gmap string jsval)) l
  = list_to_map (map (fun r => (ss_key r, setting_entry r)) l).
Proof.
  induction l as [|x l IH] using rev_ind; [reflexivity|].
  rewrite map_app. intros Hnd. apply NoDup_app in Hnd as (Hl & Hx & _).
  rewrite foldl_snoc, map_app, IH by exact Hl. simpl.
  rewrite list_to_map_snoc; [reflexivity|].
  rewrite <- list_fmap_compose. intros Hin. apply (Hx (ss_key x)); [exact Hin|].
  simpl. apply list_elem_of_here.
Qed.

Lemma settings_object_lookup (l : list setting_row) k :
  (list_to_map (map (fun r => (ss_key r, setting_entry r)) l)
   : gmap string (gmap string jsval)) !! k
  = setting_entry <$> List.find (has_key k) l.
Proof.
  induction l as [|x l IH]; simpl; [apply lookup_empty|].
  rewrite has_key_eqb. destruct (String.eqb (ss_key x) k) eqn:He.
  - apply String.eqb_eq in He. subst k. apply lookup_insert_eq.
  - apply String.eqb_neq in He. rewrite lookup_insert_ne by exact He. exact IH.
Qed.

(** X28. [getAllSettings] and [getSetting] agree: on a table whose keys
    are distinct, as the schema has them, the object [getAllSettings]
    sends has an entry for a key exactly when [getSetting] finds that key,
    made of the value, type, description and update time of the same row;
    and [total] counts the rows, which is the number of entries. *)
Theorem all_settings_agree_with_get_setting t :
  NoDup (map ss_key t) ->
  exists data,
    getAllSettings t = AllSettings data (Z.of_nat (length t))
    /\ size data = length t
    /\ forall k, data !! k = setting_entry <$> List.find (has_key k) t.
Proof.
  intros Hnd. unfold getAllSettings. cbv zeta.
  pose proof (merge_sort_Permutation key_order t) as Hperm.
  assert (Hnd' : NoDup (map ss_key (merge_sort key_order t))).
  { eapply NoDup_Permutation_proper; [|exact Hnd].
    apply fmap_Permutation, Hperm. }
  rewrite (settings_object_of_list _ Hnd').
  assert (Hsame : (list_to_map (map (fun r => (ss_key r, setting_entry r))
                                    (merge_sort key_order t))
                   : gmap string (gmap string jsval))
                  = list_to_map (map (fun r => (ss_key r, setting_entry r)) t)).
  { apply list_to_map_proper.
    - rewrite <- list_fmap_compose. exact Hnd'.
    - apply fmap_Permutation, Hperm. }
  rewrite Hsame. eexists. split; [|split].
  - f_equal. f_equal. apply Permutation_length, Hperm.
  - rewrite map_size_list_to_map.
    + apply length_map.
    + rewrite <- list_fmap_compose. exact Hnd.
  - intros k. apply settings_object_lookup.
Qed.

Lemma all_settings_agree_with_get_setting_witness :
  exists data,
    getAllSettings sample_settings = AllSettings data 3
    /\ (fun entry => get entry "value") <$> data !! "academic_year"
       = Some (JStr "2024-2025").
Proof.
  destruct (all_settings_agree_with_get_setting sample_settings)
    as (data & Hall & _ & Hlookup).
  - apply (bool_decide_unpack _). vm_compute. exact I.
  - exists data. split; [exact Hall|]. rewrite Hlookup. vm_compute. reflexivity.
Defined.

(** * Marking a class present twice *)

Lemma restamped_refl ts d : restamped ts d d.
Proof.
  repeat split. induction (attendance d) as [|x l IH]; constructor; auto.
Qed.

Lemma restamped_trans ts d d' d'' :
  restamped ts d d' -> restamped ts d' d'' -> restamped ts d d''.
Proof.
  intros (Hu & Hs & Hq & Hr) (Hu' & Hs' & Hq' & Hr').
  split; [congruence|]. split; [congruence|]. split; [congruence|].
  revert Hr Hr'. generalize (attendance d) (attendance d') (attendance d'').
  intros l l' l'' H. revert l''.
  induction H as [|x y l l' Hxy _ IH]; intros l'' H'; inversion H'; subst; constructor.
  - destruct Hxy as [-> | ->]; [assumption|].
    match goal with H : _ \/ _ |- _ => destruct H as [-> | ->] end; auto.
  - apply IH. assumption.
Qed.

Lemma recorded_restamped ts d d' s dt st nt :
  restamped ts d d' -> recorded d s dt st nt -> recorded d' s dt st nt.
Proof.
  intros (_ & _ & _ & Hr). unfold recorded, records_for.
  induction Hr as [|x y l l' Hxy Hll IH]; [tauto|].
  assert (Hsame : same_day s dt y = same_day s dt x
                  /\ at_status y = at_status x /\ at_notes y = at_notes x).
  { destruct Hxy as [-> | ->]; repeat split; reflexivity. }
  destruct Hsame as (Hd & Hst & Hnt). simpl. rewrite Hd.
  destruct (same_day s dt x).
  - intros [_ Hall]. apply Forall_cons in Hall as [Hx Hl]. split; [discriminate|].
    constructor; [rewrite Hst, Hnt; exact Hx|].
    destruct (List.filter (same_day s dt) l) eqn:Hf.
    + clear IH. clear Hl.
      assert (List.filter (same_day s dt) l' = []) as ->; [|constructor].
      revert Hf. clear -Hll. induction Hll as [|a b k k' Hab _ IHk]; [reflexivity|].
      simpl. assert (same_day s dt b = same_day s dt a) as ->
          by (destruct Hab as [-> | ->]; reflexivity).
      destruct (same_day s dt a); [discriminate | exact IHk].
    + apply IH. split; [discriminate | exact Hl].
  - exact IH.
Qed.

(** A student whose record for the day already says [present] with the
    notes of the request: the loop body updates, and only the update time
    of that record changes. *)
Lemma mark_one_fixed ts d date notes s :
  recorded d (SInt s) (bind date) (SText "present")
           (text_affinity (bind (js_or notes JNull))) ->
  exists d',
    mark_one ts d date notes s = (MSuccess Updated s None, d')
    /\ restamped ts d d'
    /\ Forall (fun r => at_updated_at r = ts) (records_for d' (SInt s) (bind date)).
Proof.
  intros [Hne Hall]. unfold mark_one.
  destruct (select_attendance_id d (SInt s) (bind date)) as [id|] eqn:Hsel;
    [|apply select_none in Hsel; contradiction].
  destruct (update_attendance ts d (SText "present") (bind (js_or notes JNull))
                              (SInt s) (bind date)) as [d' i c|e] eqn:Hup.
  2:{ unfold update_attendance in Hup. cbn [is_null] in Hup.
      rewrite andb_false_r in Hup. discriminate. }
  exists d'. split; [reflexivity|].
  split; [|exact (proj1 (update_attendance_stamps _ _ _ _ _ _ _ _ _ Hup))].
  unfold update_attendance in Hup. cbn [is_null] in Hup. rewrite andb_false_r in Hup.
  injection Hup as <- _ _. repeat split. simpl.
  unfold records_for in Hall. clear Hne Hsel.
  induction (attendance d) as [|x l IH]; simpl; [constructor|].
  simpl in Hall. destruct (same_day (SInt s) (bind date) x) eqn:Hx.
  - apply Forall_cons in Hall as [[Hst Hnt] Hl]. constructor; [|apply IH, Hl].
    right. destruct x; simpl in *. subst. reflexivity.
  - constructor; [left; reflexivity | apply IH, Hall].
Qed.

Lemma mark_loop_fixed ts date notes l :
  forall d results,
    (forall s, In s l ->
       recorded d (SInt s) (bind date) (SText "present")
                (text_affinity (bind (js_or notes JNull)))) ->
    exists d',
      mark_loop ts d date notes l results
      = ((results ++ map (fun s => MSuccess Updated s None) l)%list, d')
      /\ restamped ts d d'
      /\ forall s, In s l ->
                   Forall (fun r => at_updated_at r = ts)
                          (records_for d' (SInt s) (bind date)).
Proof.
  induction l as [|s rest IH]; intros d results Hall; simpl.
  - exists d. rewrite app_nil_r. split; [reflexivity|].
    split; [apply restamped_refl | intros s []].
  - destruct (mark_one_fixed ts d date notes s (Hall s (or_introl eq_refl)))
      as (d1 & -> & Hr1 & Hs1).
    destruct (IH d1 (results ++ [MSuccess Updated s None])%list) as (d' & -> & Hr & Hs).
    { intros s' Hs'. eapply recorded_restamped; [exact Hr1|]. apply Hall. right. exact Hs'. }
    exists d'. rewrite <- app_assoc. split; [reflexivity|].
    split; [eapply restamped_trans; eassumption|].
    intros s' [<- | Hs']; [|apply Hs, Hs'].
    destruct Hr as (_ & _ & _ & Hr). unfold records_for in *.
    revert Hs1. clear -Hr. induction Hr as [|a b k k' Hab _ IHk]; [tauto|].
    simpl. assert (same_day (SInt s) (bind date) b = same_day (SInt s) (bind date) a) as ->
        by (destruct Hab as [-> | ->]; reflexivity).
    destruct (same_day (SInt s) (bind date) a); [|exact IHk].
    intros H. apply Forall_cons in H as [Ha Hk]. constructor; [|apply IHk, Hk].
    destruct Hab as [-> | ->]; [exact Ha | reflexivity].
Qed.

Lemma all_updated_counts (l : list Z) :
  length (List.filter mark_success (map (fun s => MSuccess Updated s None) l)) = length l
  /\ length (List.filter (fun r => negb (mark_success r))
                         (map (fun s => MSuccess Updated s None) l)) = 0%nat.
Proof.
  induction l as [|s l [IH1 IH2]]; simpl; [split; reflexivity|].
  split; [f_equal; exact IH1 | exact IH2].
Qed.

(** X29. [markAllPresent] can be repeated: a second call with the same
    body, on the store the first one left, changes nothing but update
    times.  Users, students and the sequence are as they were; every
    attendance record is as it was, or as it was with the time of the
    second call as its update time, which is what the records of the
    class for the date end with; and every result of the second call is
    an update of an existing record, none a creation.  For a class with
    active students the second call answers with one [updated] entry per
    student, in order, all counted as successes, and each student still has
    a record for the date, marked [present] with the notes of the
    request. *)
Theorem mark_all_present_twice_is_once ts1 ts2 d o :
  let d1 := (markAllPresent ts1 d o).2 in
  let second := markAllPresent ts2 d1 o in
  let class := select_active_students d (bind (get o "class_id")) in
  users second.2 = users d1
  /\ students second.2 = students d1
  /\ attendance_seq second.2 = attendance_seq d1
  /\ Forall2 (fun r r' => r' = r \/ r' = with_updated_at ts2 r)
             (attendance d1) (attendance second.2)
  /\ (forall m rs sm, second.1 = Batch m rs sm ->
        Forall (fun r => r = MSuccess Updated (mark_student r) None) rs
        /\ forall s, In s class ->
             Forall (fun r => at_updated_at r = ts2)
                    (records_for second.2 (SInt s) (bind (get o "date"))))
  /\ (truthy (get o "class_id") = true -> truthy (get o "date") = true -> class <> [] ->
      second.1
      = Batch ("Marked all present: " +:+ pretty (length class) +:+ " successful, "
                 +:+ pretty 0%nat +:+ " failed")
              (map (fun s => MSuccess Updated s None) class)
              {| total := length class; successful := length class; failed := 0 |}
      /\ forall s, In s class ->
           recorded second.2 (SInt s) (bind (get o "date")) (SText "present")
                    (text_affinity (bind (js_or (get o "notes") JNull)))).
Proof.
  cbv zeta.
  assert (Hrun :
            (exists code e m, markAllPresent ts1 d o = (Failed code e m, d)
                              /\ markAllPresent ts2 d o = (Failed code e m, d)
                              /\ ~ (truthy (get o "class_id") = true
                                    /\ truthy (get o "date") = true
                                    /\ select_active_students d (bind (get o "class_id"))
                                       <> []))
            \/ (exists r d',
                   markAllPresent ts1 d o = (r, d')
                   /\ truthy (get o "class_id") = true
                   /\ truthy (get o "date") = true
                   /\ students d' = students d
                   /\ forall s, In s (select_active_students d (bind (get o "class_id"))) ->
                        recorded d' (SInt s) (bind (get o "date")) (SText "present")
                                 (text_affinity (bind (js_or (get o "notes") JNull))))).
  { unfold markAllPresent.
    destruct (truthy (get o "class_id")) eqn:Hc; simpl;
      [|left; eexists _, _, _; split; [|split]; [reflexivity..|];
        intros (H & _ & _); discriminate].
    destruct (truthy (get o "date")) eqn:Hdt; simpl;
      [|left; eexists _, _, _; split; [|split]; [reflexivity..|];
        intros (_ & H & _); discriminate].
    destruct (length (select_active_students d (bind (get o "class_id"))) =? 0)%nat
      eqn:Hlen.
    { left; eexists _, _, _; split; [|split]; [reflexivity..|].
      intros (_ & _ & H). apply H.
      destruct (select_active_students d _); [reflexivity | discriminate]. }
    destruct (mark_loop_known ts1 (get o "date") (get o "notes")
                (select_active_students d (bind (get o "class_id")))
                (truthy_not_null _ Hdt) d [])
      as (rs & d' & Hloop & _ & _ & Hst & _ & Hall).
    { intros s' Hs'. eapply active_student_exists; eauto. }
    rewrite Hloop. right. eexists _, d'. split; [reflexivity|]. auto. }
  destruct Hrun as [(code & e & m & Hfail & Hagain & Hnot)
                   | (r & d' & Hok & Hc & Hdt & Hst & Hall)].
  - rewrite Hfail. cbn [snd]. rewrite Hagain. cbn [fst snd].
    pose proof (restamped_refl ts2 d) as (Hu & Hs & Hq & Hr).
    split; [exact Hu|]. split; [exact Hs|]. split; [exact Hq|]. split; [exact Hr|].
    split; [discriminate|]. intros H1 H2 H3. exfalso. apply Hnot. auto.
  - rewrite Hok. cbn [snd]. unfold markAllPresent. rewrite Hc, Hdt. cbn [negb orb].
    assert (Hclass : select_active_students d' (bind (get o "class_id"))
                     = select_active_students d (bind (get o "class_id"))).
    { unfold select_active_students. rewrite Hst. reflexivity. }
    rewrite Hclass.
    destruct (length (select_active_students d (bind (get o "class_id"))) =? 0)%nat
      eqn:Hlen.
    { cbn [fst snd]. pose proof (restamped_refl ts2 d') as (Hu & Hs & Hq & Hr).
      split; [exact Hu|]. split; [exact Hs|]. split; [exact Hq|]. split; [exact Hr|].
      split; [discriminate|]. intros _ _ Hne. exfalso. apply Hne.
      destruct (select_active_students d _); [reflexivity | discriminate]. }
    destruct (mark_loop_fixed ts2 (get o "date") (get o "notes") _ d' [] Hall)
      as (d2 & -> & Hre & Hstamps).
    pose proof Hre as (Hu & Hs & Hq & Hr).
    cbn [fst snd app].
    split; [exact Hu|]. split; [exact Hs|]. split; [exact Hq|]. split; [exact Hr|].
    split.
    + intros m rs sm [= _ <- _]. split; [|exact Hstamps].
      apply Forall_forall. intros x Hin%list_elem_of_In.
      apply in_map_iff in Hin as (s & <- & _). reflexivity.
    + intros _ _ _.
      destruct (all_updated_counts (select_active_students d (bind (get o "class_id"))))
        as [-> ->].
      rewrite length_map. split; [reflexivity|].
      intros s Hs'. eapply recorded_restamped; [exact Hre | apply Hall, Hs'].
Qed.

Lemma mark_all_present_twice_is_once_witness :
  map (fun r => (at_id r, at_status r, at_created_at r, at_updated_at r))
      (attendance
         (markAllPresent "2025-06-16 09:30:00"
            (markAllPresent sample_time sample_db
               {[ "class_id" := JNum 1; "date" := JStr "2025-06-16" ]}).2
            {[ "class_id" := JNum 1; "date" := JStr "2025-06-16" ]}).2)
  = [ (1, SText "present", "2025-06-16 07:40:00", "2025-06-16 09:30:00");
      (2, SText "present", sample_time, "2025-06-16 09:30:00") ]
  /\ (markAllPresent "2025-06-16 09:30:00"
        (markAllPresent sample_time sample_db
           {[ "class_id" := JNum 1; "date" := JStr "2025-06-16" ]}).2
        {[ "class_id" := JNum 1; "date" := JStr "2025-06-16" ]}).1
     = Batch "Marked all present: 2 successful, 0 failed"
             [MSuccess Updated 1 None; MSuccess Updated 2 None]
             {| total := 2; successful := 2; failed := 0 |}.
Proof.
  split; [vm_compute; reflexivity|].
  destruct (proj2 (proj2 (proj2 (proj2 (proj2
              (mark_all_present_twice_is_once
                 sample_time "2025-06-16 09:30:00" sample_db
                 {[ "class_id" := JNum 1; "date" := JStr "2025-06-16" ]}))))))
    as [Hreply _]; [vm_compute; first [reflexivity | discriminate]..|].
  rewrite Hreply. vm_compute. reflexivity.
Defined.
